(** * BlenderRenderFarm: the render job orchestration core

    A shallow embedding of [backend/tasks.py] (the Celery task
    [render_blend_file] and the progress parsing of its monitoring loop),
    of [backend/app.py] ([allowed_file], [upload_file], [get_status],
    [download_file], [list_jobs]) and of the constants of
    [backend/config.py], followed by the properties the specification
    states about them and by further properties of the code.

    Conventions of the embedding.
    - A Python [str] is a [string]; its characters are the code points
      0..255.  On these, the regular expression class [\d] is the ten ASCII
      digits and the white space of [str.strip] is the set [is_space]
      below.
    - A Python [int] is a [Z].  [int(s)] on a run of digits is the number
      the run denotes (an interpreter limit on the length of decimal
      strings is not part of the model).
    - A Python [float] is an IEEE 754 binary64 value: a [spec_float] in
      canonical form for 53 bits of precision ([valid_binary]).  The
      arithmetic is the Standard Library's [SFmul], [SFdiv], [SFadd],
      with rounding to nearest even.
    - A raised exception is a value of [exn]; code that can raise lives in
      the monad [result].
    - The file system, the result backend, the task queue and the render
      process are explicit state or explicit inputs. *)

From Stdlib Require Import ZArith String Ascii List Lia Bool.
From Stdlib Require Import Floats.SpecFloat.
From Stdlib Require Import DecimalString DecimalPos.
From stdpp Require Import base option gmap strings list.

Open Scope Z_scope.

(** ** Exceptions and the error monad *)

Inductive os_error := ENOENT | EEXIST | ENOTDIR | EISDIR | EACCES.

Inductive exn :=
| Exception (msg : string)
| OSError (code : os_error) (filename : option string)
| ValueError
| ZeroDivisionError
| OverflowError.

Definition errno (c : os_error) : string * string :=
  match c with
  | ENOENT => ("2", "No such file or directory")
  | EEXIST => ("17", "File exists")
  | ENOTDIR => ("20", "Not a directory")
  | EISDIR => ("21", "Is a directory")
  | EACCES => ("13", "Permission denied")
  end%string.

(** [str(e)].  An [OSError] prints its error number and text, and its
    file name when it has one.  The text of the three arithmetic
    exceptions is not modelled: in this program each of them is raised
    under an [except: pass] or by a conversion of [upload_file] that ends
    the request, and the properties below speak of the text of an
    [Exception] or an [OSError] only. *)
Definition str_exn (e : exn) : string :=
  match e with
  | Exception msg => msg
  | OSError c (Some path) =>
      "[Errno " +:+ fst (errno c) +:+ "] " +:+ snd (errno c) +:+ ": '" +:+ path +:+ "'"
  | OSError c None => "[Errno " +:+ fst (errno c) +:+ "] " +:+ snd (errno c)
  | ValueError | ZeroDivisionError | OverflowError => ""
  end.

(** The exception a failed task is read back as.  The result backend
    keeps the type of an exception and its [args], and [AsyncResult]
    builds the exception again from the two.  The [args] of an [OSError]
    that a system call raised are the error number and its text: the
    file name is not among them and is lost. *)
Definition stored_exn (e : exn) : exn :=
  match e with
  | OSError c _ => OSError c None
  | _ => e
  end.

Inductive result (A : Type) :=
| Ok (a : A)
| Raise (e : exn).
Arguments Ok {A} a.
Arguments Raise {A} e.

#[global] Instance result_ret : MRet result := fun A a => Ok a.
#[global] Instance result_bind : MBind result := fun A B f m =>
  match m with
  | Ok a => f a
  | Raise e => Raise e
  end.

(** ** Python strings *)

Module Str.

Definition is_digit (c : ascii) : bool :=
  (48 <=? nat_of_ascii c)%nat && (nat_of_ascii c <=? 57)%nat.

(** White space of [str.strip()] among the code points 0..255: TAB..CR,
    FS..US, space, NEL and NBSP. *)
Definition is_space (c : ascii) : bool :=
  let n := nat_of_ascii c in
  ((9 <=? n) && (n <=? 13) || (28 <=? n) && (n <=? 32)
   || (n =? 133) || (n =? 160))%nat.

(** White space that [int(str)] skips around the number: TAB..CR and
    space, and the two spaces beyond ASCII, NEL and NBSP (the separators
    FS..US are not skipped). *)
Definition is_int_space (c : ascii) : bool :=
  let n := nat_of_ascii c in
  ((9 <=? n) && (n <=? 13) || (n =? 32) || (n =? 133) || (n =? 160))%nat.

Definition digit_val (c : ascii) : Z := Z.of_nat (nat_of_ascii c) - 48.

Fixpoint all_digits (s : string) : bool :=
  match s with
  | EmptyString => true
  | String c s' => is_digit c && all_digits s'
  end.

(** [head_is_digit s]: [s] starts with a digit. *)
Definition head_is_digit (s : string) : bool :=
  match s with
  | EmptyString => false
  | String c _ => is_digit c
  end.

(** The longest run of digits at the head of [s], and what follows it:
    what a greedy [\d*] consumes. *)
Fixpoint span_digits (s : string) : string * string :=
  match s with
  | EmptyString => (EmptyString, EmptyString)
  | String c s' =>
      if is_digit c
      then let '(ds, r) := span_digits s' in (String c ds, r)
      else (EmptyString, s)
  end.

Fixpoint int_of_digits_acc (acc : Z) (s : string) : Z :=
  match s with
  | EmptyString => acc
  | String c s' => int_of_digits_acc (10 * acc + digit_val c) s'
  end.

(** [int(ds)] for a run of digits [ds]. *)
Definition int_of_digits (ds : string) : Z := int_of_digits_acc 0 ds.

(** [str(n)] and [f'{n}'] for an [int]. *)
Definition str_of_int (n : Z) : string := NilZero.string_of_int (Z.to_int n).

(** What is left of [s] after its prefix [p], if [p] is one. *)
Fixpoint strip_prefix (p s : string) : option string :=
  match p, s with
  | EmptyString, _ => Some s
  | String a p', String b s' =>
      if Ascii.eqb a b then strip_prefix p' s' else None
  | String _ _, EmptyString => None
  end.

(** [s.startswith(p)]. *)
Definition startswith (s p : string) : bool :=
  match strip_prefix p s with
  | Some _ => true
  | None => false
  end.

(** [p in s] for strings. *)
Fixpoint contains (p s : string) : bool :=
  startswith s p ||
  match s with
  | EmptyString => false
  | String _ s' => contains p s'
  end.

(** Removal of the characters of the class [sp] at the head. *)
Fixpoint lstrip_by (sp : ascii -> bool) (s : string) : string :=
  match s with
  | EmptyString => EmptyString
  | String c s' => if sp c then lstrip_by sp s' else s
  end.

(** Removal at the tail: a character is kept when it or anything after
    it is not of the class. *)
Fixpoint rstrip_by (sp : ascii -> bool) (s : string) : string :=
  match s with
  | EmptyString => EmptyString
  | String c s' =>
      match rstrip_by sp s' with
      | EmptyString => if sp c then EmptyString else String c EmptyString
      | r => String c r
      end
  end.

(** [s.strip()]. *)
Definition strip (s : string) : string := rstrip_by is_space (lstrip_by is_space s).

(** The capital letters among the code points 0..255 are A..Z and
    U+00C0..U+00DE without the multiplication sign U+00D7; each has its
    small letter 32 places further. *)
Definition lower_char (c : ascii) : ascii :=
  let n := nat_of_ascii c in
  if ((65 <=? n) && (n <=? 90)
      || (192 <=? n) && (n <=? 222) && negb (n =? 215))%nat
  then ascii_of_nat (n + 32) else c.

(** [s.lower()]. *)
Fixpoint lower (s : string) : string :=
  match s with
  | EmptyString => EmptyString
  | String c s' => String (lower_char c) (lower s')
  end.

(** [s.endswith(p)]. *)
Fixpoint endswith (s p : string) : bool :=
  String.eqb s p ||
  match s with
  | EmptyString => false
  | String _ s' => endswith s' p
  end.

(** [sep.join(l)]. *)
Fixpoint join (sep : string) (l : list string) : string :=
  match l with
  | [] => EmptyString
  | [x] => x
  | x :: l' => x +:+ sep +:+ join sep l'
  end.

(** [s.rsplit('.', 1)[1]] when [s] contains a dot: the part after the
    last dot. *)
Fixpoint after_last_dot (s : string) : option string :=
  match s with
  | EmptyString => None
  | String c s' =>
      match after_last_dot s' with
      | Some e => Some e
      | None => if Ascii.eqb c "."%char then Some s' else None
      end
  end.

(** [int(s)] for a string: white space around an optional sign and
    digits, where single underscores may separate digits. *)
Fixpoint digits_underscores (prev_digit : bool) (acc : Z) (s : string)
  : option Z :=
  match s with
  | EmptyString => if prev_digit then Some acc else None
  | String c s' =>
      if is_digit c
      then digits_underscores true (10 * acc + digit_val c) s'
      else if Ascii.eqb c "_"%char && prev_digit
           then match s' with
                | String d _ =>
                    if is_digit d then digits_underscores false acc s'
                    else None
                | EmptyString => None
                end
           else None
  end.

Definition int_of_str (s : string) : result Z :=
  let body := rstrip_by is_int_space (lstrip_by is_int_space s) in
  let '(neg, ds) :=
    match body with
    | String "-"%char r => (true, r)
    | String "+"%char r => (false, r)
    | _ => (false, body)
    end in
  match digits_underscores false 0 ds with
  | Some n => Ok (if neg : bool then - n else n)
  | None => Raise ValueError
  end.

End Str.

(** ** Python floats: IEEE 754 binary64 *)

Module Float.

Definition prec : Z := 53.
Definition emax : Z := 1024.

Abbreviation float := spec_float.

Definition mul : float -> float -> float := SFmul prec emax.
Definition div : float -> float -> float := SFdiv prec emax.
Definition add : float -> float -> float := SFadd prec emax.

(** The float nearest to the integer [z] (ties to even), with no check
    of the range.  Used for literals. *)
Definition of_Z (z : Z) : float := binary_normalize prec emax z 0 false.

(** Conversion of an [int] operand of a float operation:
    [OverflowError] when the integer is beyond the largest float. *)
Definition of_int (z : Z) : result float :=
  match of_Z z with
  | S754_infinity _ => Raise OverflowError
  | f => Ok f
  end.

(** [a / b] on two [int]s: the correctly rounded quotient,
    [ZeroDivisionError] for [b = 0], [OverflowError] when the quotient
    is too large for a float. *)
Definition int_truediv (a b : Z) : result float :=
  let sign (z : Z) := z <? 0 in
  match a, b with
  | _, Z0 => Raise ZeroDivisionError
  | Z0, _ => Ok (S754_zero (sign b))
  | _, _ =>
      match div (S754_finite (sign a) (Z.to_pos (Z.abs a)) 0)
                (S754_finite (sign b) (Z.to_pos (Z.abs b)) 0) with
      | S754_infinity _ => Raise OverflowError
      | f => Ok f
      end
  end.

(** [x / n] for a float [x] and an [int] [n]. *)
Definition truediv_int (x : float) (n : Z) : result float :=
  y ← of_int n;
  match y with
  | S754_zero _ => Raise ZeroDivisionError
  | _ => Ok (div x y)
  end.

(** [n * x] and [x * n] for a float [x] and an [int] [n]. *)
Definition mul_int (x : float) (n : Z) : result float :=
  y ← of_int n; Ok (mul x y).

(** [int(x)]: truncation toward zero; [OverflowError] on an infinity,
    [ValueError] on a NaN. *)
Definition to_int (x : float) : result Z :=
  match x with
  | S754_zero _ => Ok 0
  | S754_finite s m e => Ok (cond_Zopp s (Z.shiftl (Z.pos m) e))
  | S754_infinity _ => Raise OverflowError
  | S754_nan => Raise ValueError
  end.

(** [x > n] for a float [x] and an [int] literal [n] that is a float
    exactly: false on a NaN. *)
Definition gt_int (x : float) (n : Z) : bool := SFltb (of_Z n) x.

(** [x % w] for a float [x] and a positive [int] literal [w]: C's
    [fmod], which is exact and has the sign of [x], moved into [0, w)
    by one addition of [w] when it is negative, and [+0.0] when it is
    zero. *)
Definition rem_pos (x : float) (w : positive) : float :=
  match x with
  | S754_nan | S754_infinity _ => S754_nan
  | S754_zero _ => S754_zero false
  | S754_finite s m e =>
      let '(r, e') :=
        match e with
        | Z.neg p => (Z.pos m mod (Z.pos w * 2 ^ Z.pos p), e)
        | _ => ((Z.pos m * 2 ^ e) mod Z.pos w, 0)
        end in
      if r =? 0 then S754_zero false
      else if s
           then add (binary_normalize prec emax (- r) e' false) (of_Z (Z.pos w))
           else binary_normalize prec emax r e' false
  end.

End Float.

(** ** The two regular expressions of the monitoring loop *)

Module Re.

(** [re.match(r'Fra:(\d+)', s)]: group 1 of a match at the head of [s]. *)
Definition match_fra (s : string) : option string :=
  r ← Str.strip_prefix "Fra:" s;
  let '(ds, _) := Str.span_digits r in
  match ds with
  | EmptyString => None
  | _ => Some ds
  end.

(** [re.search(r'Fra:(\d+)', s)]: group 1 of the leftmost match. *)
Fixpoint search_fra (s : string) : option string :=
  match match_fra s with
  | Some g => Some g
  | None =>
      match s with
      | EmptyString => None
      | String _ s' => search_fra s'
      end
  end.

(** [re.match(r'Sample (\d+)/(\d+)', s)]: groups 1 and 2 of a match at
    the head of [s].  Each [\d+] is greedy; giving digits back never
    helps, because the character after a shorter run is a digit again. *)
Definition match_sample (s : string) : option (string * string) :=
  r ← Str.strip_prefix "Sample " s;
  let '(cur, r1) := Str.span_digits r in
  match cur with
  | EmptyString => None
  | _ =>
      r2 ← Str.strip_prefix "/" r1;
      let '(tot, _) := Str.span_digits r2 in
      match tot with
      | EmptyString => None
      | _ => Some (cur, tot)
      end
  end.

(** [re.search(r'Sample (\d+)/(\d+)', s)]: the groups of the leftmost
    match. *)
Fixpoint search_sample (s : string) : option (string * string) :=
  match match_sample s with
  | Some g => Some g
  | None =>
      match s with
      | EmptyString => None
      | String _ s' => search_sample s'
      end
  end.

End Re.

(** ** [config.py] *)

Module Config.

Definition DEFAULT_SAMPLES : Z := 128.
Definition DEFAULT_RESOLUTION_X : Z := 1920.
Definition DEFAULT_RESOLUTION_Y : Z := 1080.
Definition SUPPORTED_FORMATS : list string :=
  ["PNG"; "JPEG"; "OPEN_EXR"; "FFMPEG"]%string.
Definition ALLOWED_EXTENSIONS : list string := ["blend"; "zip"; "rar"]%string.
Definition USE_GPU : bool := true.
Definition GPU_TYPE : string := "OPTIX".

(** The settings that depend on the installation: the environment
    variable [BLENDER_PATH] and the directories computed from
    [__file__]. *)
Record deployment := {
  BLENDER_PATH : string;
  UPLOAD_FOLDER : string;
  RENDER_FOLDER : string;
  BACKEND_DIR : string  (* os.path.dirname(__file__) *)
}.

End Config.

(** ** Truth values of optional integers *)

(** [bool(x)] for [x] an [int] or [None]. *)
Definition truthy (x : option Z) : bool :=
  match x with
  | Some z => negb (z =? 0)
  | None => false
  end.

(** [x or d] for [x] an [int] or [None] and [d] an [int]. *)
Definition or_int (x : option Z) (d : Z) : Z :=
  match x with
  | Some z => if z =? 0 then d else z
  | None => d
  end.

(** ** Progress events: the monitoring loop of [render_blend_file] *)

(** The [meta] dictionary of one [update_state(state='PROGRESS', ...)]
    call; the keys [current_frame] and [total_frames] are present on
    frame events only. *)
Module Meta.
Record t := {
  status : string;
  progress : Z;
  current_frame : option Z;
  total_frames : option Z
}.

Definition plain (st : string) (p : Z) : t :=
  {| status := st; progress := p; current_frame := None; total_frames := None |}.
End Meta.

Module Monitor.

(** [total_frames = (frame_end - frame_start + 1)
                    if frame_end and frame_start else 1] *)
Definition total_frames_of (frame_start frame_end : option Z) : Z :=
  if truthy frame_end && truthy frame_start
  then or_int frame_end 0 - or_int frame_start 0 + 1
  else 1.

(** [int((num / den) * 90)] *)
Definition ratio90 (num den : Z) : result Z :=
  q ← Float.int_truediv num den;
  x ← Float.mul_int q 90;
  Float.to_int x.

(** [eta_seconds]: the average time per frame so far, times the frames
    that remain.  [elapsed] is the value of [time.time() - start_time]. *)
Definition eta_seconds (elapsed : Float.float) (frames_done total : Z)
  : result Float.float :=
  avg_time_per_frame ← Float.truediv_int elapsed frames_done;
  let remaining_frames := total - frames_done in
  Float.mul_int avg_time_per_frame remaining_frames.

(** The two shapes of [eta_text]. *)
Definition format_eta (eta : Float.float) : result string :=
  if Float.gt_int eta 60 then
    q ← Float.truediv_int eta 60;
    eta_minutes ← Float.to_int q;
    secs ← Float.to_int (Float.rem_pos eta 60);
    Ok (" - ETA: " +:+ Str.str_of_int eta_minutes +:+ "m "
        +:+ Str.str_of_int secs +:+ "s")
  else
    secs ← Float.to_int eta;
    Ok (" - ETA: " +:+ Str.str_of_int secs +:+ "s").

(** The text [eta_text] of a frame event: empty unless
    [frames_done > 0]. *)
Definition eta_text (elapsed : Float.float) (frames_done total : Z)
  : result string :=
  if frames_done >? 0 then
    eta ← eta_seconds elapsed frames_done total;
    format_eta eta
  else Ok EmptyString.

(** The branch [if 'Fra:' in line], inside its [try]. *)
Definition frame_event (frame_start frame_end : option Z) (total : Z)
    (elapsed : Float.float) (line : string) : result (option Meta.t) :=
  match Re.search_fra line with
  | Some ds =>
      let cur := Str.int_of_digits ds in
      if truthy frame_start then
        let frames_done := cur - or_int frame_start 0 + 1 in
        r ← ratio90 frames_done total;
        let p := Z.min r 90 in
        eta ← eta_text elapsed frames_done total;
        Ok (Some {| Meta.status := "Rendering frame " +:+ Str.str_of_int cur +:+ "/"
                              +:+ Str.str_of_int (or_int frame_end cur) +:+ eta;
                    Meta.progress := p;
                    Meta.current_frame := Some cur;
                    Meta.total_frames := Some (or_int frame_end cur) |})
      else Ok (Some (Meta.plain "Rendering..." 50))
  | None => Ok None
  end.

(** The branch [elif 'Sample' in line and '/' in line], inside its
    [try]. *)
Definition sample_event (frame_end : option Z) (line : string)
  : result (option Meta.t) :=
  match Re.search_sample line with
  | Some (c, t) =>
      if negb (truthy frame_end) then
        let current_sample := Str.int_of_digits c in
        let total_samples := Str.int_of_digits t in
        p ← ratio90 current_sample total_samples;
        Ok (Some (Meta.plain ("Sampling " +:+ Str.str_of_int current_sample
                              +:+ "/" +:+ Str.str_of_int total_samples) p))
      else Ok None
  | None => Ok None
  end.

(** [except: pass] *)
Definition swallow (m : result (option Meta.t)) : option Meta.t :=
  match m with
  | Ok ev => ev
  | Raise _ => None
  end.

(** One turn of [for line in process.stdout]: the [meta] of the
    [update_state] call made for [line], if one is made. *)
Definition on_line (frame_start frame_end : option Z) (total : Z)
    (elapsed : Float.float) (line : string) : option Meta.t :=
  if Str.contains "Fra:" line then
    swallow (frame_event frame_start frame_end total elapsed line)
  else if Str.contains "Saved:" line then
    Some (Meta.plain "Finalizing..." 95)
  else if Str.contains "Sample" line && Str.contains "/" line then
    swallow (sample_event frame_end line)
  else None.

End Monitor.

(** ** The world: file system, result backend, broker queue *)

Module FS.

Inductive node := File | Dir.

(** A file system: the paths that exist, each a regular file or a
    directory. *)
Abbreviation t := (gmap string node).

(** [os.path.join(a, b)] (POSIX). *)
Definition join (a b : string) : string :=
  if Str.startswith b "/" then b
  else if String.eqb a "" || Str.endswith a "/" then a +:+ b
  else a +:+ "/" +:+ b.

(** [os.path.exists(p)] *)
Definition exists_ (m : t) (p : string) : bool :=
  match m !! p with
  | Some _ => true
  | None => false
  end.

(** [os.remove(p)] *)
Definition remove (m : t) (p : string) : result t :=
  match m !! p with
  | Some File => Ok (delete p m)
  | Some Dir => Raise (OSError EISDIR (Some p))
  | None => Raise (OSError ENOENT (Some p))
  end.

(** [os.makedirs(p, exist_ok=True)]; intermediate directories are not
    tracked. *)
Definition makedirs (m : t) (p : string) : result t :=
  match m !! p with
  | Some Dir => Ok m
  | Some File => Raise (OSError EEXIST (Some p))
  | None => Ok (<[p := Dir]> m)
  end.

(** The name of [p] inside the directory [d], when [p] is an entry of
    [d]. *)
Definition entry_of (d p : string) : option string :=
  name ← Str.strip_prefix (if Str.endswith d "/" then d else d +:+ "/") p;
  if String.eqb name "" || Str.contains "/" name then None else Some name.

(** [os.listdir(d)], in the order the map enumerates its keys. *)
Definition listdir (m : t) (d : string) : result (list string) :=
  match m !! d with
  | Some Dir => Ok (omap (entry_of d) (map fst (map_to_list m)))
  | Some File => Raise (OSError ENOTDIR (Some d))
  | None => Raise (OSError ENOENT (Some d))
  end.

(** [os.path.isdir(p)] *)
Definition isdir (m : t) (p : string) : bool :=
  match m !! p with
  | Some Dir => true
  | _ => false
  end.

End FS.

(** The value a successful task returns. *)
Module TaskResult.
Record t := {
  job_id : string;
  status : string;
  output_files : list string;
  output_dir : string
}.
End TaskResult.

(** What the result backend holds for a task id.  An id it holds nothing
    for is reported as [PENDING] by [AsyncResult]. *)
Inductive task_state :=
| PROGRESS (meta : Meta.t)
| SUCCESS (r : TaskResult.t)
| FAILURE (e : exn).

(** The arguments of one [render_blend_file.apply_async] call. *)
Record TaskCall := {
  call_id : string;
  arg_blend_file_path : string;
  arg_job_id : string;
  arg_output_format : string;
  kw_samples : option Z;
  kw_resolution_x : option Z;
  kw_resolution_y : option Z;
  kw_frame_start : option Z;
  kw_frame_end : option Z
}.

Record World := {
  fs : FS.t;
  backend : gmap string task_state;
  queue : list TaskCall
}.

Definition set_fs (w : World) (m : FS.t) : World :=
  {| fs := m; backend := backend w; queue := queue w |}.
Definition set_backend (w : World) (b : gmap string task_state) : World :=
  {| fs := fs w; backend := b; queue := queue w |}.
Definition set_queue (w : World) (q : list TaskCall) : World :=
  {| fs := fs w; backend := backend w; queue := q |}.

Definition empty_world : World := {| fs := ∅; backend := ∅; queue := [] |}.

(** Code that changes the world and may raise; the changes made before an
    exception stay. *)
Definition M (A : Type) : Type := World -> World * result A.

#[global] Instance M_ret : MRet M := fun A a w => (w, Ok a).
#[global] Instance M_bind : MBind M := fun A B f m w =>
  match m w with
  | (w', Ok a) => f a w'
  | (w', Raise e) => (w', Raise e)
  end.

Definition raise {A : Type} (e : exn) : M A := fun w => (w, Raise e).

(** A computation that may raise but leaves the world alone. *)
Definition lift {A : Type} (r : result A) : M A := fun w => (w, r).

(** A change of the world that cannot fail. *)
Definition modify (f : World -> World) : M unit := fun w => (f w, Ok tt).

(** A file system call, run on the world's file system. *)
Definition fs_call (f : FS.t -> result FS.t) : M unit := fun w =>
  match f (fs w) with
  | Ok m => (set_fs w m, Ok tt)
  | Raise e => (w, Raise e)
  end.

Definition fs_read {A : Type} (f : FS.t -> result A) : M A := fun w => (w, f (fs w)).

(** [if os.path.exists(p): os.remove(p)] *)
Definition remove_if_exists (p : string) : M unit := fun w =>
  if FS.exists_ (fs w) p then fs_call (fun m => FS.remove m p) w else (w, Ok tt).

(** ** [tasks.py]: the Celery task [render_blend_file] *)

Module Tasks.

(** One run of the external render process, as the task sees it: the
    lines of its merged standard output, each with the value
    [time.time() - start_time] has while the line is handled, its exit
    code, and what the run leaves on disk. *)
Record process := {
  stdout : list (string * Float.float);
  returncode : Z;
  on_disk : FS.t -> FS.t
}.

(** [subprocess.Popen]: the run started for a command line, or the
    exception (an [OSError]) of a process that cannot be started. *)
Definition popen_t : Type := list string -> result process.

(** [self.update_state(state='PROGRESS', meta=m)] *)
Definition update_state (self : string) (m : Meta.t) : M unit :=
  modify (fun w => set_backend w (<[self := PROGRESS m]> (backend w))).

(** [format_map.get(output_format, 'png')] *)
Definition file_ext (output_format : string) : string :=
  if String.eqb output_format "PNG" then "png"
  else if String.eqb output_format "JPEG" then "jpg"
  else if String.eqb output_format "OPEN_EXR" then "exr"
  else if String.eqb output_format "FFMPEG" then "mp4"
  else "png".

Definition is_some {A : Type} (x : option A) : bool :=
  match x with Some _ => true | None => false end.

Definition output_path (output_dir output_format : string)
    (frame_start frame_end : option Z) : string :=
  if is_some frame_start && is_some frame_end
     && negb (String.eqb output_format "FFMPEG")
  then FS.join output_dir ("frame_####." +:+ file_ext output_format)
  else FS.join output_dir ("render." +:+ file_ext output_format).

Definition flag_int (name : string) (x : option Z) : list string :=
  match x with
  | Some z => [name; Str.str_of_int z]
  | None => []
  end.

(** The command line [cmd]. *)
Definition build_cmd (cfg : Config.deployment)
    (blend_file_path out_path output_format : string)
    (samples resolution_x resolution_y : Z)
    (frame_start frame_end : option Z) : list string :=
  [Config.BLENDER_PATH cfg; "-b"; blend_file_path;
   "-P"; FS.join (Config.BACKEND_DIR cfg) "render_script.py";
   "--";
   "--output"; out_path;
   "--format"; output_format;
   "--samples"; Str.str_of_int samples;
   "--resolution-x"; Str.str_of_int resolution_x;
   "--resolution-y"; Str.str_of_int resolution_y;
   "--gpu-type"; Config.GPU_TYPE]%string
  ++ (if Config.USE_GPU then ["--use-gpu"%string] else [])
  ++ flag_int "--frame-start" frame_start
  ++ flag_int "--frame-end" frame_end.

(** [cmd], from the task's arguments: the defaults are filled in
    first. *)
Definition command (cfg : Config.deployment)
    (blend_file_path job_id output_format : string)
    (samples resolution_x resolution_y frame_start frame_end : option Z)
  : list string :=
  let output_dir := FS.join (Config.RENDER_FOLDER cfg) job_id in
  build_cmd cfg blend_file_path
    (output_path output_dir output_format frame_start frame_end)
    output_format
    (or_int samples Config.DEFAULT_SAMPLES)
    (or_int resolution_x Config.DEFAULT_RESOLUTION_X)
    (or_int resolution_y Config.DEFAULT_RESOLUTION_Y)
    frame_start frame_end.

(** [for line in process.stdout: ...]: the [update_state] calls of the
    loop, in order. *)
Fixpoint monitor (self : string) (frame_start frame_end : option Z)
    (total : Z) (lines : list (string * Float.float)) (w : World) : World :=
  match lines with
  | [] => w
  | (line, elapsed) :: rest =>
      let w' :=
        match Monitor.on_line frame_start frame_end total elapsed line with
        | Some m => fst (update_state self m w)
        | None => w
        end in
      monitor self frame_start frame_end total rest w'
  end.

(** [output_lines] after the loop. *)
Definition output_lines (p : process) : list string :=
  map (fun l => Str.strip (fst l)) (stdout p).

(** The message of the exception raised on a non-zero exit code. *)
Definition failure_message (code : Z) (lines : list string) : string :=
  "Blender render failed with code " +:+ Str.str_of_int code +:+ ":"
  +:+ String (ascii_of_nat 10) (Str.join (String (ascii_of_nat 10) "") lines).

Definition not_hidden (f : string) : bool := negb (Str.startswith f ".").

(** The first half of the [try] body, up to [process.wait()]: the
    process is started, its output is monitored, and it exits.  [self]
    is the task's own id. *)
Definition run_process (cfg : Config.deployment) (popen : popen_t)
    (self blend_file_path job_id output_format : string)
    (samples resolution_x resolution_y frame_start frame_end : option Z)
  : M process :=
  update_state self (Meta.plain "Starting render..." 0);;
  let output_dir := FS.join (Config.RENDER_FOLDER cfg) job_id in
  fs_call (fun m => FS.makedirs m output_dir);;
  let cmd := command cfg blend_file_path job_id output_format
               samples resolution_x resolution_y frame_start frame_end in
  update_state self (Meta.plain "Rendering..." 10);;
  proc ← lift (popen cmd);
  let total := Monitor.total_frames_of frame_start frame_end in
  modify (monitor self frame_start frame_end total (stdout proc));;
  (* process.wait() *)
  modify (fun w => set_fs w (on_disk proc (fs w)));;
  mret proc.

(** The second half of the [try] body: the exit code is checked, the
    uploaded file is removed and the output directory is listed. *)
Definition collect (cfg : Config.deployment) (proc : process)
    (blend_file_path job_id : string) : M TaskResult.t :=
  let output_dir := FS.join (Config.RENDER_FOLDER cfg) job_id in
  if negb (returncode proc =? 0)
  then raise (Exception (failure_message (returncode proc) (output_lines proc)))
  else
    remove_if_exists blend_file_path;;
    listing ← fs_read (fun m => FS.listdir m output_dir);
    mret {| TaskResult.job_id := job_id;
            TaskResult.status := "completed";
            TaskResult.output_files := filter (fun f => Is_true (not_hidden f)) listing;
            TaskResult.output_dir := output_dir |}.

(** The body of the [try]. *)
Definition render_body (cfg : Config.deployment) (popen : popen_t)
    (self blend_file_path job_id output_format : string)
    (samples resolution_x resolution_y frame_start frame_end : option Z)
  : M TaskResult.t :=
  proc ← run_process cfg popen self blend_file_path job_id output_format
           samples resolution_x resolution_y frame_start frame_end;
  collect cfg proc blend_file_path job_id.

(** The task: the [try] body, and on an exception the handler, which
    removes the uploaded file and raises the exception again. *)
Definition render_blend_file (cfg : Config.deployment) (popen : popen_t)
    (self blend_file_path job_id output_format : string)
    (samples resolution_x resolution_y frame_start frame_end : option Z)
  : M TaskResult.t := fun w =>
  match render_body cfg popen self blend_file_path job_id output_format
          samples resolution_x resolution_y frame_start frame_end w with
  | (w', Ok r) => (w', Ok r)
  | (w', Raise e) =>
      match remove_if_exists blend_file_path w' with
      | (w'', Ok _) => (w'', Raise e)
      | (w'', Raise e') => (w'', Raise e')
      end
  end.

(** What the Celery worker does with a dequeued call: it runs the task
    and records [SUCCESS] with the returned value, or [FAILURE] with the
    exception the task raised, as the backend keeps it. *)
Definition run_task (cfg : Config.deployment) (popen : popen_t)
    (c : TaskCall) (w : World) : World :=
  match render_blend_file cfg popen (call_id c) (arg_blend_file_path c)
          (arg_job_id c) (arg_output_format c) (kw_samples c)
          (kw_resolution_x c) (kw_resolution_y c) (kw_frame_start c)
          (kw_frame_end c) w with
  | (w', Ok r) => set_backend w' (<[call_id c := SUCCESS r]> (backend w'))
  | (w', Raise e) =>
      set_backend w' (<[call_id c := FAILURE (stored_exn e)]> (backend w'))
  end.

End Tasks.

(** ** [app.py]: the HTTP handlers *)

Module App.

(** [allowed_file(filename)] *)
Definition allowed_file (filename : string) : bool :=
  Str.contains "." filename &&
  match Str.after_last_dot filename with
  | Some ext => bool_decide (Str.lower ext ∈ Config.ALLOWED_EXTENSIONS)
  | None => false
  end.

(** *** [upload_file] *)

(** The request: the file name of the part [file] of [request.files],
    when there is one, and [request.form]. *)
Record request := {
  file : option string;
  form : gmap string string
}.

(** How the extraction of an uploaded archive ends: the files
    [os.walk(extract_dir)] then yields, as (directory, name) pairs in
    walk order, or the exception raised on the way. *)
Inductive extraction :=
| Extracted (walk : list (string * string))
| BadZipFile
| RarError
| OtherError (msg : string).

(** What the handler gets from outside the program while it serves one
    request. *)
Record environment := {
  uuid4 : string;                   (* str(uuid.uuid4()) *)
  secure_filename : string -> string;  (* werkzeug.utils.secure_filename *)
  extract : extraction;             (* extractall, then os.walk *)
  new_task_id : string              (* task.id of apply_async *)
}.

Inductive body :=
| Error (msg : string)
| Queued (job_id task_id message status : string).

(** A response: the HTTP status code and the JSON body. *)
Definition response : Type := Z * body.

(** [int(request.form.get(key, default))] *)
Definition form_int (f : gmap string string) (key : string) (default : Z)
  : result Z :=
  match f !! key with
  | Some s => Str.int_of_str s
  | None => Ok default
  end.

(** [int(x) if x else None] for an optional form field [x]. *)
Definition opt_int (x : option string) : result (option Z) :=
  match x with
  | Some EmptyString | None => Ok None
  | Some s => n ← Str.int_of_str s; Ok (Some n)
  end.

Definition is_archive (filename : string) : bool :=
  Str.endswith (Str.lower filename) ".zip" || Str.endswith (Str.lower filename) ".rar".

Definition supported_formats_text : string :=
  "['PNG', 'JPEG', 'OPEN_EXR', 'FFMPEG']".

(** The archive branch: the path of the scene file to render, or the
    error response. *)
Definition extract_archive (cfg : Config.deployment) (env : environment)
    (job_id filepath : string) : M (response + string) :=
  let extract_dir := FS.join (Config.UPLOAD_FOLDER cfg) (job_id +:+ "_extracted") in
  fs_call (fun m => FS.makedirs m extract_dir);;
  match extract env with
  | Extracted walk =>
      modify (fun w => set_fs w (foldr (fun e m => <[FS.join (fst e) (snd e) := FS.File]> m)
                                       (fs w) walk));;
      let blend_files :=
        omap (fun e => if Str.endswith (snd e) ".blend"
                       then Some (FS.join (fst e) (snd e)) else None) walk in
      match blend_files with
      | [] => mret (inl (400, Error "No .blend file found in archive"))
      | first :: _ =>
          (* os.remove(filepath), inside the try *)
          (fun w => match FS.remove (fs w) filepath with
                    | Ok m => (set_fs w m, Ok (inr first))
                    | Raise e =>
                        (w, Ok (inl (500, Error ("Error extracting archive: "
                                                 +:+ str_exn e))))
                    end) : M (response + string)
      end
  | BadZipFile => mret (inl (400, Error "Invalid ZIP file"))
  | RarError => mret (inl (400, Error "Invalid RAR file"))
  | OtherError msg => mret (inl (500, Error ("Error extracting archive: " +:+ msg)))
  end.

(** [upload_file()]. An exception nobody handles ([Raise]) is the
    framework's error response; nothing after it runs. *)
Definition upload_file (cfg : Config.deployment) (env : environment)
    (req : request) : M response :=
  match file req with
  | None => mret (400, Error "No file part")
  | Some name =>
      if String.eqb name "" then mret (400, Error "No selected file")
      else if negb (allowed_file name) then
        mret (400, Error "Invalid file type. Only .blend, .zip, and .rar files are allowed")
      else
        let output_format := default "PNG"%string (form req !! "format"%string) in
        samples ← lift (form_int (form req) "samples" Config.DEFAULT_SAMPLES);
        resolution_x ← lift (form_int (form req) "resolution_x" Config.DEFAULT_RESOLUTION_X);
        resolution_y ← lift (form_int (form req) "resolution_y" Config.DEFAULT_RESOLUTION_Y);
        let frame_start := form req !! "frame_start"%string in
        let frame_end := form req !! "frame_end"%string in
        if negb (bool_decide (output_format ∈ Config.SUPPORTED_FORMATS)) then
          mret (400, Error ("Unsupported format. Supported: " +:+ supported_formats_text))
        else
          let job_id := uuid4 env in
          let filename := secure_filename env name in
          let filepath := FS.join (Config.UPLOAD_FOLDER cfg) (job_id +:+ "_" +:+ filename) in
          (* file.save(filepath) *)
          modify (fun w => set_fs w (<[filepath := FS.File]> (fs w)));;
          scene ← (if is_archive filename
                   then extract_archive cfg env job_id filepath
                   else mret (inr filepath));
          match scene with
          | inl resp => mret resp
          | inr blend_filepath =>
              fstart ← lift (opt_int frame_start);
              fend ← lift (opt_int frame_end);
              let call := {| call_id := new_task_id env;
                             arg_blend_file_path := blend_filepath;
                             arg_job_id := job_id;
                             arg_output_format := output_format;
                             kw_samples := Some samples;
                             kw_resolution_x := Some resolution_x;
                             kw_resolution_y := Some resolution_y;
                             kw_frame_start := fstart;
                             kw_frame_end := fend |} in
              (* render_blend_file.apply_async(...) *)
              modify (fun w => set_queue w (queue w ++ [call]));;
              mret (202, Queued job_id (new_task_id env)
                                "Render job queued successfully" "queued")
          end
  end.

(** *** [get_status] *)

Module Status.
(** The JSON object [get_status] answers with. *)
Record t := {
  state : string;
  status : string;
  progress : Z;
  result : option TaskResult.t
}.
End Status.

(** [get_status(task_id)]: always the status code 200 and a JSON
    object. *)
Definition get_status (b : gmap string task_state) (task_id : string)
  : Z * Status.t :=
  (200,
   match b !! task_id with
   | None =>
       {| Status.state := "PENDING"; Status.status := "Pending...";
          Status.progress := 0; Status.result := None |}
   | Some (PROGRESS m) =>
       {| Status.state := "PROGRESS"; Status.status := Meta.status m;
          Status.progress := Meta.progress m; Status.result := None |}
   | Some (SUCCESS r) =>
       {| Status.state := "SUCCESS"; Status.status := "Render completed";
          Status.progress := 100; Status.result := Some r |}
   | Some (FAILURE e) =>
       {| Status.state := "FAILURE"; Status.status := str_exn e;
          Status.progress := 0; Status.result := None |}
   end).

(** *** [download_file] *)

(** What [download_file] answers with: a 404 with its message, the
    regular file that [send_file(filepath, as_attachment=True)] sends, or
    the zip archive built in memory, with its download name and its
    members in order, each the path that was read and the name it is
    stored under. *)
Inductive download :=
| NotFound (msg : string)
| SendFile (filepath : string)
| SendZip (download_name : string) (members : list (string * string)).

(** [send_file(filepath, as_attachment=True)]: the file is opened for
    reading, which raises on a directory and on a path that does not
    exist.  The exception carries the path as it was opened, which is
    [filepath] when that is an absolute path. *)
Definition send_file (m : FS.t) (filepath : string) : result download :=
  match m !! filepath with
  | Some FS.File => Ok (SendFile filepath)
  | Some FS.Dir => Raise (OSError EISDIR (Some filepath))
  | None => Raise (OSError ENOENT (Some filepath))
  end.

(** [zf.write(filepath, file)]: the member written for the name [file].
    A directory is stored as an entry of its own, under its name
    followed by a slash. *)
Definition zip_member (m : FS.t) (render_dir file : string)
  : result (string * string) :=
  let filepath := FS.join render_dir file in
  match m !! filepath with
  | Some FS.File => Ok (filepath, file)
  | Some FS.Dir => Ok (filepath, file +:+ "/")
  | None => Raise (OSError ENOENT (Some filepath))
  end.

(** The loop [for file in files] that fills the archive. *)
Fixpoint zip_members (m : FS.t) (render_dir : string) (files : list string)
  : result (list (string * string)) :=
  match files with
  | [] => Ok []
  | file :: rest =>
      member ← zip_member m render_dir file;
      later ← zip_members m render_dir rest;
      Ok (member :: later)
  end.

(** The answer for the list [files] of the directory (the part of
    [download_file] from [if not files] on). *)
Definition serve (m : FS.t) (render_dir job_id : string) (files : list string)
  : result download :=
  match files with
  | [] => Ok (NotFound "No output files found")
  | [f] => send_file m (FS.join render_dir f)
  | _ =>
      members ← zip_members m render_dir files;
      Ok (SendZip (job_id +:+ "_render.zip") members)
  end.

(** [download_file(job_id)], on the file system [m]. *)
Definition download_file (cfg : Config.deployment) (m : FS.t) (job_id : string)
  : result download :=
  let render_dir := FS.join (Config.RENDER_FOLDER cfg) job_id in
  if negb (FS.exists_ m render_dir) then Ok (NotFound "Render not found")
  else
    listing ← FS.listdir m render_dir;
    serve m render_dir job_id
      (filter (fun f => Is_true (Tasks.not_hidden f)) listing).

(** *** [list_jobs] *)

Module Job.
(** One element of the list [jobs]. *)
Record t := {
  job_id : string;
  file_count : Z;
  files : list string
}.
End Job.

(** The loop [for job_id in os.listdir(RENDER_FOLDER)]. *)
Fixpoint jobs_of (cfg : Config.deployment) (m : FS.t) (ids : list string)
  : result (list Job.t) :=
  match ids with
  | [] => Ok []
  | job_id :: rest =>
      let job_path := FS.join (Config.RENDER_FOLDER cfg) job_id in
      if FS.isdir m job_path then
        listing ← FS.listdir m job_path;
        let files := filter (fun f => Is_true (Tasks.not_hidden f)) listing in
        later ← jobs_of cfg m rest;
        Ok ({| Job.job_id := job_id;
               Job.file_count := Z.of_nat (length files);
               Job.files := files |} :: later)
      else jobs_of cfg m rest
  end.

(** [list_jobs()]: the list [jobs] of the answer. *)
Definition list_jobs (cfg : Config.deployment) (m : FS.t) : result (list Job.t) :=
  if FS.exists_ m (Config.RENDER_FOLDER cfg) then
    ids ← FS.listdir m (Config.RENDER_FOLDER cfg);
    jobs_of cfg m ids
  else Ok [].

End App.

(** ** Scenarios *)

(** Concrete data for the examples below: one installation, one queued
    still-image job and a few runs of the render process. *)
Module Scenario.

Definition newline : string := String (ascii_of_nat 10) EmptyString.

Definition cfg : Config.deployment :=
  {| Config.BLENDER_PATH := "/opt/blender/blender";
     Config.UPLOAD_FOLDER := "/srv/backend/uploads";
     Config.RENDER_FOLDER := "/srv/rendered";
     Config.BACKEND_DIR := "/srv/backend" |}.

Definition upload : string := "/srv/backend/uploads/job-1_scene.blend".

(** A still-image job, as [upload_file] queues it. *)
Definition call : TaskCall :=
  {| call_id := "task-1";
     arg_blend_file_path := upload;
     arg_job_id := "job-1";
     arg_output_format := "PNG";
     kw_samples := Some 128;
     kw_resolution_x := Some 1920;
     kw_resolution_y := Some 1080;
     kw_frame_start := None;
     kw_frame_end := None |}.

(** The world when the job is dequeued: the uploaded file is on disk. *)
Definition world : World :=
  {| fs := {[ upload := FS.File ]}; backend := ∅; queue := [] |}.

(** The output directory of the job, once made. *)
Definition made : FS.t := <[ "/srv/rendered/job-1"%string := FS.Dir ]> (fs world).

(** A run that exits with code 0 and writes nothing. *)
Definition silent_success : Tasks.process :=
  {| Tasks.stdout := [("Blender 5.0.0" +:+ newline, Float.of_Z 0);
                      ("Blender quit" +:+ newline, Float.of_Z 2)];
     Tasks.returncode := 0;
     Tasks.on_disk := fun m => m |}.

(** A run that exits with code 0 and leaves an image and a hidden
    file. *)
Definition one_image : Tasks.process :=
  {| Tasks.stdout := [("Saved: 'render.png'" +:+ newline, Float.of_Z 9)];
     Tasks.returncode := 0;
     Tasks.on_disk := fun m =>
       <[ "/srv/rendered/job-1/render.png"%string := FS.File ]>
         (<[ "/srv/rendered/job-1/.cache"%string := FS.File ]> m) |}.

(** A run that writes one frame and then exits with code 1. *)
Definition partial_failure : Tasks.process :=
  {| Tasks.stdout := [("Blender 5.0.0" +:+ newline, Float.of_Z 0);
                      ("Error: out of memory" +:+ newline, Float.of_Z 5)];
     Tasks.returncode := 1;
     Tasks.on_disk := fun m =>
       <[ "/srv/rendered/job-1/frame_0001.png"%string := FS.File ]> m |}.

(** A line of [n] letters. *)
Fixpoint letters (n : nat) : string :=
  match n with
  | O => EmptyString
  | S n' => String "x"%char (letters n')
  end.

(** A run that prints one line of [n] letters and exits with code 1. *)
Definition verbose_failure (n : nat) : Tasks.process :=
  {| Tasks.stdout := [(letters n, Float.of_Z 1)];
     Tasks.returncode := 1;
     Tasks.on_disk := fun m => m |}.

(** An upload of [scene.blend] with [samples = 0] and only
    [frame_start] set, in an environment where [secure_filename] keeps
    that name as it is. *)
Definition env : App.environment :=
  {| App.uuid4 := "job-1";
     App.secure_filename := fun name => name;
     App.extract := App.Extracted [];
     App.new_task_id := "task-1" |}.

Definition request : App.request :=
  {| App.file := Some "scene.blend"%string;
     App.form := {[ "samples"%string := "0"%string;
                    "frame_start"%string := "3"%string ]} |}.

End Scenario.

(** ** The specification's formulas, in its words *)

(** The percent of a frame event:
    [min(90, floor(100 * (current_frame - frame_start + 1) / total_frames))]. *)
Definition spec_frame_percent (current_frame frame_start total_frames : Z) : Z :=
  Z.min 90 (100 * (current_frame - frame_start + 1) / total_frames).

(** The percent of a sample event: [floor(90 * current / total)]. *)
Definition spec_sample_percent (current total : Z) : Z := 90 * current / total.

(** ** Further scenarios *)

Module ScenarioDisk.
(** The render folder after the job of [Scenario] has written its image,
    with a stray file beside the job's directory. *)
Definition rendered : FS.t :=
  <["/srv/rendered"%string := FS.Dir]>
    (<["/srv/rendered/notes.txt"%string := FS.File]>
       (Tasks.on_disk Scenario.one_image Scenario.made)).
End ScenarioDisk.

Module ScenarioMore.

(** An upload of the archive [pack.zip] that unpacks to a note, a
    texture and two scene files. *)
Definition archive_env : App.environment :=
  {| App.uuid4 := "job-2";
     App.secure_filename := fun name => name;
     App.extract :=
       App.Extracted
         [("/srv/backend/uploads/job-2_extracted", "readme.txt");
          ("/srv/backend/uploads/job-2_extracted/shots", "hall.blend");
          ("/srv/backend/uploads/job-2_extracted/shots", "yard.blend");
          ("/srv/backend/uploads/job-2_extracted/textures", "wood.png")]%string;
     App.new_task_id := "task-2" |}.

(** The same upload, of an archive without a scene file. *)
Definition notes_env : App.environment :=
  {| App.uuid4 := "job-2";
     App.secure_filename := fun name => name;
     App.extract :=
       App.Extracted [("/srv/backend/uploads/job-2_extracted", "readme.txt")]%string;
     App.new_task_id := "task-2" |}.

Definition archive_request : App.request :=
  {| App.file := Some "pack.zip"%string; App.form := ∅ |}.

(** A scene upload whose [frame_start] is not a number. *)
Definition bad_frame_request : App.request :=
  {| App.file := Some "scene.blend"%string;
     App.form := {[ "frame_start"%string := "first"%string ]} |}.

End ScenarioMore.

(** ** Decimal numerals *)

(** The value of a run of decimal digits, most significant first. *)
Fixpoint uint_val (acc : Z) (d : Decimal.uint) : Z :=
  match d with
  | Decimal.Nil => acc
  | Decimal.D0 l => uint_val (10 * acc + 0) l
  | Decimal.D1 l => uint_val (10 * acc + 1) l
  | Decimal.D2 l => uint_val (10 * acc + 2) l
  | Decimal.D3 l => uint_val (10 * acc + 3) l
  | Decimal.D4 l => uint_val (10 * acc + 4) l
  | Decimal.D5 l => uint_val (10 * acc + 5) l
  | Decimal.D6 l => uint_val (10 * acc + 6) l
  | Decimal.D7 l => uint_val (10 * acc + 7) l
  | Decimal.D8 l => uint_val (10 * acc + 8) l
  | Decimal.D9 l => uint_val (10 * acc + 9) l
  end.

(** * Properties *)

(** ** Strings and the two patterns *)

Section StringFacts.

Implicit Types (p s pre rest ds : string) (c : ascii).

Lemma strip_prefix_app p s : Str.strip_prefix p (p +:+ s) = Some s.
Proof.
  induction p as [|a p IH]; simpl; [reflexivity|].
  now rewrite Ascii.eqb_refl.
Qed.

Lemma startswith_app p s : Str.startswith (p +:+ s) p = true.
Proof. unfold Str.startswith. now rewrite strip_prefix_app. Qed.

Lemma contains_head p s : Str.startswith s p = true -> Str.contains p s = true.
Proof. intros H. destruct s; simpl; rewrite H; reflexivity. Qed.

Lemma contains_skip p pre s :
  Str.contains p s = true -> Str.contains p (pre +:+ s) = true.
Proof.
  intros H. induction pre as [|c pre IH]; simpl; [exact H|].
  rewrite IH. apply orb_true_r.
Qed.

(** [p in (pre + p + rest)] *)
Lemma contains_infix p pre rest : Str.contains p (pre +:+ p +:+ rest) = true.
Proof. apply contains_skip, contains_head, startswith_app. Qed.

Lemma contains_tail p c s :
  Str.contains p (String c s) = false -> Str.contains p s = false.
Proof. simpl. intros H. now apply orb_false_elim in H. Qed.

Lemma span_digits_app ds rest :
  Str.all_digits ds = true -> Str.head_is_digit rest = false ->
  Str.span_digits (ds +:+ rest) = (ds, rest).
Proof.
  intros Hd Hr. induction ds as [|c ds IH]; simpl in *.
  - destruct rest as [|c r]; simpl in *; [reflexivity|now rewrite Hr].
  - apply andb_prop in Hd as [Hc Hd]. rewrite Hc, (IH Hd). reflexivity.
Qed.

(** A run of digits at the head is picked up, whatever follows. *)
Lemma span_digits_nonempty ds rest :
  ds <> EmptyString -> Str.all_digits ds = true ->
  fst (Str.span_digits (ds +:+ rest)) <> EmptyString.
Proof.
  destruct ds as [|c ds]; [congruence|]. simpl. intros _ Hd.
  apply andb_prop in Hd as [-> _].
  destruct (Str.span_digits (ds +:+ rest)). simpl. congruence.
Qed.

End StringFacts.

Section PatternFacts.

Implicit Types (s pre rest ds cur tot : string) (c : ascii).

#[local] Arguments Ascii.eqb : simpl never.
#[local] Arguments String.append : simpl nomatch.

(** Walks along a literal pattern laid over an unknown string that a
    known text follows: each step splits on the next character. *)
Ltac overlay :=
  repeat (simpl in *;
          match goal with
          | |- ?x = ?x => reflexivity
          | H : true = false |- _ => discriminate H
          | H : context [Ascii.eqb ?a ?c] |- _ =>
              destruct (Ascii.eqb_spec a c); [try discriminate; subst|]
          | |- context [Ascii.eqb ?a ?c] =>
              destruct (Ascii.eqb_spec a c); [try discriminate; subst|]
          | H : context [match ?s with EmptyString => _ | String _ _ => _ end] |- _ =>
              is_var s; destruct s
          end).

Lemma strip_fra_before c pre rest :
  Str.startswith (String c pre) "Fra:" = false ->
  Str.strip_prefix "Fra:" (String c pre +:+ "Fra:" +:+ rest) = None.
Proof. unfold Str.startswith. intros H. overlay. Qed.

Lemma strip_sample_before c pre rest :
  Str.startswith (String c pre) "Sample " = false ->
  Str.strip_prefix "Sample " (String c pre +:+ "Sample " +:+ rest) = None.
Proof. unfold Str.startswith. intros H. overlay. Qed.

Lemma search_fra_eq s :
  Re.search_fra s =
  match Re.match_fra s with
  | Some g => Some g
  | None => match s with
            | EmptyString => None
            | String _ s' => Re.search_fra s'
            end
  end.
Proof. destruct s; reflexivity. Qed.

Lemma search_sample_eq s :
  Re.search_sample s =
  match Re.match_sample s with
  | Some g => Some g
  | None => match s with
            | EmptyString => None
            | String _ s' => Re.search_sample s'
            end
  end.
Proof. destruct s; reflexivity. Qed.

Lemma match_fra_before c pre rest :
  Str.startswith (String c pre) "Fra:" = false ->
  Re.match_fra (String c pre +:+ "Fra:" +:+ rest) = None.
Proof.
  intros H. unfold Re.match_fra. now rewrite (strip_fra_before _ _ _ H).
Qed.

Lemma match_sample_before c pre rest :
  Str.startswith (String c pre) "Sample " = false ->
  Re.match_sample (String c pre +:+ "Sample " +:+ rest) = None.
Proof.
  intros H. unfold Re.match_sample. now rewrite (strip_sample_before _ _ _ H).
Qed.

Lemma match_fra_here ds rest :
  ds <> EmptyString -> Str.all_digits ds = true ->
  Str.head_is_digit rest = false ->
  Re.match_fra ("Fra:" +:+ ds +:+ rest) = Some ds.
Proof.
  intros Hne Hd Hr. unfold Re.match_fra.
  rewrite strip_prefix_app. cbn [mbind option_bind].
  rewrite (span_digits_app _ _ Hd Hr). now destruct ds.
Qed.

Lemma match_fra_marker ds rest :
  ds <> EmptyString -> Str.all_digits ds = true ->
  is_Some (Re.match_fra ("Fra:" +:+ ds +:+ rest)).
Proof.
  intros Hne Hd. unfold Re.match_fra.
  rewrite strip_prefix_app. cbn [mbind option_bind].
  pose proof (span_digits_nonempty ds rest Hne Hd) as Hs.
  destruct (Str.span_digits (ds +:+ rest)) as [[|d g] r]; simpl in Hs;
    [congruence | eauto].
Qed.

(** A line that holds the marker [Fra:] followed by digits somewhere is
    matched by the pattern: there is a leftmost match. *)
Lemma search_fra_marker pre ds rest :
  ds <> EmptyString -> Str.all_digits ds = true ->
  is_Some (Re.search_fra (pre +:+ "Fra:" +:+ ds +:+ rest)).
Proof.
  intros Hne Hd. induction pre as [|c pre IH].
  - destruct (match_fra_marker ds rest Hne Hd) as [g Hg].
    change (EmptyString +:+ "Fra:" +:+ ds +:+ rest)
      with ("Fra:" +:+ ds +:+ rest).
    exists g. rewrite search_fra_eq. now rewrite Hg.
  - change (String c pre +:+ "Fra:" +:+ ds +:+ rest)
      with (String c (pre +:+ "Fra:" +:+ ds +:+ rest)).
    rewrite search_fra_eq.
    destruct (Re.match_fra _); [eauto | exact IH].
Qed.

(** When the first [Fra:] of the line is followed by the run of digits
    [ds], group 1 of the search is [ds]. *)
Lemma search_fra_first pre ds rest :
  Str.contains "Fra:" pre = false ->
  ds <> EmptyString -> Str.all_digits ds = true ->
  Str.head_is_digit rest = false ->
  Re.search_fra (pre +:+ "Fra:" +:+ ds +:+ rest) = Some ds.
Proof.
  intros Hpre Hne Hd Hr. induction pre as [|c pre IH].
  - change (EmptyString +:+ "Fra:" +:+ ds +:+ rest)
      with ("Fra:" +:+ ds +:+ rest).
    rewrite search_fra_eq. now rewrite (match_fra_here _ _ Hne Hd Hr).
  - pose proof (contains_tail _ _ _ Hpre) as Htl.
    cbn [Str.contains] in Hpre. apply orb_false_elim in Hpre as [Hhd _].
    pose proof (match_fra_before c pre (ds +:+ rest) Hhd) as Hm.
    change (String c pre +:+ "Fra:" +:+ ds +:+ rest)
      with (String c (pre +:+ "Fra:" +:+ ds +:+ rest)) in *.
    rewrite search_fra_eq, Hm. exact (IH Htl).
Qed.

Lemma match_sample_here cur tot rest :
  cur <> EmptyString -> Str.all_digits cur = true ->
  tot <> EmptyString -> Str.all_digits tot = true ->
  Str.head_is_digit rest = false ->
  Re.match_sample ("Sample " +:+ cur +:+ "/" +:+ tot +:+ rest) = Some (cur, tot).
Proof.
  intros Hc Hdc Ht Hdt Hr. unfold Re.match_sample.
  rewrite strip_prefix_app. cbn [mbind option_bind].
  rewrite (span_digits_app cur ("/" +:+ tot +:+ rest) Hdc eq_refl).
  destruct cur as [|c0 cur]; [congruence|].
  rewrite (strip_prefix_app "/"). cbn [mbind option_bind].
  rewrite (span_digits_app _ _ Hdt Hr). now destruct tot.
Qed.

(** When the first [Sample ] of the line is followed by
    [cur/tot], the groups of the search are [cur] and [tot]. *)
Lemma search_sample_first pre cur tot rest :
  Str.contains "Sample " pre = false ->
  cur <> EmptyString -> Str.all_digits cur = true ->
  tot <> EmptyString -> Str.all_digits tot = true ->
  Str.head_is_digit rest = false ->
  Re.search_sample (pre +:+ "Sample " +:+ cur +:+ "/" +:+ tot +:+ rest)
  = Some (cur, tot).
Proof.
  intros Hpre Hc Hdc Ht Hdt Hr. induction pre as [|c pre IH].
  - change (EmptyString +:+ "Sample " +:+ cur +:+ "/" +:+ tot +:+ rest)
      with ("Sample " +:+ cur +:+ "/" +:+ tot +:+ rest).
    rewrite search_sample_eq.
    now rewrite (match_sample_here _ _ _ Hc Hdc Ht Hdt Hr).
  - pose proof (contains_tail _ _ _ Hpre) as Htl.
    cbn [Str.contains] in Hpre. apply orb_false_elim in Hpre as [Hhd _].
    pose proof (match_sample_before c pre (cur +:+ "/" +:+ tot +:+ rest) Hhd) as Hm.
    change (String c pre +:+ "Sample " +:+ cur +:+ "/" +:+ tot +:+ rest)
      with (String c (pre +:+ "Sample " +:+ cur +:+ "/" +:+ tot +:+ rest)) in *.
    rewrite search_sample_eq, Hm. exact (IH Htl).
Qed.

End PatternFacts.

(** ** The monitoring loop *)

Section MonitorFacts.

Variables (frame_start frame_end : option Z) (total : Z) (elapsed : Float.float).

Lemma on_line_frame line :
  Str.contains "Fra:" line = true ->
  Monitor.on_line frame_start frame_end total elapsed line
  = Monitor.swallow (Monitor.frame_event frame_start frame_end total elapsed line).
Proof. intros H. unfold Monitor.on_line. now rewrite H. Qed.

Lemma on_line_sample line :
  Str.contains "Fra:" line = false -> Str.contains "Saved:" line = false ->
  Str.contains "Sample" line = true -> Str.contains "/" line = true ->
  Monitor.on_line frame_start frame_end total elapsed line
  = Monitor.swallow (Monitor.sample_event frame_end line).
Proof. intros H1 H2 H3 H4. unfold Monitor.on_line. now rewrite H1, H2, H3, H4. Qed.

(** A frame marker with a falsy [frame_start]: the heartbeat. *)
Lemma heartbeat_fires pre ds rest :
  truthy frame_start = false ->
  ds <> EmptyString -> Str.all_digits ds = true ->
  Monitor.on_line frame_start frame_end total elapsed
    (pre +:+ "Fra:" +:+ ds +:+ rest)
  = Some (Meta.plain "Rendering..." 50).
Proof.
  intros Hfs Hne Hd. rewrite on_line_frame by apply contains_infix.
  unfold Monitor.frame_event.
  destruct (search_fra_marker pre ds rest Hne Hd) as [g ->].
  now rewrite Hfs.
Qed.

(** A frame marker with a truthy [frame_start]: the frame event, when
    neither the percent nor the ETA raises. *)
Lemma frame_event_fires pre ds rest first r eta :
  Str.contains "Fra:" pre = false ->
  ds <> EmptyString -> Str.all_digits ds = true ->
  Str.head_is_digit rest = false ->
  frame_start = Some first -> first <> 0 ->
  Monitor.ratio90 (Str.int_of_digits ds - first + 1) total = Ok r ->
  Monitor.eta_text elapsed (Str.int_of_digits ds - first + 1) total = Ok eta ->
  Monitor.on_line frame_start frame_end total elapsed
    (pre +:+ "Fra:" +:+ ds +:+ rest)
  = Some {| Meta.status :=
              "Rendering frame " +:+ Str.str_of_int (Str.int_of_digits ds)
              +:+ "/" +:+ Str.str_of_int (or_int frame_end (Str.int_of_digits ds))
              +:+ eta;
            Meta.progress := Z.min r 90;
            Meta.current_frame := Some (Str.int_of_digits ds);
            Meta.total_frames := Some (or_int frame_end (Str.int_of_digits ds)) |}.
Proof.
  intros Hpre Hne Hd Hr Hfs Hnz Hratio Heta.
  rewrite on_line_frame by apply contains_infix.
  unfold Monitor.frame_event.
  rewrite (search_fra_first pre ds rest Hpre Hne Hd Hr), Hfs.
  assert (Ht : truthy (Some first) = true)
    by (cbn; now apply negb_true_iff, Z.eqb_neq).
  assert (Hor : or_int (Some first) 0 = first)
    by (cbn; now apply Z.eqb_neq in Hnz as ->).
  rewrite Ht, Hor, Hratio. cbn [mbind result_bind]. now rewrite Heta.
Qed.

(** The divisor of the frame percent: the frame count of the job. *)
Lemma total_frames_of_start first :
  first <> 0 ->
  Monitor.total_frames_of (Some first) frame_end
  = match frame_end with
    | Some last => if last =? 0 then 1 else last - first + 1
    | None => 1
    end.
Proof.
  intros Hnz. unfold Monitor.total_frames_of, truthy, or_int.
  apply Z.eqb_neq in Hnz. rewrite Hnz.
  destruct frame_end as [last|]; [|reflexivity].
  now destruct (last =? 0).
Qed.

End MonitorFacts.

(** *** Frame events *)

(** C10: with [frame_start = 0] every line that holds the frame marker
    [Fra:] followed by digits publishes the fixed heartbeat, 50% and no
    frame numbers, whatever [frame_end] is: the zero start frame counts
    as no frame range, and the frame total of the job is 1. *)
Theorem zero_frame_start_heartbeat
    (frame_end : option Z) (total : Z) (elapsed : Float.float)
    (pre ds rest : string) :
  ds <> EmptyString -> Str.all_digits ds = true ->
  Monitor.on_line (Some 0) frame_end total elapsed (pre +:+ "Fra:" +:+ ds +:+ rest)
  = Some (Meta.plain "Rendering..." 50)
  /\ Monitor.total_frames_of (Some 0) frame_end = 1.
Proof.
  intros Hne Hd. split.
  - now apply heartbeat_fires.
  - unfold Monitor.total_frames_of. cbn. now rewrite andb_false_r.
Qed.

Lemma zero_frame_start_heartbeat_witness :
  Monitor.on_line (Some 0) (Some 10) (Monitor.total_frames_of (Some 0) (Some 10))
    (Float.of_Z 40) ("" +:+ "Fra:" +:+ "5" +:+ " Mem:12.00M")
  = Some (Meta.plain "Rendering..." 50)
  /\ Monitor.total_frames_of (Some 0) (Some 10) = 1.
Proof.
  apply (zero_frame_start_heartbeat (Some 10) _ (Float.of_Z 40) "" "5" " Mem:12.00M").
  - discriminate.
  - reflexivity.
Defined.

(** C4, as stated, fails: for frames 1 to 10 the line [Fra:5] publishes
    45, not the 50 of the specification's formula. *)
Lemma frame_percent_scales_to_90 :
  Monitor.on_line (Some 1) (Some 10) (Monitor.total_frames_of (Some 1) (Some 10))
    (Float.of_Z 40) "Fra:5 Mem:12.00M"
  = Some {| Meta.status := "Rendering frame 5/10 - ETA: 40s";
            Meta.progress := 45;
            Meta.current_frame := Some 5;
            Meta.total_frames := Some 10 |}
  /\ spec_frame_percent 5 1 (Monitor.total_frames_of (Some 1) (Some 10)) = 50.
Proof. split; vm_compute; reflexivity. Qed.

(** C4, amended: on a line whose first [Fra:] is followed by the digits
    [ds], with [current_frame = int(ds)]:
    - when [frame_start] is set and not zero, and neither the percent nor
      the ETA computation raises, the event carries [current_frame],
      the field [total_frames = frame_end or current_frame] and the
      percent [min(int((frames_done / n) * 90), 90)], computed in
      binary64, where [frames_done = current_frame - frame_start + 1]
      and the divisor [n] is the frame count of the job:
      [frame_end - frame_start + 1] when [frame_end] is set and not
      zero, and 1 otherwise.  The divisor is not the field
      [total_frames] of the event;
    - when [frame_start] is [None] or zero, the event is the fixed
      heartbeat: 50% and no frame numbers. *)
Theorem frame_event_progress
    (frame_start frame_end : option Z) (elapsed : Float.float)
    (pre ds rest : string) :
  Str.contains "Fra:" pre = false ->
  ds <> EmptyString -> Str.all_digits ds = true ->
  Str.head_is_digit rest = false ->
  (forall first n r eta,
      frame_start = Some first -> first <> 0 ->
      n = match frame_end with
          | Some last => if last =? 0 then 1 else last - first + 1
          | None => 1
          end ->
      Monitor.ratio90 (Str.int_of_digits ds - first + 1) n = Ok r ->
      Monitor.eta_text elapsed (Str.int_of_digits ds - first + 1) n = Ok eta ->
      Monitor.on_line frame_start frame_end
        (Monitor.total_frames_of frame_start frame_end) elapsed
        (pre +:+ "Fra:" +:+ ds +:+ rest)
      = Some {| Meta.status :=
                  "Rendering frame " +:+ Str.str_of_int (Str.int_of_digits ds)
                  +:+ "/" +:+ Str.str_of_int (or_int frame_end (Str.int_of_digits ds))
                  +:+ eta;
                Meta.progress := Z.min r 90;
                Meta.current_frame := Some (Str.int_of_digits ds);
                Meta.total_frames := Some (or_int frame_end (Str.int_of_digits ds)) |})
  /\ (truthy frame_start = false ->
      Monitor.on_line frame_start frame_end
        (Monitor.total_frames_of frame_start frame_end) elapsed
        (pre +:+ "Fra:" +:+ ds +:+ rest)
      = Some (Meta.plain "Rendering..." 50)).
Proof.
  intros Hpre Hne Hd Hr. split.
  - intros first n r eta Hfs Hnz Hn Hratio Heta.
    apply (frame_event_fires _ _ _ _ pre ds rest first r eta); try assumption.
    + now rewrite Hfs, total_frames_of_start, <- Hn.
    + now rewrite Hfs, total_frames_of_start, <- Hn.
  - intros Hfs. now apply heartbeat_fires.
Qed.

Lemma frame_event_progress_witness :
  Monitor.on_line (Some 3) (Some 12) (Monitor.total_frames_of (Some 3) (Some 12))
    (Float.of_Z 8) ("" +:+ "Fra:" +:+ "4" +:+ " Mem:12.00M")
  = Some {| Meta.status := "Rendering frame 4/12 - ETA: 32s";
            Meta.progress := 18;
            Meta.current_frame := Some 4;
            Meta.total_frames := Some 12 |}.
Proof.
  apply (proj1 (frame_event_progress (Some 3) (Some 12) (Float.of_Z 8)
                  "" "4" " Mem:12.00M" eq_refl ltac:(discriminate) eq_refl eq_refl)
           3 10 18 " - ETA: 32s"%string eq_refl ltac:(discriminate) eq_refl).
  - vm_compute. reflexivity.
  - vm_compute. reflexivity.
Defined.

(** *** The ETA of a frame event *)

(** C9, as stated, fails at the boundary: an ETA of exactly 60 seconds
    (frames 1 to 2, [Fra:1] after 60 seconds) is shown as [60s], not as
    minutes and seconds. *)
Lemma eta_of_sixty_seconds_has_no_minutes :
  Monitor.eta_seconds (Float.of_Z 60) 1 (Monitor.total_frames_of (Some 1) (Some 2))
  = Ok (Float.of_Z 60)
  /\ Monitor.on_line (Some 1) (Some 2) (Monitor.total_frames_of (Some 1) (Some 2))
       (Float.of_Z 60) "Fra:1 Mem:12.00M"
     = Some {| Meta.status := "Rendering frame 1/2 - ETA: 60s";
               Meta.progress := 45;
               Meta.current_frame := Some 1;
               Meta.total_frames := Some 2 |}.
Proof. split; vm_compute; reflexivity. Qed.

(** C9, amended: on a frame event with [frames_done > 0] the ETA is
    [remaining_frames * (elapsed / frames_done)] in binary64; it is shown
    as [<m>m <s>s] when it is strictly greater than 60 seconds and as
    [<s>s] otherwise, [m] and [s] truncated to integers. *)
Theorem frame_event_eta
    (frame_end : option Z) (first : Z) (elapsed : Float.float)
    (pre ds rest : string) (r : Z) (eta : Float.float) :
  Str.contains "Fra:" pre = false ->
  ds <> EmptyString -> Str.all_digits ds = true ->
  Str.head_is_digit rest = false ->
  first <> 0 ->
  Str.int_of_digits ds - first + 1 > 0 ->
  Monitor.ratio90 (Str.int_of_digits ds - first + 1)
    (Monitor.total_frames_of (Some first) frame_end) = Ok r ->
  Monitor.eta_seconds elapsed (Str.int_of_digits ds - first + 1)
    (Monitor.total_frames_of (Some first) frame_end) = Ok eta ->
  let event (text : string) :=
    Some {| Meta.status :=
              "Rendering frame " +:+ Str.str_of_int (Str.int_of_digits ds)
              +:+ "/" +:+ Str.str_of_int (or_int frame_end (Str.int_of_digits ds))
              +:+ " - ETA: " +:+ text;
            Meta.progress := Z.min r 90;
            Meta.current_frame := Some (Str.int_of_digits ds);
            Meta.total_frames := Some (or_int frame_end (Str.int_of_digits ds)) |} in
  (forall s,
      Float.gt_int eta 60 = false -> Float.to_int eta = Ok s ->
      Monitor.on_line (Some first) frame_end
        (Monitor.total_frames_of (Some first) frame_end) elapsed
        (pre +:+ "Fra:" +:+ ds +:+ rest)
      = event (Str.str_of_int s +:+ "s"))
  /\ (forall q m s,
      Float.gt_int eta 60 = true ->
      Float.truediv_int eta 60 = Ok q -> Float.to_int q = Ok m ->
      Float.to_int (Float.rem_pos eta 60) = Ok s ->
      Monitor.on_line (Some first) frame_end
        (Monitor.total_frames_of (Some first) frame_end) elapsed
        (pre +:+ "Fra:" +:+ ds +:+ rest)
      = event (Str.str_of_int m +:+ "m " +:+ Str.str_of_int s +:+ "s")).
Proof.
  intros Hpre Hne Hd Hr Hnz Hdone Hratio Heta event.
  assert (Htext : forall text,
             Monitor.format_eta eta = Ok (" - ETA: " +:+ text) ->
             Monitor.on_line (Some first) frame_end
               (Monitor.total_frames_of (Some first) frame_end) elapsed
               (pre +:+ "Fra:" +:+ ds +:+ rest) = event text).
  { intros text Hfmt.
    apply (frame_event_fires _ _ _ _ pre ds rest first r _
             Hpre Hne Hd Hr eq_refl Hnz Hratio).
    unfold Monitor.eta_text.
    replace (Str.int_of_digits ds - first + 1 >? 0) with true
      by (symmetry; apply Z.gtb_lt; lia).
    rewrite Heta. exact Hfmt. }
  split.
  - intros s Hgt Hs. apply Htext. unfold Monitor.format_eta.
    rewrite Hgt, Hs. reflexivity.
  - intros q m s Hgt Hq Hm Hs. apply Htext. unfold Monitor.format_eta.
    rewrite Hgt, Hq. cbn [mbind result_bind]. rewrite Hm.
    cbn [mbind result_bind]. rewrite Hs. reflexivity.
Qed.

(** Scenario B: frames 1 to 10, [Fra:5] after 40 seconds. *)
Lemma frame_event_eta_witness :
  Monitor.on_line (Some 1) (Some 10) (Monitor.total_frames_of (Some 1) (Some 10))
    (Float.of_Z 40) ("" +:+ "Fra:" +:+ "5" +:+ " Mem:12.00M")
  = Some {| Meta.status := "Rendering frame 5/10 - ETA: 40s";
            Meta.progress := 45;
            Meta.current_frame := Some 5;
            Meta.total_frames := Some 10 |}.
Proof.
  apply (proj1 (frame_event_eta (Some 10) 1 (Float.of_Z 40) "" "5" " Mem:12.00M"
                  45 (Float.of_Z 40)
                  eq_refl ltac:(discriminate) eq_refl eq_refl
                  ltac:(discriminate) eq_refl eq_refl eq_refl)
           40 eq_refl eq_refl).
Defined.

(** The other shape: frames 1 to 20, [Fra:1] after 61 seconds leaves
    19 frames of 61 seconds. *)
Example eta_with_minutes :
  Monitor.on_line (Some 1) (Some 20) (Monitor.total_frames_of (Some 1) (Some 20))
    (Float.of_Z 61) "Fra:1 Mem:12.00M"
  = Some {| Meta.status := "Rendering frame 1/20 - ETA: 19m 19s";
            Meta.progress := 4;
            Meta.current_frame := Some 1;
            Meta.total_frames := Some 20 |}.
Proof. vm_compute. reflexivity. Qed.

(** *** Sample events *)

(** C8, as stated, fails on a still-image job: [Sample 7/10] publishes 62
    where [floor(90 * 7 / 10)] is 63, because [7 / 10] and its product
    with 90 are rounded to binary64 before the truncation; [Sample 1/0]
    publishes nothing (the division raises and the exception is
    swallowed); and a line that also holds [Saved:] publishes the
    finalizing event instead. *)
Lemma sample_percent_is_rounded :
  Monitor.on_line None None 1 (Float.of_Z 3) "Sample 7/10"
  = Some (Meta.plain "Sampling 7/10" 62)
  /\ spec_sample_percent 7 10 = 63
  /\ Monitor.on_line None None 1 (Float.of_Z 3) "Sample 1/0" = None
  /\ Monitor.on_line None None 1 (Float.of_Z 3) "Saved: Sample 1/2"
     = Some (Meta.plain "Finalizing..." 95).
Proof. repeat split; vm_compute; reflexivity. Qed.

(** C8, amended: on a line with neither [Fra:] nor [Saved:] whose first
    [Sample ] is followed by [cur/tot], when [frame_end] is [None] or zero
    and the division does not raise, the event is the percent
    [int((current / total) * 90)], computed in binary64, with the message
    [Sampling current/total]. *)
Theorem sample_event_progress
    (frame_start frame_end : option Z) (total : Z) (elapsed : Float.float)
    (pre cur tot rest : string) (p : Z) :
  truthy frame_end = false ->
  Str.contains "Fra:" (pre +:+ "Sample " +:+ cur +:+ "/" +:+ tot +:+ rest) = false ->
  Str.contains "Saved:" (pre +:+ "Sample " +:+ cur +:+ "/" +:+ tot +:+ rest) = false ->
  Str.contains "Sample " pre = false ->
  cur <> EmptyString -> Str.all_digits cur = true ->
  tot <> EmptyString -> Str.all_digits tot = true ->
  Str.head_is_digit rest = false ->
  Monitor.ratio90 (Str.int_of_digits cur) (Str.int_of_digits tot) = Ok p ->
  Monitor.on_line frame_start frame_end total elapsed
    (pre +:+ "Sample " +:+ cur +:+ "/" +:+ tot +:+ rest)
  = Some (Meta.plain
            ("Sampling " +:+ Str.str_of_int (Str.int_of_digits cur) +:+ "/"
             +:+ Str.str_of_int (Str.int_of_digits tot)) p).
Proof.
  intros Hfe Hfra Hsaved Hpre Hc Hdc Ht Hdt Hr Hp.
  rewrite on_line_sample; try assumption.
  - unfold Monitor.sample_event.
    rewrite (search_sample_first pre cur tot rest Hpre Hc Hdc Ht Hdt Hr).
    rewrite Hfe. cbn [negb]. rewrite Hp. reflexivity.
  - change ("Sample " +:+ cur +:+ "/" +:+ tot +:+ rest)
      with ("Sample" +:+ " " +:+ cur +:+ "/" +:+ tot +:+ rest).
    apply contains_infix.
  - apply contains_skip. change ("Sample " +:+ cur +:+ "/" +:+ tot +:+ rest)
      with (("Sample " +:+ cur) +:+ "/" +:+ tot +:+ rest).
    apply contains_infix.
Qed.

(** Scenario A: [Sample 64/128] on a still-image job. *)
Lemma sample_event_progress_witness :
  Monitor.on_line None None 1 (Float.of_Z 3)
    ("Path Tracing " +:+ "Sample " +:+ "64" +:+ "/" +:+ "128" +:+ "")
  = Some (Meta.plain "Sampling 64/128" 45).
Proof.
  apply (sample_event_progress None None 1 (Float.of_Z 3)
           "Path Tracing " "64" "128" "" 45);
    try reflexivity; try discriminate.
Defined.

(** *** The range of the percent *)

(** C2 does not hold of the code: while the task is in state [PROGRESS],
    - a line [Sample 10/9] on a still-image job publishes 100, and the
      status endpoint reports it;
    - a line [Sample 200/100] publishes 180;
    - for frames 10 to 20 a line [Fra:1] publishes -65.
    The frame branch caps its percent at 90 with [min]; the sample branch
    has no cap, and neither has a floor. *)
Theorem running_percent_leaves_range :
  Monitor.on_line None None 1 (Float.of_Z 3) "Sample 10/9"
  = Some (Meta.plain "Sampling 10/9" 100)
  /\ App.get_status
       (backend (Tasks.monitor "task-1" None None 1
                   [("Sample 10/9"%string, Float.of_Z 3)] empty_world))
       "task-1"
     = (200, {| App.Status.state := "PROGRESS";
                App.Status.status := "Sampling 10/9";
                App.Status.progress := 100;
                App.Status.result := None |})
  /\ Monitor.on_line None None 1 (Float.of_Z 3) "Sample 200/100"
     = Some (Meta.plain "Sampling 200/100" 180)
  /\ Monitor.on_line (Some 10) (Some 20) (Monitor.total_frames_of (Some 10) (Some 20))
       (Float.of_Z 3) "Fra:1 Mem:12.00M"
     = Some {| Meta.status := "Rendering frame 1/20";
               Meta.progress := -65;
               Meta.current_frame := Some 1;
               Meta.total_frames := Some 20 |}.
Proof. repeat split; vm_compute; reflexivity. Qed.

(** ** The task *)

Section TaskFacts.

Variables (cfg : Config.deployment) (popen : Tasks.popen_t) (c : TaskCall).

Abbreviation out_dir := (FS.join (Config.RENDER_FOLDER cfg) (arg_job_id c)).
Abbreviation the_cmd :=
  (Tasks.command cfg (arg_blend_file_path c) (arg_job_id c) (arg_output_format c)
     (kw_samples c) (kw_resolution_x c) (kw_resolution_y c)
     (kw_frame_start c) (kw_frame_end c)).
Abbreviation the_process :=
  (Tasks.run_process cfg popen (call_id c) (arg_blend_file_path c)
     (arg_job_id c) (arg_output_format c) (kw_samples c) (kw_resolution_x c)
     (kw_resolution_y c) (kw_frame_start c) (kw_frame_end c)).
Abbreviation the_body :=
  (Tasks.render_body cfg popen (call_id c) (arg_blend_file_path c)
     (arg_job_id c) (arg_output_format c) (kw_samples c) (kw_resolution_x c)
     (kw_resolution_y c) (kw_frame_start c) (kw_frame_end c)).
Abbreviation the_task :=
  (Tasks.render_blend_file cfg popen (call_id c) (arg_blend_file_path c)
     (arg_job_id c) (arg_output_format c) (kw_samples c) (kw_resolution_x c)
     (kw_resolution_y c) (kw_frame_start c) (kw_frame_end c)).

Lemma monitor_fs self fstart fend total lines w :
  fs (Tasks.monitor self fstart fend total lines w) = fs w.
Proof.
  revert w. induction lines as [|[line t] lines IH]; intros w; simpl; [reflexivity|].
  rewrite IH. now destruct (Monitor.on_line _ _ _ _ _).
Qed.

Lemma monitor_queue self fstart fend total lines w :
  queue (Tasks.monitor self fstart fend total lines w) = queue w.
Proof.
  revert w. induction lines as [|[line t] lines IH]; intros w; simpl; [reflexivity|].
  rewrite IH. now destruct (Monitor.on_line _ _ _ _ _).
Qed.

(** When the directory can be made and the process starts, the first
    half of the body hands over the exited process, with the disk as
    the process left it. *)
Lemma run_process_exited proc m1 w :
  FS.makedirs (fs w) out_dir = Ok m1 ->
  popen the_cmd = Ok proc ->
  exists w1, the_process w = (w1, Ok proc)
             /\ fs w1 = Tasks.on_disk proc m1 /\ queue w1 = queue w.
Proof.
  intros Hmk Hp. unfold Tasks.run_process.
  unfold mbind, M_bind, mret, M_ret, Tasks.update_state, modify, fs_call, lift.
  cbn [fs set_backend]. rewrite Hmk, Hp. eexists. split; [reflexivity|].
  cbn [fs queue set_fs]. now rewrite monitor_fs, monitor_queue.
Qed.

Lemma remove_if_exists_ok p w :
  fs w !! p <> Some FS.Dir ->
  remove_if_exists p w = (set_fs w (delete p (fs w)), Ok tt).
Proof.
  intros Hnd. unfold remove_if_exists, FS.exists_, fs_call, FS.remove.
  destruct (fs w !! p) as [[|]|] eqn:E; [reflexivity|congruence|].
  rewrite delete_id by exact E. now destruct w.
Qed.

(** [if os.path.exists(p): os.remove(p)] leaves every path but [p]
    alone, and leaves no regular file at [p]. *)
Lemma remove_if_exists_effect p w w' r :
  remove_if_exists p w = (w', r) ->
  fs w' !! p <> Some FS.File
  /\ (forall q, q <> p -> fs w' !! q = fs w !! q)
  /\ backend w' = backend w /\ queue w' = queue w.
Proof.
  unfold remove_if_exists, FS.exists_, fs_call, FS.remove.
  destruct (fs w !! p) as [[|]|] eqn:E; intros [= <- <-]; cbn.
  - rewrite lookup_delete_eq. repeat split; try congruence.
    intros q Hq. now rewrite lookup_delete_ne.
  - rewrite E. repeat split; congruence.
  - rewrite E. repeat split; congruence.
Qed.

Lemma run_task_status w w' r :
  the_task w = (w', r) ->
  backend (Tasks.run_task cfg popen c w) !! call_id c
  = Some match r with Ok v => SUCCESS v | Raise e => FAILURE (stored_exn e) end.
Proof.
  intros H. unfold Tasks.run_task. rewrite H.
  destruct r; cbn; apply lookup_insert_eq.
Qed.

(** The disk the first half of the body hands over: as the process left
    it when one ran, as [makedirs] left it when the process could not be
    started, untouched when the directory could not be made. *)
Lemma run_process_fs w w1 r :
  the_process w = (w1, r) ->
  fs w1 = match FS.makedirs (fs w) out_dir with
          | Ok m1 => match popen the_cmd with
                     | Ok proc => Tasks.on_disk proc m1
                     | Raise _ => m1
                     end
          | Raise _ => fs w
          end.
Proof.
  unfold Tasks.run_process.
  unfold mbind, M_bind, mret, M_ret, Tasks.update_state, modify, fs_call, lift.
  cbn [fs set_backend].
  destruct (FS.makedirs _ _) as [m1|e1]; [|now intros [= <- _]].
  destruct (popen _) as [proc|e2]; intros [= <- _]; cbn [fs set_fs set_backend];
    [now rewrite monitor_fs | reflexivity].
Qed.

(** The second half of the body touches no path but the uploaded
    file's. *)
Lemma collect_fs proc w1 w2 r :
  Tasks.collect cfg proc (arg_blend_file_path c) (arg_job_id c) w1 = (w2, r) ->
  forall p, p <> arg_blend_file_path c -> fs w2 !! p = fs w1 !! p.
Proof.
  unfold Tasks.collect. destruct (negb _); [now intros [= <- _]|].
  unfold mbind, M_bind.
  destruct (remove_if_exists _ w1) as [w' [[]|e]] eqn:Hrm;
    apply remove_if_exists_effect in Hrm as (_ & Hrest & _).
  - unfold fs_read. destruct (FS.listdir _ _); intros [= <- _]; exact Hrest.
  - intros [= <- _]. exact Hrest.
Qed.

(** On every path that ends in an exception, the task leaves no regular
    file at the upload's path, and every other path as the process, or
    the step the task stopped at, left it. *)
Lemma failed_task_disk w w' e :
  the_task w = (w', Raise e) ->
  fs w' !! arg_blend_file_path c <> Some FS.File
  /\ forall p, p <> arg_blend_file_path c ->
       fs w' !! p
       = match FS.makedirs (fs w) out_dir with
         | Ok m1 => match popen the_cmd with
                    | Ok proc => Tasks.on_disk proc m1
                    | Raise _ => m1
                    end
         | Raise _ => fs w
         end !! p.
Proof.
  unfold Tasks.render_blend_file, Tasks.render_body.
  unfold mbind at 1. unfold M_bind at 1.
  destruct (the_process w) as [w1 [proc|e1]] eqn:Hrun;
    apply run_process_fs in Hrun as <-.
  - destruct (Tasks.collect _ _ _ _ w1) as [w2 [v|e2]] eqn:Hcol;
      [intros [= _ ?]; discriminate|].
    pose proof (collect_fs _ _ _ _ Hcol) as Hkeep.
    destruct (remove_if_exists _ w2) as [w3 r3] eqn:Hrm.
    apply remove_if_exists_effect in Hrm as (Hgone & Hrest & _).
    destruct r3; intros [= <- _]; (split; [exact Hgone|]);
      intros p Hp; now rewrite Hrest, Hkeep.
  - destruct (remove_if_exists _ w1) as [w3 r3] eqn:Hrm.
    apply remove_if_exists_effect in Hrm as (Hgone & Hrest & _).
    destruct r3; intros [= <- _]; (split; [exact Hgone|]);
      intros p Hp; now rewrite Hrest.
Qed.

(** The run of a task whose process exits with code 0. *)
Lemma exit_zero_run proc m1 listing w :
  FS.makedirs (fs w) out_dir = Ok m1 ->
  popen the_cmd = Ok proc ->
  Tasks.returncode proc = 0 ->
  Tasks.on_disk proc m1 !! arg_blend_file_path c <> Some FS.Dir ->
  FS.listdir (delete (arg_blend_file_path c) (Tasks.on_disk proc m1)) out_dir
  = Ok listing ->
  exists w', the_task w
             = (w', Ok {| TaskResult.job_id := arg_job_id c;
                          TaskResult.status := "completed";
                          TaskResult.output_files :=
                            filter (fun f => Is_true (Tasks.not_hidden f)) listing;
                          TaskResult.output_dir := out_dir |}).
Proof.
  intros Hmk Hp Hrc Hnd Hls.
  destruct (run_process_exited proc m1 w Hmk Hp) as (w1 & Hrun & Hfs & _).
  exists (set_fs w1 (delete (arg_blend_file_path c) (fs w1))).
  unfold Tasks.render_blend_file, Tasks.render_body.
  unfold mbind at 1. unfold M_bind at 1. rewrite Hrun.
  unfold Tasks.collect. rewrite Hrc. cbn [Z.eqb negb].
  unfold mbind, M_bind.
  rewrite remove_if_exists_ok by (rewrite Hfs; exact Hnd).
  unfold fs_read. cbn [fs set_fs]. rewrite Hfs, Hls. reflexivity.
Qed.

(** The run of a task whose process exits with another code. *)
Lemma exit_nonzero_run proc m1 w :
  FS.makedirs (fs w) out_dir = Ok m1 ->
  popen the_cmd = Ok proc ->
  Tasks.returncode proc <> 0 ->
  Tasks.on_disk proc m1 !! arg_blend_file_path c <> Some FS.Dir ->
  exists w', the_task w
             = (w', Raise (Exception (Tasks.failure_message (Tasks.returncode proc)
                                        (Tasks.output_lines proc)))).
Proof.
  intros Hmk Hp Hrc Hnd.
  destruct (run_process_exited proc m1 w Hmk Hp) as (w1 & Hrun & Hfs & _).
  exists (set_fs w1 (delete (arg_blend_file_path c) (fs w1))).
  unfold Tasks.render_blend_file, Tasks.render_body.
  unfold mbind at 1. unfold M_bind at 1. rewrite Hrun.
  unfold Tasks.collect. apply Z.eqb_neq in Hrc. rewrite Hrc. cbn [negb raise].
  rewrite remove_if_exists_ok by (rewrite Hfs; exact Hnd). reflexivity.
Qed.

Lemma failed_status proc m1 w :
  FS.makedirs (fs w) out_dir = Ok m1 ->
  popen the_cmd = Ok proc ->
  Tasks.returncode proc <> 0 ->
  Tasks.on_disk proc m1 !! arg_blend_file_path c <> Some FS.Dir ->
  App.get_status (backend (Tasks.run_task cfg popen c w)) (call_id c)
  = (200, {| App.Status.state := "FAILURE";
             App.Status.status :=
               Tasks.failure_message (Tasks.returncode proc) (Tasks.output_lines proc);
             App.Status.progress := 0;
             App.Status.result := None |}).
Proof.
  intros Hmk Hp Hrc Hnd.
  destruct (exit_nonzero_run proc m1 w Hmk Hp Hrc Hnd) as [w' Htask].
  unfold App.get_status. now rewrite (run_task_status _ _ _ Htask).
Qed.

End TaskFacts.

(** *** Exit code 0 *)

(** C1, as stated, fails: a process that exits with code 0 and leaves the
    output directory empty gives a job that ends [SUCCESS], with an empty
    [output_files] and 100%. *)
Lemma empty_output_still_succeeds :
  snd (Tasks.render_blend_file Scenario.cfg (fun _ => Ok Scenario.silent_success)
         "task-1" Scenario.upload "job-1" "PNG"
         (Some 128) (Some 1920) (Some 1080) None None Scenario.world)
  = Ok {| TaskResult.job_id := "job-1";
          TaskResult.status := "completed";
          TaskResult.output_files := [];
          TaskResult.output_dir := "/srv/rendered/job-1" |}
  /\ App.get_status
       (backend (Tasks.run_task Scenario.cfg (fun _ => Ok Scenario.silent_success)
                   Scenario.call Scenario.world)) "task-1"
     = (200, {| App.Status.state := "SUCCESS";
                App.Status.status := "Render completed";
                App.Status.progress := 100;
                App.Status.result :=
                  Some {| TaskResult.job_id := "job-1";
                          TaskResult.status := "completed";
                          TaskResult.output_files := [];
                          TaskResult.output_dir := "/srv/rendered/job-1" |} |}).
Proof. split; vm_compute; reflexivity. Qed.

(** C1, amended: a job whose process exits with code 0 ends [SUCCESS]
    with the non-hidden entries of its output directory as
    [output_files], whatever their number: an empty directory gives a
    successful job with no files. *)
Theorem exit_zero_succeeds (cfg : Config.deployment) (popen : Tasks.popen_t)
    (c : TaskCall) (proc : Tasks.process) (m1 : FS.t)
    (listing : list string) (w : World) :
  FS.makedirs (fs w) (FS.join (Config.RENDER_FOLDER cfg) (arg_job_id c)) = Ok m1 ->
  popen (Tasks.command cfg (arg_blend_file_path c) (arg_job_id c)
           (arg_output_format c) (kw_samples c) (kw_resolution_x c)
           (kw_resolution_y c) (kw_frame_start c) (kw_frame_end c)) = Ok proc ->
  Tasks.returncode proc = 0 ->
  Tasks.on_disk proc m1 !! arg_blend_file_path c <> Some FS.Dir ->
  FS.listdir (delete (arg_blend_file_path c) (Tasks.on_disk proc m1))
    (FS.join (Config.RENDER_FOLDER cfg) (arg_job_id c)) = Ok listing ->
  let r := {| TaskResult.job_id := arg_job_id c;
              TaskResult.status := "completed";
              TaskResult.output_files :=
                filter (fun f => Is_true (Tasks.not_hidden f)) listing;
              TaskResult.output_dir :=
                FS.join (Config.RENDER_FOLDER cfg) (arg_job_id c) |} in
  snd (Tasks.render_blend_file cfg popen (call_id c) (arg_blend_file_path c)
         (arg_job_id c) (arg_output_format c) (kw_samples c) (kw_resolution_x c)
         (kw_resolution_y c) (kw_frame_start c) (kw_frame_end c) w) = Ok r
  /\ App.get_status (backend (Tasks.run_task cfg popen c w)) (call_id c)
     = (200, {| App.Status.state := "SUCCESS";
                App.Status.status := "Render completed";
                App.Status.progress := 100;
                App.Status.result := Some r |}).
Proof.
  intros Hmk Hp Hrc Hnd Hls r.
  destruct (exit_zero_run cfg popen c proc m1 listing w Hmk Hp Hrc Hnd Hls)
    as [w' Htask].
  split; [now rewrite Htask|].
  unfold App.get_status. now rewrite (run_task_status _ _ _ _ _ _ Htask).
Qed.

Lemma exit_zero_succeeds_witness :
  snd (Tasks.render_blend_file Scenario.cfg (fun _ => Ok Scenario.one_image)
         (call_id Scenario.call) (arg_blend_file_path Scenario.call)
         (arg_job_id Scenario.call) (arg_output_format Scenario.call)
         (kw_samples Scenario.call) (kw_resolution_x Scenario.call)
         (kw_resolution_y Scenario.call) (kw_frame_start Scenario.call)
         (kw_frame_end Scenario.call) Scenario.world)
  = Ok {| TaskResult.job_id := "job-1";
          TaskResult.status := "completed";
          TaskResult.output_files := ["render.png"%string];
          TaskResult.output_dir := "/srv/rendered/job-1" |}.
Proof.
  apply (proj1 (exit_zero_succeeds Scenario.cfg (fun _ => Ok Scenario.one_image)
                  Scenario.call Scenario.one_image Scenario.made
                  [".cache"; "render.png"]%string Scenario.world
                  eq_refl eq_refl eq_refl ltac:(discriminate) eq_refl)).
Defined.

(** *** A non-zero exit code *)

Section PayloadSize.

Lemma length_append (a b : string) :
  String.length (a +:+ b) = (String.length a + String.length b)%nat.
Proof. induction a as [|ch a IH]; simpl; [reflexivity|now rewrite IH]. Qed.

Lemma letters_length n : String.length (Scenario.letters n) = n.
Proof. induction n as [|n IH]; simpl; [reflexivity|now rewrite IH]. Qed.

Lemma rstrip_letters n :
  Str.rstrip_by Str.is_space (Scenario.letters n) = Scenario.letters n.
Proof.
  induction n as [|n IH]; [reflexivity|].
  cbn [Scenario.letters Str.rstrip_by]. rewrite IH. now destruct n.
Qed.

Lemma strip_letters n : Str.strip (Scenario.letters n) = Scenario.letters n.
Proof.
  unfold Str.strip. destruct n as [|n]; [reflexivity|].
  change (Str.lstrip_by Str.is_space (Scenario.letters (S n)))
    with (Scenario.letters (S n)).
  apply rstrip_letters.
Qed.

(** The failure message holds every character of the lines it is made
    of. *)
Lemma failure_message_length code line :
  (String.length line <= String.length (Tasks.failure_message code [line]))%nat.
Proof.
  unfold Tasks.failure_message. rewrite !length_append. cbn. lia.
Qed.

End PayloadSize.

(** C5, as stated, fails: no size bounds the diagnostic text.  Whatever
    the bound, the job whose process prints one line longer than the
    bound and exits with code 1 ends [FAILURE] with a text longer than
    the bound. *)
Lemma failure_payload_has_no_bound :
  ~ (exists bound : nat,
        forall proc : Tasks.process,
          Tasks.returncode proc <> 0 ->
          (String.length
             (App.Status.status
                (snd (App.get_status
                        (backend (Tasks.run_task Scenario.cfg (fun _ => Ok proc)
                                    Scenario.call Scenario.world))
                        (call_id Scenario.call))))
           <= bound)%nat).
Proof.
  intros [bound Hb].
  specialize (Hb (Scenario.verbose_failure (S bound)) ltac:(discriminate)).
  rewrite (failed_status Scenario.cfg _ Scenario.call
             (Scenario.verbose_failure (S bound)) Scenario.made Scenario.world
             eq_refl eq_refl ltac:(discriminate) ltac:(discriminate)) in Hb.
  cbn [snd App.Status.status] in Hb.
  unfold Tasks.output_lines in Hb.
  cbn [Scenario.verbose_failure Tasks.stdout Tasks.returncode map fst] in Hb.
  rewrite strip_letters in Hb.
  pose proof (failure_message_length 1 (Scenario.letters (S bound))) as Hlen.
  rewrite letters_length in Hlen. lia.
Qed.

(** C5, amended: a job whose process exits with a non-zero code ends
    [FAILURE], and its diagnostic text is the header with the exit code
    followed by every captured line, stripped, in order: the whole
    output, with no truncation. *)
Theorem exit_nonzero_fails_with_full_output
    (cfg : Config.deployment) (popen : Tasks.popen_t)
    (c : TaskCall) (proc : Tasks.process) (m1 : FS.t) (w : World) :
  FS.makedirs (fs w) (FS.join (Config.RENDER_FOLDER cfg) (arg_job_id c)) = Ok m1 ->
  popen (Tasks.command cfg (arg_blend_file_path c) (arg_job_id c)
           (arg_output_format c) (kw_samples c) (kw_resolution_x c)
           (kw_resolution_y c) (kw_frame_start c) (kw_frame_end c)) = Ok proc ->
  Tasks.returncode proc <> 0 ->
  Tasks.on_disk proc m1 !! arg_blend_file_path c <> Some FS.Dir ->
  let payload :=
    "Blender render failed with code " +:+ Str.str_of_int (Tasks.returncode proc)
    +:+ ":" +:+ String (ascii_of_nat 10)
                  (Str.join (String (ascii_of_nat 10) "")
                     (map (fun l => Str.strip (fst l)) (Tasks.stdout proc))) in
  snd (Tasks.render_blend_file cfg popen (call_id c) (arg_blend_file_path c)
         (arg_job_id c) (arg_output_format c) (kw_samples c) (kw_resolution_x c)
         (kw_resolution_y c) (kw_frame_start c) (kw_frame_end c) w)
  = Raise (Exception payload)
  /\ App.get_status (backend (Tasks.run_task cfg popen c w)) (call_id c)
     = (200, {| App.Status.state := "FAILURE";
                App.Status.status := payload;
                App.Status.progress := 0;
                App.Status.result := None |}).
Proof.
  intros Hmk Hp Hrc Hnd payload.
  destruct (exit_nonzero_run cfg popen c proc m1 w Hmk Hp Hrc Hnd) as [w' Htask].
  split; [now rewrite Htask|].
  now apply (failed_status cfg popen c proc m1 w).
Qed.

Lemma exit_nonzero_fails_with_full_output_witness :
  App.get_status
    (backend (Tasks.run_task Scenario.cfg (fun _ => Ok Scenario.partial_failure)
                Scenario.call Scenario.world)) (call_id Scenario.call)
  = (200, {| App.Status.state := "FAILURE";
             App.Status.status :=
               "Blender render failed with code 1:" +:+ Scenario.newline
               +:+ "Blender 5.0.0" +:+ Scenario.newline +:+ "Error: out of memory";
             App.Status.progress := 0;
             App.Status.result := None |}).
Proof.
  apply (proj2 (exit_nonzero_fails_with_full_output Scenario.cfg
                  (fun _ => Ok Scenario.partial_failure) Scenario.call
                  Scenario.partial_failure Scenario.made Scenario.world
                  eq_refl eq_refl ltac:(discriminate) ltac:(discriminate))).
Defined.

(** *** What a failed job leaves on disk *)

(** C6, as stated, fails: after a process that wrote one frame and then
    exited with code 1, the job is [FAILURE], the uploaded file is gone,
    and the frame is still in the job's output directory. *)
Lemma partial_output_survives_failure :
  backend (Tasks.run_task Scenario.cfg (fun _ => Ok Scenario.partial_failure)
             Scenario.call Scenario.world) !! "task-1"%string
  = Some (FAILURE (Exception
                     ("Blender render failed with code 1:" +:+ Scenario.newline
                      +:+ "Blender 5.0.0" +:+ Scenario.newline
                      +:+ "Error: out of memory")))
  /\ fs (Tasks.run_task Scenario.cfg (fun _ => Ok Scenario.partial_failure)
           Scenario.call Scenario.world) !! Scenario.upload = None
  /\ FS.listdir
       (fs (Tasks.run_task Scenario.cfg (fun _ => Ok Scenario.partial_failure)
              Scenario.call Scenario.world)) "/srv/rendered/job-1"
     = Ok ["frame_0001.png"%string].
Proof. repeat split; vm_compute; reflexivity. Qed.

(** C6, amended: on every path on which the task raises, it leaves no
    regular file at the upload's path and removes nothing else.  Every
    other path is exactly as the render process left it: the output
    directory keeps whatever the process wrote into it.  When the
    process could not be started the disk is as [makedirs] left it, and
    when the output directory could not be made it is untouched. *)
Theorem failure_removes_only_the_upload
    (cfg : Config.deployment) (popen : Tasks.popen_t) (c : TaskCall)
    (w w' : World) (e : exn) :
  Tasks.render_blend_file cfg popen (call_id c) (arg_blend_file_path c)
    (arg_job_id c) (arg_output_format c) (kw_samples c) (kw_resolution_x c)
    (kw_resolution_y c) (kw_frame_start c) (kw_frame_end c) w = (w', Raise e) ->
  fs w' !! arg_blend_file_path c <> Some FS.File
  /\ (forall p, p <> arg_blend_file_path c ->
        fs w' !! p
        = match FS.makedirs (fs w)
                  (FS.join (Config.RENDER_FOLDER cfg) (arg_job_id c)) with
          | Ok m1 =>
              match popen (Tasks.command cfg (arg_blend_file_path c)
                             (arg_job_id c) (arg_output_format c) (kw_samples c)
                             (kw_resolution_x c) (kw_resolution_y c)
                             (kw_frame_start c) (kw_frame_end c)) with
              | Ok proc => Tasks.on_disk proc m1
              | Raise _ => m1
              end
          | Raise _ => fs w
          end !! p).
Proof. apply failed_task_disk. Qed.

Lemma failure_removes_only_the_upload_witness :
  fs (fst (Tasks.render_blend_file Scenario.cfg (fun _ => Ok Scenario.partial_failure)
             (call_id Scenario.call) (arg_blend_file_path Scenario.call)
             (arg_job_id Scenario.call) (arg_output_format Scenario.call)
             (kw_samples Scenario.call) (kw_resolution_x Scenario.call)
             (kw_resolution_y Scenario.call) (kw_frame_start Scenario.call)
             (kw_frame_end Scenario.call) Scenario.world))
    !! "/srv/rendered/job-1/frame_0001.png"%string
  = Some FS.File.
Proof.
  rewrite (proj2 (failure_removes_only_the_upload Scenario.cfg
                    (fun _ => Ok Scenario.partial_failure) Scenario.call
                    Scenario.world
                    (fst (Tasks.render_blend_file Scenario.cfg
                            (fun _ => Ok Scenario.partial_failure)
                            (call_id Scenario.call)
                            (arg_blend_file_path Scenario.call)
                            (arg_job_id Scenario.call)
                            (arg_output_format Scenario.call)
                            (kw_samples Scenario.call)
                            (kw_resolution_x Scenario.call)
                            (kw_resolution_y Scenario.call)
                            (kw_frame_start Scenario.call)
                            (kw_frame_end Scenario.call) Scenario.world))
                    (Exception (Tasks.failure_message 1
                                  (Tasks.output_lines Scenario.partial_failure)))
                    ltac:(vm_compute; reflexivity))
             "/srv/rendered/job-1/frame_0001.png"%string ltac:(discriminate)).
  vm_compute. reflexivity.
Defined.

(** ** The HTTP handlers *)

Section UploadFacts.

Variables (cfg : Config.deployment) (env : App.environment).

Lemma lift_bind {A B : Type} (r : result A) (k : A -> M B) (w : World) :
  (lift r ≫= k) w = match r with Ok a => k a w | Raise e => (w, Raise e) end.
Proof. unfold mbind, M_bind, lift. now destruct r. Qed.

(** A request with an unsupported format never gets as far as saving
    the file: the world is untouched, and the answer is an error. *)
Lemma unsupported_format_stops req w :
  default "PNG"%string (App.form req !! "format"%string)
    ∉ Config.SUPPORTED_FORMATS ->
  fst (App.upload_file cfg env req w) = w
  /\ match snd (App.upload_file cfg env req w) with
     | Ok (code, App.Error _) => code = 400
     | Ok (_, App.Queued _ _ _ _) => False
     | Raise _ => True
     end.
Proof.
  intros Hfmt. unfold App.upload_file.
  destruct (App.file req) as [name|]; [|now split].
  destruct (String.eqb name ""); [now split|].
  destruct (negb (App.allowed_file name)); [now split|].
  rewrite lift_bind.
  destruct (App.form_int _ "samples" _); [|now split].
  rewrite lift_bind.
  destruct (App.form_int _ "resolution_x" _); [|now split].
  rewrite lift_bind.
  destruct (App.form_int _ "resolution_y" _); [|now split].
  rewrite bool_decide_eq_false_2 by exact Hfmt. now split.
Qed.

Lemma modify_bind {B : Type} (f : World -> World) (k : unit -> M B) (w : World) :
  (modify f ≫= k) w = k tt (f w).
Proof. reflexivity. Qed.

Lemma extract_archive_backend job_id filepath w :
  backend (fst (App.extract_archive cfg env job_id filepath w)) = backend w.
Proof.
  unfold App.extract_archive, mbind, M_bind, fs_call, modify, mret, M_ret.
  destruct (FS.makedirs _ _); [|reflexivity]. cbn [fst snd].
  destruct (App.extract env); try reflexivity.
  destruct (omap _ walk); [reflexivity|]. cbn [fs set_fs].
  destruct (FS.remove _ _); reflexivity.
Qed.

(** [upload_file] never writes to the result backend. *)
Lemma upload_file_backend req w :
  backend (fst (App.upload_file cfg env req w)) = backend w.
Proof.
  unfold App.upload_file.
  destruct (App.file req) as [name|]; [|reflexivity].
  destruct (String.eqb name ""); [reflexivity|].
  destruct (negb (App.allowed_file name)); [reflexivity|].
  rewrite lift_bind.
  destruct (App.form_int _ "samples" _); [|reflexivity].
  rewrite lift_bind.
  destruct (App.form_int _ "resolution_x" _); [|reflexivity].
  rewrite lift_bind.
  destruct (App.form_int _ "resolution_y" _); [|reflexivity].
  destruct (negb (bool_decide _)); [reflexivity|].
  rewrite modify_bind.
  unfold mbind at 1. unfold M_bind at 1.
  destruct (App.is_archive _).
  - pose proof (extract_archive_backend (App.uuid4 env)
                  (FS.join (Config.UPLOAD_FOLDER cfg)
                     (App.uuid4 env +:+ "_" +:+ App.secure_filename env name))
                  (set_fs w (<[FS.join (Config.UPLOAD_FOLDER cfg)
                                 (App.uuid4 env +:+ "_" +:+ App.secure_filename env name)
                               := FS.File]> (fs w)))) as Hx.
    destruct (App.extract_archive _ _ _ _ _) as [w1 [[resp|scene]|e]];
      cbn [fst] in Hx; try exact Hx.
    rewrite lift_bind. destruct (App.opt_int _); [|exact Hx].
    rewrite lift_bind. destruct (App.opt_int _); [|exact Hx].
    exact Hx.
  - cbn [mret M_ret].
    rewrite lift_bind. destruct (App.opt_int _); [|reflexivity].
    rewrite lift_bind. destruct (App.opt_int _); reflexivity.
Qed.

(** A well-formed upload of a scene file is queued with whatever numbers
    and frame range it carries. *)
Lemma scene_upload_is_queued req w name samples rx ry fstart fend :
  App.file req = Some name -> name <> EmptyString ->
  App.allowed_file name = true ->
  App.is_archive (App.secure_filename env name) = false ->
  default "PNG"%string (App.form req !! "format"%string) ∈ Config.SUPPORTED_FORMATS ->
  App.form_int (App.form req) "samples" Config.DEFAULT_SAMPLES = Ok samples ->
  App.form_int (App.form req) "resolution_x" Config.DEFAULT_RESOLUTION_X = Ok rx ->
  App.form_int (App.form req) "resolution_y" Config.DEFAULT_RESOLUTION_Y = Ok ry ->
  App.opt_int (App.form req !! "frame_start"%string) = Ok fstart ->
  App.opt_int (App.form req !! "frame_end"%string) = Ok fend ->
  snd (App.upload_file cfg env req w)
  = Ok (202, App.Queued (App.uuid4 env) (App.new_task_id env)
               "Render job queued successfully" "queued")
  /\ queue (fst (App.upload_file cfg env req w))
     = queue w ++
       [{| call_id := App.new_task_id env;
           arg_blend_file_path :=
             FS.join (Config.UPLOAD_FOLDER cfg)
               (App.uuid4 env +:+ "_" +:+ App.secure_filename env name);
           arg_job_id := App.uuid4 env;
           arg_output_format := default "PNG"%string (App.form req !! "format"%string);
           kw_samples := Some samples;
           kw_resolution_x := Some rx;
           kw_resolution_y := Some ry;
           kw_frame_start := fstart;
           kw_frame_end := fend |}].
Proof.
  intros Hfile Hname Hok Harch Hfmt Hs Hx Hy Hfs Hfe.
  unfold App.upload_file. rewrite Hfile.
  apply String.eqb_neq in Hname. rewrite Hname, Hok. cbn [negb].
  rewrite lift_bind, Hs, lift_bind, Hx, lift_bind, Hy.
  rewrite bool_decide_eq_true_2 by exact Hfmt. cbn [negb].
  rewrite modify_bind. unfold mbind at 1. unfold M_bind at 1.
  rewrite Harch. cbn [mret M_ret].
  rewrite lift_bind, Hfs, lift_bind, Hfe. split; reflexivity.
Qed.

End UploadFacts.

(** *** Validation at submission *)

(** C3, as stated, fails: an upload with [samples = 0] and only
    [frame_start] set is answered 202, and the job is in the queue with
    these parameters. *)
Lemma unchecked_parameters_are_queued :
  snd (App.upload_file Scenario.cfg Scenario.env Scenario.request empty_world)
  = Ok (202, App.Queued "job-1" "task-1" "Render job queued successfully" "queued")
  /\ queue (fst (App.upload_file Scenario.cfg Scenario.env Scenario.request empty_world))
     = [{| call_id := "task-1";
           arg_blend_file_path := "/srv/backend/uploads/job-1_scene.blend";
           arg_job_id := "job-1";
           arg_output_format := "PNG";
           kw_samples := Some 0;
           kw_resolution_x := Some 1920;
           kw_resolution_y := Some 1080;
           kw_frame_start := Some 3;
           kw_frame_end := None |}].
Proof. split; vm_compute; reflexivity. Qed.

(** C3, amended: the format is the only parameter that is validated.
    - A submission whose format is not one of the supported formats is
      never queued; it is answered at once, with the status 400 or with
      the error of an exception raised before the format is looked at.
    - A scene file uploaded with a supported format is queued with the
      numbers and the frame range it carries, whatever they are: any
      integers as samples and resolution, and any of [frame_start] and
      [frame_end] set or not. *)
Theorem submission_checks_only_the_format
    (cfg : Config.deployment) (env : App.environment)
    (req : App.request) (w : World) :
  (default "PNG"%string (App.form req !! "format"%string)
     ∉ Config.SUPPORTED_FORMATS ->
   queue (fst (App.upload_file cfg env req w)) = queue w
   /\ match snd (App.upload_file cfg env req w) with
      | Ok (code, App.Error _) => code = 400
      | Ok (_, App.Queued _ _ _ _) => False
      | Raise _ => True
      end)
  /\ (forall name samples rx ry fstart fend,
        App.file req = Some name -> name <> EmptyString ->
        App.allowed_file name = true ->
        App.is_archive (App.secure_filename env name) = false ->
        default "PNG"%string (App.form req !! "format"%string)
          ∈ Config.SUPPORTED_FORMATS ->
        App.form_int (App.form req) "samples" Config.DEFAULT_SAMPLES = Ok samples ->
        App.form_int (App.form req) "resolution_x" Config.DEFAULT_RESOLUTION_X = Ok rx ->
        App.form_int (App.form req) "resolution_y" Config.DEFAULT_RESOLUTION_Y = Ok ry ->
        App.opt_int (App.form req !! "frame_start"%string) = Ok fstart ->
        App.opt_int (App.form req !! "frame_end"%string) = Ok fend ->
        snd (App.upload_file cfg env req w)
        = Ok (202, App.Queued (App.uuid4 env) (App.new_task_id env)
                     "Render job queued successfully" "queued")
        /\ queue (fst (App.upload_file cfg env req w))
           = queue w ++
             [{| call_id := App.new_task_id env;
                 arg_blend_file_path :=
                   FS.join (Config.UPLOAD_FOLDER cfg)
                     (App.uuid4 env +:+ "_" +:+ App.secure_filename env name);
                 arg_job_id := App.uuid4 env;
                 arg_output_format :=
                   default "PNG"%string (App.form req !! "format"%string);
                 kw_samples := Some samples;
                 kw_resolution_x := Some rx;
                 kw_resolution_y := Some ry;
                 kw_frame_start := fstart;
                 kw_frame_end := fend |}]).
Proof.
  split.
  - intros Hfmt.
    destruct (unsupported_format_stops cfg env req w Hfmt) as [Hw Hresp].
    split; [now rewrite Hw | exact Hresp].
  - intros name samples rx ry fstart fend. apply scene_upload_is_queued.
Qed.

Lemma submission_checks_only_the_format_witness :
  queue (fst (App.upload_file Scenario.cfg Scenario.env
                {| App.file := Some "scene.blend"%string;
                   App.form := {[ "format"%string := "GIF"%string ]} |}
                empty_world)) = []
  /\ snd (App.upload_file Scenario.cfg Scenario.env
            {| App.file := Some "scene.blend"%string;
               App.form := {[ "samples"%string := "-5"%string;
                              "frame_end"%string := "9"%string ]} |}
            empty_world)
     = Ok (202, App.Queued "job-1" "task-1" "Render job queued successfully" "queued").
Proof.
  split.
  - apply (proj1 (proj1 (submission_checks_only_the_format Scenario.cfg Scenario.env
                           {| App.file := Some "scene.blend"%string;
                              App.form := {[ "format"%string := "GIF"%string ]} |}
                           empty_world)
                    ltac:(apply (proj1 (bool_decide_eq_false _));
                          vm_compute; reflexivity))).
  - apply (proj1 (proj2 (submission_checks_only_the_format Scenario.cfg Scenario.env
                           {| App.file := Some "scene.blend"%string;
                              App.form := {[ "samples"%string := "-5"%string;
                                             "frame_end"%string := "9"%string ]} |}
                           empty_world)
                    "scene.blend"%string (-5) 1920 1080 None (Some 9)
                    eq_refl ltac:(discriminate) eq_refl eq_refl
                    ltac:(apply (proj1 (bool_decide_eq_true _));
                          vm_compute; reflexivity)
                    eq_refl eq_refl eq_refl eq_refl eq_refl)).
Defined.

(** *** The status endpoint *)

(** C7, as stated, fails: asked about an id that no job was ever
    submitted under, [get_status] answers 200 with a pending snapshot,
    not with a NotFound. *)
Lemma unknown_id_is_pending :
  App.get_status (backend empty_world) "no-such-task"
  = (200, {| App.Status.state := "PENDING";
             App.Status.status := "Pending...";
             App.Status.progress := 0;
             App.Status.result := None |}).
Proof. reflexivity. Qed.

(** C7, amended: [get_status] answers every id with the status 200 and a
    snapshot.  For an id the result backend holds nothing for, the
    snapshot is the pending one; a submission does not write to the
    backend, so this is the answer for an id nobody submitted and for a
    job that is queued alike. *)
Theorem status_is_always_a_snapshot
    (b : gmap string task_state) (task_id : string)
    (cfg : Config.deployment) (env : App.environment)
    (req : App.request) (w : World) :
  fst (App.get_status b task_id) = 200
  /\ App.get_status (delete task_id b) task_id
     = (200, {| App.Status.state := "PENDING";
                App.Status.status := "Pending...";
                App.Status.progress := 0;
                App.Status.result := None |})
  /\ App.get_status (backend (fst (App.upload_file cfg env req w))) task_id
     = App.get_status (backend w) task_id.
Proof.
  split; [reflexivity|]. split.
  - unfold App.get_status. now rewrite lookup_delete_eq.
  - now rewrite upload_file_backend.
Qed.

(** * Further properties of the code *)

(** ** The monitoring loop as a whole *)

Section MonitorLoop.

Variables (self : string) (frame_start frame_end : option Z) (total : Z).

Abbreviation event_of :=
  (fun l : string * Float.float =>
     Monitor.on_line frame_start frame_end total (snd l) (fst l)).

Lemma monitor_step line elapsed rest w :
  Tasks.monitor self frame_start frame_end total ((line, elapsed) :: rest) w
  = Tasks.monitor self frame_start frame_end total rest
      match Monitor.on_line frame_start frame_end total elapsed line with
      | Some m => set_backend w (<[self := PROGRESS m]> (backend w))
      | None => w
      end.
Proof. cbn. now destruct (Monitor.on_line _ _ _ _ _). Qed.

(** The loop leaves in the backend the event of the last line that had
    one, and nothing else. *)
Lemma monitor_backend lines w :
  backend (Tasks.monitor self frame_start frame_end total lines w)
  = match last (omap event_of lines) with
    | Some m => <[self := PROGRESS m]> (backend w)
    | None => backend w
    end.
Proof.
  revert w. induction lines as [|[line elapsed] lines IH]; intros w; [reflexivity|].
  rewrite monitor_step, IH. cbn [omap list_omap fst snd].
  destruct (Monitor.on_line _ _ _ _ _) as [m0|]; [|reflexivity].
  rewrite last_cons. cbn [backend set_backend].
  destruct (last (omap event_of lines)); [apply insert_insert_eq | reflexivity].
Qed.

End MonitorLoop.

(** X1: after the monitoring loop, the backend differs from the one
    before it in one entry at most: the task's own, which holds the event
    of the last output line that produced one.  Lines without an event
    change nothing, and earlier events are overwritten. *)
Theorem monitor_keeps_last_event
    (self : string) (frame_start frame_end : option Z) (total : Z)
    (lines : list (string * Float.float)) (w : World) :
  backend (Tasks.monitor self frame_start frame_end total lines w)
  = match last (omap (fun l => Monitor.on_line frame_start frame_end total
                                 (snd l) (fst l)) lines) with
    | Some m => <[self := PROGRESS m]> (backend w)
    | None => backend w
    end.
Proof. apply monitor_backend. Qed.

(** ** The range of frame and sample percents *)

Section Signs.

(** [x] is a NaN or carries the sign bit [s]. *)
Abbreviation signed s x :=
  (match x with
   | S754_zero s' | S754_infinity s' | S754_finite s' _ _ => s' = s
   | S754_nan => True
   end).

Lemma binary_round_aux_signed sx mx ex lx :
  signed sx (binary_round_aux Float.prec Float.emax sx mx ex lx).
Proof.
  unfold binary_round_aux.
  destruct (shr_fexp _ _ _ _ _) as [mrs' e'].
  destruct (shr_fexp _ _ _ _ _) as [mrs'' e''].
  destruct (shr_m mrs''); [reflexivity| |exact I].
  now destruct (_ <=? _).
Qed.

Lemma int_truediv_signed a b x :
  Float.int_truediv a b = Ok x -> 0 <= a -> 0 < b -> signed false x.
Proof.
  unfold Float.int_truediv. intros H Ha Hb.
  destruct b as [|b|b]; [lia| |lia].
  destruct a as [|a|a]; [now injection H as <- | |lia].
  cbn in H.
  pose proof (binary_round_aux_signed false) as Hs.
  unfold Float.div, SFdiv in H.
  destruct (SFdiv_core_binary _ _ _ _ _ _) as [[mz ez] lz].
  cbn [xorb] in H. specialize (Hs mz ez lz).
  destruct (binary_round_aux _ _ _ _ _ _); try discriminate;
    injection H as <-; exact Hs.
Qed.

Lemma mul_int_signed x n y :
  signed false x -> 0 < n -> Float.mul_int x n = Ok y -> signed false y.
Proof.
  unfold Float.mul_int, Float.of_int, Float.of_Z, binary_normalize.
  intros Hx Hn H. destruct n as [|n|n]; [lia| |lia].
  pose proof (binary_round_aux_signed false) as Hs.
  unfold binary_round in H.
  destruct (shl_align _ _ _) as [mz ez].
  specialize (Hs (Z.pos mz) ez loc_Exact).
  destruct (binary_round_aux _ _ _ _ _ _) as [s|s| |s m e];
    cbn in H; try discriminate; injection H as <-;
    destruct x as [sx|sx| |sx mx ex]; cbn in *; subst; try exact I;
    try reflexivity; try discriminate.
  apply (binary_round_aux_signed false).
Qed.

Lemma to_int_signed x r : signed false x -> Float.to_int x = Ok r -> 0 <= r.
Proof.
  destruct x as [s|s| |s m e]; cbn; intros Hs H; try discriminate;
    injection H as <-; [lia|]. subst s. cbn.
  apply Z.shiftl_nonneg. lia.
Qed.

(** [int((num / den) * 90)] is not negative when [num] is not and [den]
    is positive. *)
Lemma ratio90_nonneg num den r :
  Monitor.ratio90 num den = Ok r -> 0 <= num -> 0 < den -> 0 <= r.
Proof.
  unfold Monitor.ratio90. intros H Hn Hd.
  destruct (Float.int_truediv num den) as [q|] eqn:Hq; [|discriminate].
  cbn [mbind result_bind] in H.
  destruct (Float.mul_int q 90) as [x|] eqn:Hx; [|discriminate].
  cbn [mbind result_bind] in H.
  apply (to_int_signed x); [|exact H].
  apply (mul_int_signed q 90 x); [|lia|exact Hx].
  now apply (int_truediv_signed num den).
Qed.

Lemma int_truediv_zero a : Float.int_truediv a 0 = Raise ZeroDivisionError.
Proof. now destruct a. Qed.

End Signs.

Section DigitRuns.

Lemma is_digit_val c : Str.is_digit c = true -> 0 <= Str.digit_val c <= 9.
Proof.
  unfold Str.is_digit, Str.digit_val. intros H.
  apply andb_prop in H as [H1 H2].
  apply Nat.leb_le in H1, H2. lia.
Qed.

Lemma int_of_digits_acc_nonneg ds acc :
  Str.all_digits ds = true -> 0 <= acc -> 0 <= Str.int_of_digits_acc acc ds.
Proof.
  revert acc. induction ds as [|c ds IH]; intros acc Hd Hacc; [exact Hacc|].
  cbn in *. apply andb_prop in Hd as [Hc Hd].
  apply IH; [exact Hd|]. pose proof (is_digit_val c Hc). lia.
Qed.

Lemma int_of_digits_nonneg ds :
  Str.all_digits ds = true -> 0 <= Str.int_of_digits ds.
Proof. intros H. now apply int_of_digits_acc_nonneg. Qed.

Lemma span_digits_all s : Str.all_digits (fst (Str.span_digits s)) = true.
Proof.
  induction s as [|c s IH]; [reflexivity|]. cbn.
  destruct (Str.is_digit c) eqn:Hc; [|reflexivity].
  destruct (Str.span_digits s) as [ds r]. cbn in *. now rewrite Hc, IH.
Qed.

Lemma match_sample_digits s cur tot :
  Re.match_sample s = Some (cur, tot) ->
  Str.all_digits cur = true /\ Str.all_digits tot = true.
Proof.
  unfold Re.match_sample.
  destruct (Str.strip_prefix "Sample " s) as [r|]; [|discriminate].
  cbn [mbind option_bind].
  pose proof (span_digits_all r) as H1.
  destruct (Str.span_digits r) as [c r1]. cbn [fst] in H1.
  destruct c as [|c0 c]; [discriminate|].
  destruct (Str.strip_prefix "/" r1) as [r2|]; [|discriminate].
  cbn [mbind option_bind].
  pose proof (span_digits_all r2) as H2.
  destruct (Str.span_digits r2) as [t r3]. cbn [fst] in H2.
  destruct t as [|t0 t]; [discriminate|].
  intros [= <- <-]. now split.
Qed.

Lemma search_sample_digits s cur tot :
  Re.search_sample s = Some (cur, tot) ->
  Str.all_digits cur = true /\ Str.all_digits tot = true.
Proof.
  induction s as [|c s IH]; rewrite search_sample_eq.
  - destruct (Re.match_sample "") as [[c t]|] eqn:E; [|discriminate].
    intros [= <- <-]. now apply (match_sample_digits "").
  - destruct (Re.match_sample (String c s)) as [[c' t']|] eqn:E; [|exact IH].
    intros [= <- <-]. now apply (match_sample_digits (String c s)).
Qed.

End DigitRuns.

(** X2: whatever the job and whatever the frame number, the event of a
    line that contains [Fra:] never carries more than 90 percent. *)
Theorem frame_line_percent_capped
    (frame_start frame_end : option Z) (total : Z) (elapsed : Float.float)
    (line : string) (m : Meta.t) :
  Str.contains "Fra:" line = true ->
  Monitor.on_line frame_start frame_end total elapsed line = Some m ->
  Meta.progress m <= 90.
Proof.
  intros Hfra. rewrite on_line_frame by exact Hfra.
  unfold Monitor.frame_event.
  destruct (Re.search_fra line) as [ds|]; [|discriminate].
  destruct (truthy frame_start); [|intros [= <-]; cbn; lia].
  destruct (Monitor.ratio90 _ _) as [r|]; [|discriminate].
  cbn [mbind result_bind].
  destruct (Monitor.eta_text _ _ _) as [eta|]; [|discriminate].
  intros [= <-]. cbn. lia.
Qed.

Lemma frame_line_percent_capped_witness :
  Meta.progress
    {| Meta.status := "Rendering frame 250/20 - ETA: -6s";
       Meta.progress := 90;
       Meta.current_frame := Some 250;
       Meta.total_frames := Some 20 |} <= 90.
Proof.
  apply (frame_line_percent_capped (Some 10) (Some 20)
           (Monitor.total_frames_of (Some 10) (Some 20)) (Float.of_Z 7)
           "Fra:250 Mem:12.00M").
  - reflexivity.
  - vm_compute. reflexivity.
Defined.

Section EventRange.

Lemma total_frames_positive fstart fend :
  (forall s e, fstart = Some s -> fend = Some e -> s <> 0 -> e <> 0 -> s <= e) ->
  0 < Monitor.total_frames_of fstart fend.
Proof.
  intros H. unfold Monitor.total_frames_of, truthy, or_int.
  destruct fend as [e|]; [|cbn; lia].
  destruct (Z.eqb_spec e 0) as [He|He]; [cbn; lia|].
  destruct fstart as [s|]; [|cbn; lia].
  destruct (Z.eqb_spec s 0) as [Hs|Hs]; [cbn; lia|].
  cbn. specialize (H s e eq_refl eq_refl Hs He). lia.
Qed.

Lemma sample_event_nonneg fend line m :
  Monitor.sample_event fend line = Ok (Some m) -> 0 <= Meta.progress m.
Proof.
  unfold Monitor.sample_event.
  destruct (Re.search_sample line) as [[c t]|] eqn:Hs; [|discriminate].
  destruct (negb (truthy fend)); [|discriminate].
  destruct (search_sample_digits _ _ _ Hs) as [Hc Ht].
  pose proof (int_of_digits_nonneg c Hc) as Hc0.
  pose proof (int_of_digits_nonneg t Ht) as Ht0.
  destruct (Monitor.ratio90 _ _) as [r|] eqn:Hr; [|discriminate].
  intros [= <-]. cbn.
  destruct (Z.eq_dec (Str.int_of_digits t) 0) as [Hz|Hz].
  - rewrite Hz in Hr. unfold Monitor.ratio90 in Hr.
    rewrite int_truediv_zero in Hr. discriminate.
  - apply (ratio90_nonneg _ _ _ Hr); lia.
Qed.

(** With an empty frame range every frame line raises inside its
    [try]. *)
Lemma frame_event_zero_total fstart fend elapsed line :
  truthy fstart = true ->
  Re.search_fra line <> None ->
  exists e, Monitor.frame_event fstart fend 0 elapsed line = Raise e.
Proof.
  intros Hs Hm. unfold Monitor.frame_event.
  destruct (Re.search_fra line) as [ds|]; [|congruence].
  rewrite Hs. unfold Monitor.ratio90. rewrite int_truediv_zero.
  now exists ZeroDivisionError.
Qed.

End EventRange.

(** X3: the percent of an event is not negative when the job's frame
    range is not empty and the frame number a line prints is not before
    [frame_start].  This holds for every kind of line: frame lines,
    sample lines and saved lines. *)
Theorem in_range_percent_is_not_negative
    (frame_start frame_end : option Z) (elapsed : Float.float)
    (line : string) (m : Meta.t) :
  (forall s e, frame_start = Some s -> frame_end = Some e ->
               s <> 0 -> e <> 0 -> s <= e) ->
  (forall s ds, frame_start = Some s -> Re.search_fra line = Some ds ->
                s <= Str.int_of_digits ds) ->
  Monitor.on_line frame_start frame_end
    (Monitor.total_frames_of frame_start frame_end) elapsed line = Some m ->
  0 <= Meta.progress m.
Proof.
  intros Hrange Hcur. pose proof (total_frames_positive _ _ Hrange) as Htot.
  unfold Monitor.on_line.
  destruct (Str.contains "Fra:" line).
  - unfold Monitor.frame_event.
    destruct (Re.search_fra line) as [ds|]; [|discriminate].
    destruct (truthy frame_start) eqn:Ht; [|intros [= <-]; cbn; lia].
    destruct frame_start as [s|]; [|discriminate].
    specialize (Hcur s ds eq_refl eq_refl).
    assert (Hor : or_int (Some s) 0 = s).
    { cbn in *. now destruct (s =? 0). }
    rewrite Hor.
    destruct (Monitor.ratio90 _ _) as [r|] eqn:Hr; [|discriminate].
    cbn [mbind result_bind].
    destruct (Monitor.eta_text _ _ _) as [eta|]; [|discriminate].
    intros [= <-]. cbn.
    pose proof (ratio90_nonneg _ _ _ Hr ltac:(lia) Htot). lia.
  - destruct (Str.contains "Saved:" line); [intros [= <-]; cbn; lia|].
    destruct (_ && _); [|discriminate].
    destruct (Monitor.sample_event frame_end line) as [[ev|]|] eqn:Hev;
      try discriminate.
    intros [= <-]. apply (sample_event_nonneg _ _ _ Hev).
Qed.

Lemma in_range_percent_is_not_negative_witness :
  0 <= Meta.progress
         {| Meta.status := "Rendering frame 12/20 - ETA: 18s";
            Meta.progress := 24;
            Meta.current_frame := Some 12;
            Meta.total_frames := Some 20 |}.
Proof.
  apply (in_range_percent_is_not_negative (Some 10) (Some 20) (Float.of_Z 7)
           "Fra:12 Mem:12.00M").
  - intros s e [= <-] [= <-] _ _. lia.
  - intros s ds [= <-] H. vm_compute in H. injection H as <-.
    vm_compute. discriminate.
  - vm_compute. reflexivity.
Defined.

(** X4: on a job without a [frame_start] (a still image, or a start of
    0) a line that carries the frame marker never reports more than the
    fixed heartbeat.  It gives 50 percent when the pattern [Fra:(\d+)]
    matches anywhere in the line, that is when some [Fra:] of the line,
    not only the first, is directly followed by a digit, and nothing
    when the pattern does not match; this is so even when the same line
    also holds a sample count or [Saved:]. *)
Theorem frame_marker_hides_the_rest
    (frame_start frame_end : option Z) (total : Z) (elapsed : Float.float)
    (line : string) :
  truthy frame_start = false ->
  Str.contains "Fra:" line = true ->
  Monitor.on_line frame_start frame_end total elapsed line
  = match Re.search_fra line with
    | Some _ => Some (Meta.plain "Rendering..." 50)
    | None => None
    end
  /\ (forall pre ds rest,
        line = pre +:+ "Fra:" +:+ ds +:+ rest ->
        ds <> EmptyString -> Str.all_digits ds = true ->
        Monitor.on_line frame_start frame_end total elapsed line
        = Some (Meta.plain "Rendering..." 50)).
Proof.
  intros Hs Hfra. split.
  - rewrite on_line_frame by exact Hfra.
    unfold Monitor.frame_event. destruct (Re.search_fra line); [|reflexivity].
    now rewrite Hs.
  - intros pre ds rest -> Hne Hd. now apply heartbeat_fires.
Qed.

Lemma frame_marker_hides_the_rest_witness :
  Monitor.on_line None None 1 (Float.of_Z 2) "Fra: x Fra:12 | Sample 64/128"
  = Some (Meta.plain "Rendering..." 50).
Proof.
  apply (proj2 (frame_marker_hides_the_rest None None 1 (Float.of_Z 2)
                  "Fra: x Fra:12 | Sample 64/128" eq_refl eq_refl)
           "Fra: x " "12" " | Sample 64/128" eq_refl ltac:(discriminate) eq_refl).
Defined.

(** X5: an animation whose [frame_end] is [frame_start - 1] has a frame
    total of 0, and then no frame line ever reports anything: the
    division by the total raises inside the [try] and the event is
    dropped, whatever frame the line prints. *)
Theorem empty_frame_range_is_silent
    (s e : Z) (elapsed : Float.float) (line : string) :
  s <> 0 -> e <> 0 -> e = s - 1 ->
  Str.contains "Fra:" line = true ->
  Monitor.on_line (Some s) (Some e)
    (Monitor.total_frames_of (Some s) (Some e)) elapsed line = None.
Proof.
  intros Hs He Hes Hfra. rewrite on_line_frame by exact Hfra.
  assert (Htot : Monitor.total_frames_of (Some s) (Some e) = 0).
  { unfold Monitor.total_frames_of, truthy, or_int.
    destruct (Z.eqb_spec s 0); [contradiction|].
    destruct (Z.eqb_spec e 0); [contradiction|]. cbn. lia. }
  rewrite Htot.
  destruct (Re.search_fra line) as [ds|] eqn:Hm.
  - destruct (frame_event_zero_total (Some s) (Some e) elapsed line) as [x ->].
    + cbn. now apply negb_true_iff, Z.eqb_neq.
    + congruence.
    + reflexivity.
  - unfold Monitor.frame_event. now rewrite Hm.
Qed.

Lemma empty_frame_range_is_silent_witness :
  Monitor.on_line (Some 5) (Some 4)
    (Monitor.total_frames_of (Some 5) (Some 4)) (Float.of_Z 3)
    "Fra:5 Mem:12.00M" = None.
Proof.
  apply (empty_frame_range_is_silent 5 4 (Float.of_Z 3) "Fra:5 Mem:12.00M");
    try lia; reflexivity.
Defined.

(** X6: on a job with a [frame_end] other than 0 the sample counts are
    never reported: a line without [Fra:] and without [Saved:] gives no
    event at all. *)
Theorem animation_ignores_sample_lines
    (frame_start frame_end : option Z) (total : Z) (elapsed : Float.float)
    (line : string) :
  truthy frame_end = true ->
  Str.contains "Fra:" line = false ->
  Str.contains "Saved:" line = false ->
  Monitor.on_line frame_start frame_end total elapsed line = None.
Proof.
  intros He H1 H2. unfold Monitor.on_line. rewrite H1, H2.
  destruct (_ && _); [|reflexivity].
  unfold Monitor.sample_event. rewrite He.
  now destruct (Re.search_sample line) as [[c t]|].
Qed.

Lemma animation_ignores_sample_lines_witness :
  Monitor.on_line (Some 1) (Some 10) 10 (Float.of_Z 2)
    "Mem:30.11M | Sample 64/128" = None.
Proof.
  apply (animation_ignores_sample_lines (Some 1) (Some 10) 10 (Float.of_Z 2)
           "Mem:30.11M | Sample 64/128"); reflexivity.
Defined.

(** ** The task, on every path *)

Section TaskPaths.

Variables (cfg : Config.deployment) (popen : Tasks.popen_t) (c : TaskCall).

Abbreviation out_dir := (FS.join (Config.RENDER_FOLDER cfg) (arg_job_id c)).
Abbreviation the_cmd :=
  (Tasks.command cfg (arg_blend_file_path c) (arg_job_id c) (arg_output_format c)
     (kw_samples c) (kw_resolution_x c) (kw_resolution_y c)
     (kw_frame_start c) (kw_frame_end c)).
Abbreviation the_process :=
  (Tasks.run_process cfg popen (call_id c) (arg_blend_file_path c)
     (arg_job_id c) (arg_output_format c) (kw_samples c) (kw_resolution_x c)
     (kw_resolution_y c) (kw_frame_start c) (kw_frame_end c)).
Abbreviation the_body :=
  (Tasks.render_body cfg popen (call_id c) (arg_blend_file_path c)
     (arg_job_id c) (arg_output_format c) (kw_samples c) (kw_resolution_x c)
     (kw_resolution_y c) (kw_frame_start c) (kw_frame_end c)).
Abbreviation the_task :=
  (Tasks.render_blend_file cfg popen (call_id c) (arg_blend_file_path c)
     (arg_job_id c) (arg_output_format c) (kw_samples c) (kw_resolution_x c)
     (kw_resolution_y c) (kw_frame_start c) (kw_frame_end c)).

(** Two backends that agree away from the task's own entry. *)
Abbreviation same_elsewhere b b' :=
  (forall tid : string, tid <> call_id c -> b' !! tid = (b : gmap string task_state) !! tid).

Lemma monitor_elsewhere fstart fend total lines w :
  same_elsewhere (backend w)
    (backend (Tasks.monitor (call_id c) fstart fend total lines w)).
Proof.
  intros tid Hne. rewrite monitor_backend.
  destruct (last _); [now rewrite lookup_insert_ne|reflexivity].
Qed.

Lemma run_process_frame w w1 r :
  the_process w = (w1, r) ->
  queue w1 = queue w /\ same_elsewhere (backend w) (backend w1).
Proof.
  unfold Tasks.run_process.
  unfold mbind, M_bind, mret, M_ret, Tasks.update_state, modify, fs_call, lift.
  cbn [fs set_backend].
  destruct (FS.makedirs _ _) as [m1|e1].
  - destruct (popen _) as [proc|e2]; intros [= <- <-]; cbn [queue backend set_fs set_backend].
    + rewrite monitor_queue. split; [reflexivity|].
      intros tid Hne. rewrite monitor_elsewhere by exact Hne. cbn.
      now rewrite !lookup_insert_ne.
    + split; [reflexivity|]. intros tid Hne. now rewrite !lookup_insert_ne.
  - intros [= <- <-]. split; [reflexivity|]. intros tid Hne. cbn.
    now rewrite lookup_insert_ne.
Qed.

Lemma collect_frame proc w1 w2 r :
  Tasks.collect cfg proc (arg_blend_file_path c) (arg_job_id c) w1 = (w2, r) ->
  queue w2 = queue w1 /\ backend w2 = backend w1.
Proof.
  unfold Tasks.collect. destruct (negb _); [now intros [= <- <-]|].
  unfold mbind, M_bind.
  destruct (remove_if_exists _ w1) as [w' [[]|e]] eqn:Hrm;
    apply remove_if_exists_effect in Hrm as (_ & _ & Hb & Hq).
  - unfold fs_read. destruct (FS.listdir _ _); intros [= <- <-]; now split.
  - intros [= <- <-]. now split.
Qed.

(** The task changes neither the queue nor any entry of the backend but
    its own. *)
Lemma task_frame w w' r :
  the_task w = (w', r) ->
  queue w' = queue w /\ same_elsewhere (backend w) (backend w').
Proof.
  unfold Tasks.render_blend_file, Tasks.render_body.
  unfold mbind at 1. unfold M_bind at 1.
  destruct (the_process w) as [w1 [proc|e1]] eqn:Hrun;
    apply run_process_frame in Hrun as [Hq1 Hb1].
  - destruct (Tasks.collect _ _ _ _ w1) as [w2 [v|e2]] eqn:Hcol;
      apply collect_frame in Hcol as [Hq2 Hb2].
    + intros [= <- <-]. rewrite Hq2, Hb2. now split.
    + destruct (remove_if_exists _ w2) as [w3 r3] eqn:Hrm.
      apply remove_if_exists_effect in Hrm as (_ & _ & Hb3 & Hq3).
      destruct r3; intros [= <- <-]; rewrite Hq3, Hb3, Hq2, Hb2; now split.
  - destruct (remove_if_exists _ w1) as [w3 r3] eqn:Hrm.
    apply remove_if_exists_effect in Hrm as (_ & _ & Hb3 & Hq3).
    destruct r3; intros [= <- <-]; rewrite Hq3, Hb3; now split.
Qed.

(** After a successful task the upload is gone and the result lists the
    directory as it then is. *)
Lemma task_success w w' r :
  the_task w = (w', Ok r) ->
  fs w' !! arg_blend_file_path c = None
  /\ exists listing,
       FS.listdir (fs w') out_dir = Ok listing
       /\ r = {| TaskResult.job_id := arg_job_id c;
                 TaskResult.status := "completed";
                 TaskResult.output_files :=
                   filter (fun f => Is_true (Tasks.not_hidden f)) listing;
                 TaskResult.output_dir := out_dir |}.
Proof.
  unfold Tasks.render_blend_file, Tasks.render_body.
  unfold mbind at 1. unfold M_bind at 1.
  destruct (the_process w) as [w1 [proc|e1]].
  2:{ destruct (remove_if_exists _ w1) as [w3 [|]]; discriminate. }
  unfold Tasks.collect. destruct (negb _).
  { cbn [raise]. destruct (remove_if_exists _ w1) as [w3 [|]]; discriminate. }
  unfold mbind, M_bind.
  destruct (remove_if_exists _ w1) as [w2 [[]|e]] eqn:Hrm.
  2:{ destruct (remove_if_exists _ w2) as [w3 [|]]; discriminate. }
  unfold fs_read.
  destruct (FS.listdir (fs w2) _) as [listing|e] eqn:Hls.
  2:{ destruct (remove_if_exists _ w2) as [w3 [|]]; discriminate. }
  cbn [mret M_ret]. intros [= <- <-]. split; [|eauto].
  revert Hrm. unfold remove_if_exists, FS.exists_, fs_call, FS.remove.
  destruct (fs w1 !! arg_blend_file_path c) as [[|]|] eqn:E.
  - intros [= <-]. cbn. apply lookup_delete_eq.
  - discriminate.
  - now intros [= <-].
Qed.

End TaskPaths.

(** X7: running a task changes neither the broker queue nor the backend
    entry of any other task: whatever the process prints and however the
    task ends, only the entry under the task's own id is written. *)
Theorem run_task_touches_only_its_entry
    (cfg : Config.deployment) (popen : Tasks.popen_t) (c : TaskCall) (w : World)
    (other : string) :
  other <> call_id c ->
  backend (Tasks.run_task cfg popen c w) !! other = backend w !! other
  /\ queue (Tasks.run_task cfg popen c w) = queue w.
Proof.
  intros Hne. unfold Tasks.run_task.
  destruct (Tasks.render_blend_file _ _ _ _ _ _ _ _ _ _ _ w) as [w' r] eqn:Htask.
  apply task_frame in Htask as [Hq Hb].
  destruct r; cbn [backend queue set_backend];
    (split; [rewrite lookup_insert_ne by congruence; now apply Hb | exact Hq]).
Qed.

Lemma run_task_touches_only_its_entry_witness :
  backend (Tasks.run_task Scenario.cfg (fun _ => Ok Scenario.partial_failure)
             Scenario.call
             (set_backend Scenario.world
                {[ "task-0"%string := PROGRESS (Meta.plain "Rendering..." 50) ]}))
    !! "task-0"%string
  = Some (PROGRESS (Meta.plain "Rendering..." 50)).
Proof.
  apply (proj1 (run_task_touches_only_its_entry Scenario.cfg
                  (fun _ => Ok Scenario.partial_failure) Scenario.call
                  (set_backend Scenario.world
                     {[ "task-0"%string := PROGRESS (Meta.plain "Rendering..." 50) ]})
                  "task-0" ltac:(discriminate))).
Defined.

(** X8: once the worker has run a task, the status endpoint reports a
    terminal state for it on every path, never [PROGRESS] or [PENDING]:
    [SUCCESS] with 100 percent and the returned value when the task
    returned, [FAILURE] with 0 percent and no result when it raised.  The
    text of a failure is the message of an [Exception], and for an
    [OSError] the error number and its text without the file name, which
    the result backend does not keep. *)
Theorem status_after_run_is_terminal
    (cfg : Config.deployment) (popen : Tasks.popen_t) (c : TaskCall) (w : World) :
  match snd (Tasks.render_blend_file cfg popen (call_id c)
               (arg_blend_file_path c) (arg_job_id c) (arg_output_format c)
               (kw_samples c) (kw_resolution_x c) (kw_resolution_y c)
               (kw_frame_start c) (kw_frame_end c) w) with
  | Ok r =>
      App.get_status (backend (Tasks.run_task cfg popen c w)) (call_id c)
      = (200, {| App.Status.state := "SUCCESS";
                 App.Status.status := "Render completed";
                 App.Status.progress := 100;
                 App.Status.result := Some r |})
  | Raise e =>
      exists text,
        App.get_status (backend (Tasks.run_task cfg popen c w)) (call_id c)
        = (200, {| App.Status.state := "FAILURE";
                   App.Status.status := text;
                   App.Status.progress := 0;
                   App.Status.result := None |})
        /\ (forall msg, e = Exception msg -> text = msg)
        /\ (forall code filename,
              e = OSError code filename ->
              text = "[Errno " +:+ fst (errno code) +:+ "] " +:+ snd (errno code))
  end.
Proof.
  destruct (Tasks.render_blend_file _ _ _ _ _ _ _ _ _ _ _ w) as [w' r] eqn:Htask.
  unfold App.get_status. rewrite (run_task_status _ _ _ _ _ _ Htask).
  destruct r as [v|e]; cbn [snd]; [reflexivity|].
  exists (str_exn (stored_exn e)). split; [reflexivity|].
  split; [now intros msg -> | now intros code filename ->].
Qed.

(** X9: when the render process cannot be started, the task fails with
    the exception of the start, the uploaded file is removed, and the
    output directory made for the job stays behind.  The backend keeps
    the exception without its file name, so for the [OSError] of a
    missing or forbidden executable the status endpoint shows the error
    number and its text only. *)
Theorem spawn_failure_fails_the_job
    (cfg : Config.deployment) (popen : Tasks.popen_t) (c : TaskCall)
    (m1 : FS.t) (e : exn) (w : World) :
  FS.makedirs (fs w) (FS.join (Config.RENDER_FOLDER cfg) (arg_job_id c)) = Ok m1 ->
  popen (Tasks.command cfg (arg_blend_file_path c) (arg_job_id c)
           (arg_output_format c) (kw_samples c) (kw_resolution_x c)
           (kw_resolution_y c) (kw_frame_start c) (kw_frame_end c)) = Raise e ->
  m1 !! arg_blend_file_path c <> Some FS.Dir ->
  snd (Tasks.render_blend_file cfg popen (call_id c) (arg_blend_file_path c)
         (arg_job_id c) (arg_output_format c) (kw_samples c) (kw_resolution_x c)
         (kw_resolution_y c) (kw_frame_start c) (kw_frame_end c) w) = Raise e
  /\ fs (Tasks.run_task cfg popen c w) = delete (arg_blend_file_path c) m1
  /\ backend (Tasks.run_task cfg popen c w) !! call_id c
     = Some (FAILURE (stored_exn e))
  /\ (forall code filename,
        e = OSError code filename ->
        App.get_status (backend (Tasks.run_task cfg popen c w)) (call_id c)
        = (200, {| App.Status.state := "FAILURE";
                   App.Status.status :=
                     "[Errno " +:+ fst (errno code) +:+ "] " +:+ snd (errno code);
                   App.Status.progress := 0;
                   App.Status.result := None |})).
Proof.
  intros Hmk Hp Hnd.
  assert (Htask : exists b,
             Tasks.render_blend_file cfg popen (call_id c) (arg_blend_file_path c)
               (arg_job_id c) (arg_output_format c) (kw_samples c)
               (kw_resolution_x c) (kw_resolution_y c) (kw_frame_start c)
               (kw_frame_end c) w
             = ({| fs := delete (arg_blend_file_path c) m1;
                   backend := b; queue := queue w |}, Raise e)).
  { unfold Tasks.render_blend_file, Tasks.render_body, Tasks.run_process.
    unfold mbind, M_bind, mret, M_ret, Tasks.update_state, modify, fs_call, lift.
    cbn [fs set_backend]. rewrite Hmk, Hp.
    rewrite remove_if_exists_ok by exact Hnd. eexists. reflexivity. }
  destruct Htask as [b Htask]. split; [now rewrite Htask|].
  split; [unfold Tasks.run_task; now rewrite Htask|].
  split; [now rewrite (run_task_status _ _ _ _ _ _ Htask)|].
  intros code filename ->. unfold App.get_status.
  now rewrite (run_task_status _ _ _ _ _ _ Htask).
Qed.

Lemma spawn_failure_fails_the_job_witness :
  App.get_status
    (backend (Tasks.run_task Scenario.cfg
                (fun _ => Raise (OSError ENOENT (Some "/opt/blender/blender"%string)))
                Scenario.call Scenario.world)) "task-1"
  = (200, {| App.Status.state := "FAILURE";
             App.Status.status := "[Errno 2] No such file or directory";
             App.Status.progress := 0;
             App.Status.result := None |}).
Proof.
  apply (proj2 (proj2 (proj2
           (spawn_failure_fails_the_job Scenario.cfg
              (fun _ => Raise (OSError ENOENT (Some "/opt/blender/blender"%string)))
              Scenario.call Scenario.made
              (OSError ENOENT (Some "/opt/blender/blender"%string)) Scenario.world
              eq_refl eq_refl ltac:(discriminate))))
           ENOENT (Some "/opt/blender/blender"%string) eq_refl).
Defined.

(** X10: every task that returns has removed the uploaded file, echoes
    its job id, and reports as [output_files] exactly the non-hidden
    entries the output directory holds when it returns. *)
Theorem success_result_matches_the_disk
    (cfg : Config.deployment) (popen : Tasks.popen_t) (c : TaskCall)
    (w w' : World) (r : TaskResult.t) :
  Tasks.render_blend_file cfg popen (call_id c) (arg_blend_file_path c)
    (arg_job_id c) (arg_output_format c) (kw_samples c) (kw_resolution_x c)
    (kw_resolution_y c) (kw_frame_start c) (kw_frame_end c) w = (w', Ok r) ->
  fs w' !! arg_blend_file_path c = None
  /\ TaskResult.job_id r = arg_job_id c
  /\ TaskResult.output_dir r = FS.join (Config.RENDER_FOLDER cfg) (arg_job_id c)
  /\ exists listing,
       FS.listdir (fs w') (TaskResult.output_dir r) = Ok listing
       /\ TaskResult.output_files r
          = filter (fun f => Is_true (Tasks.not_hidden f)) listing.
Proof.
  intros Htask.
  destruct (task_success cfg popen c w w' r Htask) as (Hgone & listing & Hls & ->).
  cbn. repeat split; eauto.
Qed.

Lemma success_result_matches_the_disk_witness :
  fs (fst (Tasks.render_blend_file Scenario.cfg (fun _ => Ok Scenario.one_image)
             (call_id Scenario.call) (arg_blend_file_path Scenario.call)
             (arg_job_id Scenario.call) (arg_output_format Scenario.call)
             (kw_samples Scenario.call) (kw_resolution_x Scenario.call)
             (kw_resolution_y Scenario.call) (kw_frame_start Scenario.call)
             (kw_frame_end Scenario.call) Scenario.world))
    !! arg_blend_file_path Scenario.call = None.
Proof.
  apply (proj1 (success_result_matches_the_disk Scenario.cfg
                  (fun _ => Ok Scenario.one_image) Scenario.call Scenario.world _
                  {| TaskResult.job_id := "job-1";
                     TaskResult.status := "completed";
                     TaskResult.output_files := ["render.png"%string];
                     TaskResult.output_dir := "/srv/rendered/job-1" |}
                  ltac:(vm_compute; reflexivity))).
Defined.

(** ** Downloads and the job list *)

Section Downloads.

Variable cfg : Config.deployment.

Abbreviation dir_of job_id := (FS.join (Config.RENDER_FOLDER cfg) job_id).
Abbreviation shown listing := (filter (fun f => Is_true (Tasks.not_hidden f)) listing).

Lemma listdir_ok_dir (m : FS.t) d listing :
  FS.listdir m d = Ok listing -> m !! d = Some FS.Dir.
Proof. unfold FS.listdir. now destruct (m !! d) as [[|]|]. Qed.

Lemma isdir_listdir (m : FS.t) d :
  FS.isdir m d = true -> exists listing, FS.listdir m d = Ok listing.
Proof.
  unfold FS.isdir, FS.listdir. destruct (m !! d) as [[|]|]; try discriminate.
  eauto.
Qed.

(** [download_file] on a directory that can be listed. *)
Lemma download_of_listing (m : FS.t) job_id listing :
  FS.listdir m (dir_of job_id) = Ok listing ->
  App.download_file cfg m job_id
  = App.serve m (dir_of job_id) job_id (shown listing).
Proof.
  intros Hls. unfold App.download_file, FS.exists_.
  rewrite (listdir_ok_dir _ _ _ Hls). cbn [negb]. now rewrite Hls.
Qed.

(** Only an empty list of files is answered with a 404. *)
Lemma serve_not_found (m : FS.t) d job_id files msg :
  App.serve m d job_id files = Ok (App.NotFound msg) ->
  files = [] /\ msg = "No output files found"%string.
Proof.
  destruct files as [|f [|g files]]; cbn [App.serve].
  - now intros [= <-].
  - unfold App.send_file. now destruct (m !! FS.join d f) as [[|]|].
  - now destruct (App.zip_members m d (f :: g :: files)).
Qed.

(** A lone entry that is a directory makes [send_file] raise. *)
Lemma serve_lone_directory (m : FS.t) d job_id f :
  m !! FS.join d f = Some FS.Dir ->
  App.serve m d job_id [f] = Raise (OSError EISDIR (Some (FS.join d f))).
Proof. intros H. cbn. unfold App.send_file. now rewrite H. Qed.

Lemma serve_lone_file (m : FS.t) d job_id f :
  m !! FS.join d f = Some FS.File ->
  App.serve m d job_id [f] = Ok (App.SendFile (FS.join d f)).
Proof. intros H. cbn. unfold App.send_file. now rewrite H. Qed.

Lemma jobs_of_elem (m : FS.t) ids jobs j :
  App.jobs_of cfg m ids = Ok jobs -> j ∈ jobs ->
  App.Job.job_id j ∈ ids
  /\ FS.isdir m (dir_of (App.Job.job_id j)) = true
  /\ exists listing,
       FS.listdir m (dir_of (App.Job.job_id j)) = Ok listing
       /\ App.Job.files j = shown listing
       /\ App.Job.file_count j = Z.of_nat (length (shown listing)).
Proof.
  revert jobs. induction ids as [|id ids IH]; intros jobs Hjobs Hj.
  - injection Hjobs as <-. now apply elem_of_nil in Hj.
  - cbn [App.jobs_of] in Hjobs.
    destruct (FS.isdir m (dir_of id)) eqn:Hdir.
    + destruct (FS.listdir m (dir_of id)) as [listing|] eqn:Hls; [|discriminate].
      cbn [mbind result_bind] in Hjobs.
      destruct (App.jobs_of cfg m ids) as [later|]; [|discriminate].
      cbn [mbind result_bind] in Hjobs. injection Hjobs as <-.
      apply elem_of_cons in Hj as [->|Hj].
      * cbn. split; [left|]. split; [exact Hdir|]. eauto.
      * destruct (IH later eq_refl Hj) as (Hin & Hrest).
        split; [now right | exact Hrest].
    + destruct (IH jobs Hjobs Hj) as (Hin & Hrest).
      split; [now right | exact Hrest].
Qed.

Lemma jobs_of_ids (m : FS.t) ids :
  exists jobs,
    App.jobs_of cfg m ids = Ok jobs
    /\ map App.Job.job_id jobs
       = filter (fun id => Is_true (FS.isdir m (dir_of id))) ids.
Proof.
  induction ids as [|id ids (jobs & Hjobs & Hids)]; [now exists []|].
  cbn [App.jobs_of]. rewrite filter_cons.
  destruct (FS.isdir m (dir_of id)) eqn:Hdir.
  - destruct (isdir_listdir _ _ Hdir) as [listing Hls].
    rewrite Hls, Hjobs. cbn [mbind result_bind]. eexists. split; [reflexivity|].
    cbn [map App.Job.job_id]. rewrite decide_True by exact I. now rewrite Hids.
  - rewrite decide_False by (intros []). eauto.
Qed.

End Downloads.

Section RunThenDownload.

Variables (cfg : Config.deployment) (popen : Tasks.popen_t) (c : TaskCall).

Lemma run_task_fs w :
  fs (Tasks.run_task cfg popen c w)
  = fs (fst (Tasks.render_blend_file cfg popen (call_id c) (arg_blend_file_path c)
               (arg_job_id c) (arg_output_format c) (kw_samples c)
               (kw_resolution_x c) (kw_resolution_y c) (kw_frame_start c)
               (kw_frame_end c) w)).
Proof.
  unfold Tasks.run_task.
  now destruct (Tasks.render_blend_file _ _ _ _ _ _ _ _ _ _ _ w) as [w' [r|e]].
Qed.

(** The disk after a task whose process exited with a non-zero code. *)
Lemma exit_nonzero_fs proc m1 w :
  FS.makedirs (fs w) (FS.join (Config.RENDER_FOLDER cfg) (arg_job_id c)) = Ok m1 ->
  popen (Tasks.command cfg (arg_blend_file_path c) (arg_job_id c)
           (arg_output_format c) (kw_samples c) (kw_resolution_x c)
           (kw_resolution_y c) (kw_frame_start c) (kw_frame_end c)) = Ok proc ->
  Tasks.returncode proc <> 0 ->
  Tasks.on_disk proc m1 !! arg_blend_file_path c <> Some FS.Dir ->
  fs (Tasks.run_task cfg popen c w)
  = delete (arg_blend_file_path c) (Tasks.on_disk proc m1).
Proof.
  intros Hmk Hp Hrc Hnd. rewrite run_task_fs.
  destruct (run_process_exited cfg popen c proc m1 w Hmk Hp) as (w1 & Hrun & Hfs & _).
  unfold Tasks.render_blend_file, Tasks.render_body.
  unfold mbind at 1. unfold M_bind at 1. rewrite Hrun.
  unfold Tasks.collect. apply Z.eqb_neq in Hrc. rewrite Hrc. cbn [negb raise].
  rewrite remove_if_exists_ok by (rewrite Hfs; exact Hnd).
  cbn. now rewrite Hfs.
Qed.

End RunThenDownload.

(** X11: after a task that ended [SUCCESS], [download_file] answers for
    the job from exactly the files the result reports.  An empty
    [output_files] is the 404 "No output files found" of a job whose
    status says it succeeded; one regular file is sent as it is; one
    entry that is a directory makes [send_file] raise; several entries go
    into a zip. *)
Theorem download_serves_the_reported_files
    (cfg : Config.deployment) (popen : Tasks.popen_t) (c : TaskCall)
    (w : World) (r : TaskResult.t) :
  backend (Tasks.run_task cfg popen c w) !! call_id c = Some (SUCCESS r) ->
  App.download_file cfg (fs (Tasks.run_task cfg popen c w)) (arg_job_id c)
  = App.serve (fs (Tasks.run_task cfg popen c w)) (TaskResult.output_dir r)
      (TaskResult.job_id r) (TaskResult.output_files r)
  /\ (TaskResult.output_files r = [] ->
      App.download_file cfg (fs (Tasks.run_task cfg popen c w)) (arg_job_id c)
      = Ok (App.NotFound "No output files found"))
  /\ (forall f,
        TaskResult.output_files r = [f] ->
        fs (Tasks.run_task cfg popen c w) !! FS.join (TaskResult.output_dir r) f
        = Some FS.File ->
        App.download_file cfg (fs (Tasks.run_task cfg popen c w)) (arg_job_id c)
        = Ok (App.SendFile (FS.join (TaskResult.output_dir r) f)))
  /\ (forall f,
        TaskResult.output_files r = [f] ->
        fs (Tasks.run_task cfg popen c w) !! FS.join (TaskResult.output_dir r) f
        = Some FS.Dir ->
        exists filename,
          App.download_file cfg (fs (Tasks.run_task cfg popen c w)) (arg_job_id c)
          = Raise (OSError EISDIR filename)).
Proof.
  intros Hst.
  assert (Hdl : App.download_file cfg (fs (Tasks.run_task cfg popen c w))
                  (arg_job_id c)
                = App.serve (fs (Tasks.run_task cfg popen c w))
                    (TaskResult.output_dir r) (TaskResult.job_id r)
                    (TaskResult.output_files r)).
  { rewrite run_task_fs.
    destruct (Tasks.render_blend_file _ _ _ _ _ _ _ _ _ _ _ w) as [w' res] eqn:Htask.
    rewrite (run_task_status _ _ _ _ _ _ Htask) in Hst.
    destruct res as [r'|e]; [|discriminate]. injection Hst as ->.
    destruct (task_success _ _ _ _ _ _ Htask) as (_ & listing & Hls & ->).
    cbn [fst TaskResult.output_dir TaskResult.job_id TaskResult.output_files].
    now apply download_of_listing. }
  rewrite Hdl. split; [reflexivity|]. split; [now intros ->|]. split.
  - intros f -> Hf. now apply serve_lone_file.
  - intros f -> Hf. eexists. now apply serve_lone_directory.
Qed.

Lemma download_serves_the_reported_files_witness :
  App.download_file Scenario.cfg
    (fs (Tasks.run_task Scenario.cfg (fun _ => Ok Scenario.one_image)
           Scenario.call Scenario.world)) (arg_job_id Scenario.call)
  = Ok (App.SendFile "/srv/rendered/job-1/render.png").
Proof.
  apply (proj1 (proj2 (proj2
           (download_serves_the_reported_files Scenario.cfg
              (fun _ => Ok Scenario.one_image) Scenario.call Scenario.world
              {| TaskResult.job_id := "job-1";
                 TaskResult.status := "completed";
                 TaskResult.output_files := ["render.png"%string];
                 TaskResult.output_dir := "/srv/rendered/job-1" |}
              ltac:(vm_compute; reflexivity))))
           "render.png"%string eq_refl ltac:(vm_compute; reflexivity)).
Defined.

(** X12: [download_file] does not look at how the job ended.  After a
    process that exits with a non-zero code the job is [FAILURE], and a
    download of it still answers from whatever non-hidden entries the
    process left in the output directory. *)
Theorem failed_job_output_is_served
    (cfg : Config.deployment) (popen : Tasks.popen_t) (c : TaskCall)
    (proc : Tasks.process) (m1 : FS.t) (listing : list string) (w : World) :
  FS.makedirs (fs w) (FS.join (Config.RENDER_FOLDER cfg) (arg_job_id c)) = Ok m1 ->
  popen (Tasks.command cfg (arg_blend_file_path c) (arg_job_id c)
           (arg_output_format c) (kw_samples c) (kw_resolution_x c)
           (kw_resolution_y c) (kw_frame_start c) (kw_frame_end c)) = Ok proc ->
  Tasks.returncode proc <> 0 ->
  Tasks.on_disk proc m1 !! arg_blend_file_path c <> Some FS.Dir ->
  FS.listdir (delete (arg_blend_file_path c) (Tasks.on_disk proc m1))
    (FS.join (Config.RENDER_FOLDER cfg) (arg_job_id c)) = Ok listing ->
  snd (App.get_status (backend (Tasks.run_task cfg popen c w)) (call_id c))
  = {| App.Status.state := "FAILURE";
       App.Status.status :=
         Tasks.failure_message (Tasks.returncode proc) (Tasks.output_lines proc);
       App.Status.progress := 0;
       App.Status.result := None |}
  /\ App.download_file cfg (fs (Tasks.run_task cfg popen c w)) (arg_job_id c)
     = App.serve (delete (arg_blend_file_path c) (Tasks.on_disk proc m1))
         (FS.join (Config.RENDER_FOLDER cfg) (arg_job_id c)) (arg_job_id c)
         (filter (fun f => Is_true (Tasks.not_hidden f)) listing).
Proof.
  intros Hmk Hp Hrc Hnd Hls. split.
  - now rewrite (failed_status cfg popen c proc m1 w Hmk Hp Hrc Hnd).
  - rewrite (exit_nonzero_fs cfg popen c proc m1 w Hmk Hp Hrc Hnd).
    now apply download_of_listing.
Qed.

Lemma failed_job_output_is_served_witness :
  App.download_file Scenario.cfg
    (fs (Tasks.run_task Scenario.cfg (fun _ => Ok Scenario.partial_failure)
           Scenario.call Scenario.world)) (arg_job_id Scenario.call)
  = Ok (App.SendFile "/srv/rendered/job-1/frame_0001.png").
Proof.
  rewrite (proj2 (failed_job_output_is_served Scenario.cfg
                    (fun _ => Ok Scenario.partial_failure) Scenario.call
                    Scenario.partial_failure Scenario.made
                    ["frame_0001.png"%string] Scenario.world
                    eq_refl eq_refl ltac:(discriminate) ltac:(discriminate)
                    ltac:(vm_compute; reflexivity))).
  vm_compute. reflexivity.
Defined.

(** X13: [download_file] answers 404 in exactly two cases: nothing
    exists at the job's directory path ("Render not found"), or the
    directory holds no entry that is not hidden ("No output files
    found").  A directory whose only such entry is itself a directory is
    not one of them: there [send_file] raises. *)
Theorem download_not_found_cases
    (cfg : Config.deployment) (m : FS.t) (job_id : string) :
  (forall msg,
     App.download_file cfg m job_id = Ok (App.NotFound msg)
     <-> (m !! FS.join (Config.RENDER_FOLDER cfg) job_id = None
          /\ msg = "Render not found"%string)
         \/ (msg = "No output files found"%string
             /\ exists listing,
                  FS.listdir m (FS.join (Config.RENDER_FOLDER cfg) job_id)
                  = Ok listing
                  /\ filter (fun f => Is_true (Tasks.not_hidden f)) listing = []))
  /\ (forall listing f,
        FS.listdir m (FS.join (Config.RENDER_FOLDER cfg) job_id) = Ok listing ->
        filter (fun f => Is_true (Tasks.not_hidden f)) listing = [f] ->
        m !! FS.join (FS.join (Config.RENDER_FOLDER cfg) job_id) f = Some FS.Dir ->
        exists filename,
          App.download_file cfg m job_id = Raise (OSError EISDIR filename)).
Proof.
  split.
  - intros msg. split.
    + unfold App.download_file, FS.exists_, FS.listdir.
      destruct (m !! FS.join (Config.RENDER_FOLDER cfg) job_id) as [[|]|] eqn:E;
        cbn [negb mbind result_bind]; [discriminate| |intros [= <-]; now left].
      intros H. apply serve_not_found in H as [Hnil ->].
      right. split; [reflexivity|]. eauto.
    + intros [[Hnone ->] | [-> (listing & Hls & Hnil)]].
      * unfold App.download_file, FS.exists_. now rewrite Hnone.
      * rewrite (download_of_listing cfg m job_id listing Hls). now rewrite Hnil.
  - intros listing f Hls Hone Hdir.
    rewrite (download_of_listing cfg m job_id listing Hls), Hone.
    eexists. now apply serve_lone_directory.
Qed.

(** X14: the job list and the download agree.  For every job that
    [list_jobs] lists, [file_count] is the number of [files], and a
    download of that job id answers from exactly those files: a count of
    0 is the 404 "No output files found". *)
Theorem listed_jobs_download_their_files
    (cfg : Config.deployment) (m : FS.t) (jobs : list App.Job.t) (j : App.Job.t) :
  App.list_jobs cfg m = Ok jobs -> j ∈ jobs ->
  App.Job.file_count j = Z.of_nat (length (App.Job.files j))
  /\ App.download_file cfg m (App.Job.job_id j)
     = App.serve m (FS.join (Config.RENDER_FOLDER cfg) (App.Job.job_id j))
         (App.Job.job_id j) (App.Job.files j)
  /\ (App.Job.file_count j = 0 ->
      App.download_file cfg m (App.Job.job_id j)
      = Ok (App.NotFound "No output files found")).
Proof.
  unfold App.list_jobs. intros Hjobs Hj.
  destruct (FS.exists_ m _).
  2:{ injection Hjobs as <-. now apply elem_of_nil in Hj. }
  destruct (FS.listdir m (Config.RENDER_FOLDER cfg)) as [ids|]; [|discriminate].
  cbn [mbind result_bind] in Hjobs.
  destruct (jobs_of_elem cfg m ids jobs j Hjobs Hj)
    as (_ & _ & listing & Hls & Hfiles & Hcount).
  rewrite Hfiles, Hcount, (download_of_listing cfg m _ listing Hls).
  split; [reflexivity|]. split; [reflexivity|].
  intros Hz. destruct (filter _ listing); [reflexivity|cbn in Hz; lia].
Qed.

Lemma listed_jobs_download_their_files_witness :
  App.download_file Scenario.cfg
    ScenarioDisk.rendered "job-1"
  = Ok (App.SendFile "/srv/rendered/job-1/render.png").
Proof.
  refine (eq_trans
            (proj1 (proj2 (listed_jobs_download_their_files Scenario.cfg
                             ScenarioDisk.rendered
                             [{| App.Job.job_id := "job-1"; App.Job.file_count := 1;
                                 App.Job.files := ["render.png"%string] |}]
                             {| App.Job.job_id := "job-1"; App.Job.file_count := 1;
                                App.Job.files := ["render.png"%string] |}
                             ltac:(vm_compute; reflexivity) (list_elem_of_here _ _))))
            _).
  vm_compute. reflexivity.
Defined.

(** X15: [list_jobs] answers with an empty list when [RENDER_FOLDER]
    does not exist, and on a [RENDER_FOLDER] that is a directory it never
    raises: it lists, in directory order, exactly the entries that are
    directories themselves; regular files at the top are skipped. *)
Theorem list_jobs_lists_the_directories
    (cfg : Config.deployment) (m : FS.t) :
  (m !! Config.RENDER_FOLDER cfg = None -> App.list_jobs cfg m = Ok [])
  /\ (forall ids,
        FS.listdir m (Config.RENDER_FOLDER cfg) = Ok ids ->
        exists jobs,
          App.list_jobs cfg m = Ok jobs
          /\ map App.Job.job_id jobs
             = filter (fun id => Is_true (FS.isdir m
                                   (FS.join (Config.RENDER_FOLDER cfg) id))) ids).
Proof.
  split.
  - intros Hnone. unfold App.list_jobs, FS.exists_. now rewrite Hnone.
  - intros ids Hls. unfold App.list_jobs, FS.exists_.
    rewrite (listdir_ok_dir _ _ _ Hls), Hls. cbn [mbind result_bind].
    apply jobs_of_ids.
Qed.

Lemma list_jobs_lists_the_directories_witness :
  exists jobs,
    App.list_jobs Scenario.cfg ScenarioDisk.rendered = Ok jobs
    /\ map App.Job.job_id jobs = ["job-1"%string].
Proof.
  apply (proj2 (list_jobs_lists_the_directories Scenario.cfg ScenarioDisk.rendered)
           ["notes.txt"; "job-1"]%string).
  vm_compute. reflexivity.
Defined.

(** ** Uploads *)

Section Extensions.

Lemma after_last_dot_none s :
  Str.contains "." s = false -> Str.after_last_dot s = None.
Proof.
  induction s as [|c s IH]; [reflexivity|]. intros H.
  pose proof (contains_tail _ _ _ H) as Htl.
  cbn [Str.after_last_dot]. rewrite (IH Htl).
  cbn [Str.contains] in H. apply orb_false_elim in H as [Hhd _].
  unfold Str.startswith in Hhd. cbn [Str.strip_prefix] in Hhd.
  rewrite Ascii.eqb_sym. now destruct (Ascii.eqb "." c).
Qed.

Lemma after_last_dot_app stem ext :
  Str.contains "." ext = false ->
  Str.after_last_dot (stem +:+ "." +:+ ext) = Some ext.
Proof.
  intros H. induction stem as [|c stem IH].
  - change (Str.after_last_dot (String "." ext) = Some ext).
    cbn [Str.after_last_dot]. now rewrite (after_last_dot_none _ H).
  - change (Str.after_last_dot (String c (stem +:+ "." +:+ ext)) = Some ext).
    cbn [Str.after_last_dot]. now rewrite IH.
Qed.

End Extensions.

(** X16: [allowed_file] looks at nothing but the text after the last dot
    of the name, without regard to case: a name [stem.ext] is allowed
    exactly when [ext], in small letters, is [blend], [zip] or [rar],
    whatever the stem (an empty one included), and a name without a dot
    is refused. *)
Theorem allowed_file_reads_the_last_extension (stem ext name : string) :
  (Str.contains "." ext = false ->
   App.allowed_file (stem +:+ "." +:+ ext)
   = bool_decide (Str.lower ext ∈ Config.ALLOWED_EXTENSIONS))
  /\ (Str.contains "." name = false -> App.allowed_file name = false).
Proof.
  split.
  - intros H. unfold App.allowed_file.
    rewrite contains_infix, (after_last_dot_app _ _ H). reflexivity.
  - intros H. unfold App.allowed_file. now rewrite H.
Qed.

Lemma allowed_file_reads_the_last_extension_witness :
  App.allowed_file ("scene.blend" +:+ "." +:+ "EXE") = false
  /\ App.allowed_file ("" +:+ "." +:+ "Blend") = true.
Proof.
  split.
  - apply (proj1 (allowed_file_reads_the_last_extension "scene.blend" "EXE" "x")
             eq_refl).
  - apply (proj1 (allowed_file_reads_the_last_extension "" "Blend" "x") eq_refl).
Defined.

Section UploadPaths.

Variables (cfg : Config.deployment) (env : App.environment).

Abbreviation saved_at name :=
  (FS.join (Config.UPLOAD_FOLDER cfg)
     (App.uuid4 env +:+ "_" +:+ App.secure_filename env name)).

(** The archive branch answers with an error or hands over a scene
    file; it never touches the queue. *)
Lemma extract_archive_queue job_id filepath w :
  queue (fst (App.extract_archive cfg env job_id filepath w)) = queue w
  /\ match snd (App.extract_archive cfg env job_id filepath w) with
     | Ok (inl (code, App.Error _)) => code = 400 \/ code = 500
     | Ok (inl (_, App.Queued _ _ _ _)) => False
     | _ => True
     end.
Proof.
  unfold App.extract_archive, mbind, M_bind, fs_call, modify, mret, M_ret.
  destruct (FS.makedirs _ _); [|now split]. cbn [fst snd].
  destruct (App.extract env); try (split; [reflexivity|]; cbn; lia).
  destruct (omap _ walk); [split; [reflexivity|]; cbn; lia|]. cbn [fs set_fs].
  destruct (FS.remove _ _); split; try reflexivity; cbn; lia.
Qed.

(** What every path of [upload_file] does to the queue. *)
Lemma upload_file_queue req w w' r :
  App.upload_file cfg env req w = (w', r) ->
  match r with
  | Ok (code, App.Queued j t _ _) =>
      code = 202 /\ j = App.uuid4 env /\ t = App.new_task_id env
      /\ exists c, queue w' = queue w ++ [c]
                   /\ call_id c = t /\ arg_job_id c = j
  | Ok (code, App.Error _) => (code = 400 \/ code = 500) /\ queue w' = queue w
  | Raise _ => queue w' = queue w
  end.
Proof.
  unfold App.upload_file.
  destruct (App.file req) as [name|];
    [|intros [= <- <-]; split; [lia|reflexivity]].
  destruct (String.eqb name ""); [intros [= <- <-]; split; [lia|reflexivity]|].
  destruct (negb (App.allowed_file name));
    [intros [= <- <-]; split; [lia|reflexivity]|].
  rewrite lift_bind.
  destruct (App.form_int _ "samples" _); [|now intros [= <- <-]].
  rewrite lift_bind.
  destruct (App.form_int _ "resolution_x" _); [|now intros [= <- <-]].
  rewrite lift_bind.
  destruct (App.form_int _ "resolution_y" _); [|now intros [= <- <-]].
  destruct (negb (bool_decide _)); [intros [= <- <-]; split; [lia|reflexivity]|].
  rewrite modify_bind.
  unfold mbind at 1. unfold M_bind at 1.
  destruct (App.is_archive _).
  - pose proof (extract_archive_queue (App.uuid4 env) (saved_at name)
                  (set_fs w (<[saved_at name := FS.File]> (fs w)))) as [Hq Hr].
    destruct (App.extract_archive _ _ _ _ _)
      as [w1 [[[code [msg|j t txt st]]|scene]|e]];
      cbn [fst snd] in Hq, Hr; cbn [mret M_ret].
    + now intros [= <- <-].
    + destruct Hr.
    + rewrite lift_bind. destruct (App.opt_int _); [|now intros [= <- <-]].
      rewrite lift_bind. destruct (App.opt_int _); [|now intros [= <- <-]].
      intros [= <- <-]. repeat split. eexists. cbn. rewrite Hq.
      split; [reflexivity|]. now split.
    + now intros [= <- <-].
  - cbn [mret M_ret].
    rewrite lift_bind. destruct (App.opt_int _); [|now intros [= <- <-]].
    rewrite lift_bind. destruct (App.opt_int _); [|now intros [= <- <-]].
    intros [= <- <-]. repeat split. eexists. split; [reflexivity|]. now split.
Qed.

(** A failed check ends [upload_file] before it writes anything. *)
Lemma failed_check_stops req w :
  App.file req = None
  \/ App.file req = Some EmptyString
  \/ (exists name, App.file req = Some name /\ App.allowed_file name = false)
  \/ (exists e, App.form_int (App.form req) "samples" Config.DEFAULT_SAMPLES = Raise e)
  \/ (exists e, App.form_int (App.form req) "resolution_x"
                  Config.DEFAULT_RESOLUTION_X = Raise e)
  \/ (exists e, App.form_int (App.form req) "resolution_y"
                  Config.DEFAULT_RESOLUTION_Y = Raise e)
  \/ default "PNG"%string (App.form req !! "format"%string)
       ∉ Config.SUPPORTED_FORMATS ->
  fst (App.upload_file cfg env req w) = w.
Proof.
  intros H. unfold App.upload_file.
  destruct (App.file req) as [name|] eqn:Hfile; [|reflexivity].
  destruct (String.eqb name "") eqn:Hname; [reflexivity|].
  destruct (App.allowed_file name) eqn:Hok; [|reflexivity]. cbn [negb].
  rewrite lift_bind.
  destruct (App.form_int _ "samples" _) as [s|] eqn:Hs; [|reflexivity].
  rewrite lift_bind.
  destruct (App.form_int _ "resolution_x" _) as [x|] eqn:Hx; [|reflexivity].
  rewrite lift_bind.
  destruct (App.form_int _ "resolution_y" _) as [y|] eqn:Hy; [|reflexivity].
  destruct (bool_decide _) eqn:Hfmt; [|reflexivity].
  apply bool_decide_eq_true in Hfmt. exfalso.
  destruct H as [H|[H|[(n & H & Hn)|[[e H]|[[e H]|[[e H]|H]]]]]]; try discriminate.
  - injection H as ->. discriminate.
  - injection H as ->. congruence.
  - contradiction.
Qed.

End UploadPaths.

Section UploadThenRun.

Variables (cfg : Config.deployment) (popen : Tasks.popen_t) (c : TaskCall).

(** However the task ends, no regular file is left at the path of the
    uploaded file. *)
Lemma task_clears_upload w :
  fs (Tasks.run_task cfg popen c w) !! arg_blend_file_path c <> Some FS.File.
Proof.
  rewrite run_task_fs.
  destruct (Tasks.render_blend_file _ _ _ _ _ _ _ _ _ _ _ w) as [w' [r|e]] eqn:Htask.
  - destruct (task_success _ _ _ _ _ _ Htask) as [Hgone _]. cbn. congruence.
  - revert Htask. unfold Tasks.render_blend_file.
    destruct (Tasks.render_body _ _ _ _ _ _ _ _ _ _ _ w) as [w1 [r|e1]];
      [discriminate|].
    destruct (remove_if_exists (arg_blend_file_path c) w1) as [w2 r2] eqn:Hrm.
    apply remove_if_exists_effect in Hrm as (Hgone & _).
    destruct r2; intros [= <- _]; exact Hgone.
Qed.

End UploadThenRun.

Section UploadOutcomes.

Variables (cfg : Config.deployment) (env : App.environment).

Abbreviation saved_path name :=
  (FS.join (Config.UPLOAD_FOLDER cfg)
     (App.uuid4 env +:+ "_" +:+ App.secure_filename env name)).
Abbreviation extract_dir :=
  (FS.join (Config.UPLOAD_FOLDER cfg) (App.uuid4 env +:+ "_extracted")).
Abbreviation with_upload w name :=
  (set_fs w (<[saved_path name := FS.File]> (fs w))).
Abbreviation unpacked m0 walk :=
  (foldr (fun (e : string * string) (m : FS.t) =>
            <[FS.join (fst e) (snd e) := FS.File]> m) (m0 : FS.t) walk).
Abbreviation scenes walk :=
  (omap (fun e : string * string =>
           if Str.endswith (snd e) ".blend"
           then Some (FS.join (fst e) (snd e)) else None) walk).

(** The checks of [upload_file] that come before the file is saved. *)
Abbreviation passes req name samples rx ry :=
  (App.file req = Some name%string /\ name%string <> EmptyString
   /\ App.allowed_file name = true
   /\ default "PNG"%string (App.form req !! "format"%string)
        ∈ Config.SUPPORTED_FORMATS
   /\ App.form_int (App.form req) "samples" Config.DEFAULT_SAMPLES = Ok samples
   /\ App.form_int (App.form req) "resolution_x" Config.DEFAULT_RESOLUTION_X = Ok rx
   /\ App.form_int (App.form req) "resolution_y" Config.DEFAULT_RESOLUTION_Y = Ok ry).

Ltac pass_checks H :=
  let Hfile := fresh in let Hname := fresh in let Hok := fresh in
  let Hfmt := fresh in let Hs := fresh in let Hx := fresh in let Hy := fresh in
  destruct H as (Hfile & Hname & Hok & Hfmt & Hs & Hx & Hy);
  unfold App.upload_file; rewrite Hfile;
  apply String.eqb_neq in Hname; rewrite Hname, Hok; cbn [negb];
  rewrite lift_bind, Hs, lift_bind, Hx, lift_bind, Hy;
  rewrite bool_decide_eq_true_2 by exact Hfmt; cbn [negb];
  rewrite modify_bind; unfold mbind at 1; unfold M_bind at 1.

Lemma unpacked_keeps_file (m : FS.t) walk p :
  m !! p = Some FS.File -> unpacked m walk !! p = Some FS.File.
Proof.
  intros H. induction walk as [|e walk IH]; [exact H|]. cbn [foldr].
  destruct (decide (FS.join (fst e) (snd e) = p)) as [->|Hne].
  - apply lookup_insert_eq.
  - now rewrite lookup_insert_ne.
Qed.

Lemma makedirs_keeps_file (m m1 : FS.t) d p :
  FS.makedirs m d = Ok m1 -> m !! p = Some FS.File -> m1 !! p = Some FS.File.
Proof.
  unfold FS.makedirs. destruct (m !! d) as [[|]|] eqn:E; intros [= <-] Hp.
  - exact Hp.
  - rewrite lookup_insert_ne; [exact Hp|]. intros ->. congruence.
Qed.

(** An accepted scene file: saved, then queued under its saved path. *)
Lemma scene_upload_world req w name samples rx ry fstart fend :
  passes req name samples rx ry ->
  App.is_archive (App.secure_filename env name) = false ->
  App.opt_int (App.form req !! "frame_start"%string) = Ok fstart ->
  App.opt_int (App.form req !! "frame_end"%string) = Ok fend ->
  fst (App.upload_file cfg env req w)
  = set_queue (with_upload w name)
      (queue w ++
       [{| call_id := App.new_task_id env;
           arg_blend_file_path := saved_path name;
           arg_job_id := App.uuid4 env;
           arg_output_format := default "PNG"%string (App.form req !! "format"%string);
           kw_samples := Some samples;
           kw_resolution_x := Some rx;
           kw_resolution_y := Some ry;
           kw_frame_start := fstart;
           kw_frame_end := fend |}]).
Proof.
  intros Hpass Harch Hfs Hfe. pass_checks Hpass.
  rewrite Harch. cbn [mret M_ret].
  now rewrite lift_bind, Hfs, lift_bind, Hfe.
Qed.

(** X17: a [frame_start] or [frame_end] field that is not an integer is
    found only after the upload has been saved: the request ends with
    the exception, no job is queued, and the saved file stays in the
    upload folder. *)
Theorem bad_frame_bound_orphans_the_upload req w name samples rx ry e :
  passes req name samples rx ry ->
  App.is_archive (App.secure_filename env name) = false ->
  (App.opt_int (App.form req !! "frame_start"%string) = Raise e
   \/ (exists fstart, App.opt_int (App.form req !! "frame_start"%string) = Ok fstart)
      /\ App.opt_int (App.form req !! "frame_end"%string) = Raise e) ->
  App.upload_file cfg env req w = (with_upload w name, Raise e).
Proof.
  intros Hpass Harch Hbad. pass_checks Hpass.
  rewrite Harch. cbn [mret M_ret]. rewrite lift_bind.
  destruct Hbad as [->|[[fstart ->] Hfe]]; [reflexivity|].
  now rewrite lift_bind, Hfe.
Qed.

(** X18: from an uploaded archive the first scene file the walk finds is
    the one that is rendered: the job is queued with its path, the
    archive itself is removed, and everything that was unpacked stays on
    disk. *)
Theorem archive_upload_renders_the_first_scene
    req w name samples rx ry fstart fend m1 walk first others :
  passes req name samples rx ry ->
  App.is_archive (App.secure_filename env name) = true ->
  FS.makedirs (fs (with_upload w name)) extract_dir = Ok m1 ->
  App.extract env = App.Extracted walk ->
  scenes walk = first :: others ->
  App.opt_int (App.form req !! "frame_start"%string) = Ok fstart ->
  App.opt_int (App.form req !! "frame_end"%string) = Ok fend ->
  App.upload_file cfg env req w
  = ({| fs := delete (saved_path name) (unpacked m1 walk);
        backend := backend w;
        queue := queue w ++
          [{| call_id := App.new_task_id env;
              arg_blend_file_path := first;
              arg_job_id := App.uuid4 env;
              arg_output_format := default "PNG"%string (App.form req !! "format"%string);
              kw_samples := Some samples;
              kw_resolution_x := Some rx;
              kw_resolution_y := Some ry;
              kw_frame_start := fstart;
              kw_frame_end := fend |}] |},
     Ok (202, App.Queued (App.uuid4 env) (App.new_task_id env)
                "Render job queued successfully" "queued")).
Proof.
  intros Hpass Harch Hmk Hex Hscenes Hfs Hfe. pass_checks Hpass.
  rewrite Harch. unfold App.extract_archive.
  unfold mbind at 1. unfold M_bind at 1. unfold fs_call. rewrite Hmk.
  rewrite Hex. rewrite modify_bind. rewrite Hscenes. cbn [fs set_fs].
  assert (Hfile : unpacked m1 walk !! saved_path name = Some FS.File).
  { apply unpacked_keeps_file. apply (makedirs_keeps_file _ _ _ _ Hmk).
    cbn. apply lookup_insert_eq. }
  unfold FS.remove. rewrite Hfile.
  now rewrite lift_bind, Hfs, lift_bind, Hfe.
Qed.

(** X19: an archive without a scene file is answered 400 and nothing is
    queued, but nothing is cleaned up either: the archive and what was
    unpacked from it stay on disk. *)
Theorem archive_without_scene_is_rejected req w name samples rx ry m1 walk :
  passes req name samples rx ry ->
  App.is_archive (App.secure_filename env name) = true ->
  FS.makedirs (fs (with_upload w name)) extract_dir = Ok m1 ->
  App.extract env = App.Extracted walk ->
  scenes walk = [] ->
  App.upload_file cfg env req w
  = ({| fs := unpacked m1 walk; backend := backend w; queue := queue w |},
     Ok (400, App.Error "No .blend file found in archive"))
  /\ unpacked m1 walk !! saved_path name = Some FS.File.
Proof.
  intros Hpass Harch Hmk Hex Hscenes. split.
  - pass_checks Hpass.
    rewrite Harch. unfold App.extract_archive.
    unfold mbind at 1. unfold M_bind at 1. unfold fs_call. rewrite Hmk.
    rewrite Hex. rewrite modify_bind. now rewrite Hscenes.
  - apply unpacked_keeps_file. apply (makedirs_keeps_file _ _ _ _ Hmk).
    cbn. apply lookup_insert_eq.
Qed.

(** X20: an accepted scene upload is on disk when its job is queued, the
    queued call names that very file, and once the worker has run the
    call no regular file is left at its path, whatever the process did
    and however the task ended. *)
Theorem accepted_scene_is_removed_by_its_task
    req w name samples rx ry fstart fend (popen : Tasks.popen_t) :
  passes req name samples rx ry ->
  App.is_archive (App.secure_filename env name) = false ->
  App.opt_int (App.form req !! "frame_start"%string) = Ok fstart ->
  App.opt_int (App.form req !! "frame_end"%string) = Ok fend ->
  fs (fst (App.upload_file cfg env req w)) !! saved_path name = Some FS.File
  /\ exists c,
       queue (fst (App.upload_file cfg env req w)) = queue w ++ [c]
       /\ arg_blend_file_path c = saved_path name
       /\ fs (Tasks.run_task cfg popen c (fst (App.upload_file cfg env req w)))
            !! saved_path name <> Some FS.File.
Proof.
  intros Hpass Harch Hfs Hfe.
  rewrite (scene_upload_world req w name samples rx ry fstart fend
             Hpass Harch Hfs Hfe).
  split; [cbn; apply lookup_insert_eq|].
  eexists. split; [reflexivity|]. split; [reflexivity|].
  apply (task_clears_upload cfg popen
           {| call_id := App.new_task_id env;
              arg_blend_file_path := saved_path name;
              arg_job_id := App.uuid4 env;
              arg_output_format := default "PNG"%string (App.form req !! "format"%string);
              kw_samples := Some samples;
              kw_resolution_x := Some rx;
              kw_resolution_y := Some ry;
              kw_frame_start := fstart;
              kw_frame_end := fend |}).
Qed.

End UploadOutcomes.

(** X21: a request that fails any check of [upload_file] (no file part,
    an empty file name, a file type that is not allowed, a samples or
    resolution field that is not an integer, an unsupported format)
    leaves no trace: nothing is saved, made or queued, and the answer is
    never the one of a queued job. *)
Theorem failed_checks_leave_no_trace
    (cfg : Config.deployment) (env : App.environment)
    (req : App.request) (w : World) :
  App.file req = None
  \/ App.file req = Some EmptyString
  \/ (exists name, App.file req = Some name /\ App.allowed_file name = false)
  \/ (exists e, App.form_int (App.form req) "samples" Config.DEFAULT_SAMPLES = Raise e)
  \/ (exists e, App.form_int (App.form req) "resolution_x"
                  Config.DEFAULT_RESOLUTION_X = Raise e)
  \/ (exists e, App.form_int (App.form req) "resolution_y"
                  Config.DEFAULT_RESOLUTION_Y = Raise e)
  \/ default "PNG"%string (App.form req !! "format"%string)
       ∉ Config.SUPPORTED_FORMATS ->
  fst (App.upload_file cfg env req w) = w
  /\ match snd (App.upload_file cfg env req w) with
     | Ok (_, App.Queued _ _ _ _) => False
     | _ => True
     end.
Proof.
  intros H. pose proof (failed_check_stops cfg env req w H) as Hw.
  split; [exact Hw|].
  destruct (App.upload_file cfg env req w) as [w' r] eqn:Hup. cbn [fst snd] in *.
  pose proof (upload_file_queue cfg env req w w' r Hup) as Hq. subst w'.
  destruct r as [[code [msg|j t txt st]]|e]; try exact I.
  destruct Hq as (_ & _ & _ & c & Hq & _).
  apply (f_equal length) in Hq. rewrite length_app in Hq. cbn in Hq. lia.
Qed.

Lemma failed_checks_leave_no_trace_witness :
  fst (App.upload_file Scenario.cfg Scenario.env
         {| App.file := Some "scene.blend"%string;
            App.form := {[ "samples"%string := "many"%string ]} |}
         empty_world) = empty_world.
Proof.
  apply (proj1 (failed_checks_leave_no_trace Scenario.cfg Scenario.env
                  {| App.file := Some "scene.blend"%string;
                     App.form := {[ "samples"%string := "many"%string ]} |}
                  empty_world
                  ltac:(right; right; right; left; exists ValueError;
                        reflexivity))).
Defined.

(** X22: [upload_file] queues a job exactly when it answers 202.  The
    202 answer carries the job id and the task id of the one call that
    was put at the end of the queue; every other answer (400, 500 or an
    unhandled exception) leaves the queue as it was. *)
Theorem upload_queues_exactly_on_202
    (cfg : Config.deployment) (env : App.environment)
    (req : App.request) (w w' : World) (r : result App.response) :
  App.upload_file cfg env req w = (w', r) ->
  match r with
  | Ok (code, App.Queued j t _ _) =>
      code = 202 /\ j = App.uuid4 env /\ t = App.new_task_id env
      /\ exists c, queue w' = queue w ++ [c]
                   /\ call_id c = t /\ arg_job_id c = j
  | Ok (code, App.Error _) => (code = 400 \/ code = 500) /\ queue w' = queue w
  | Raise _ => queue w' = queue w
  end.
Proof. apply upload_file_queue. Qed.

Lemma upload_queues_exactly_on_202_witness :
  (400 = 400 \/ 400 = 500)
  /\ queue (fst (App.upload_file Scenario.cfg ScenarioMore.notes_env
                   ScenarioMore.archive_request empty_world))
     = queue empty_world.
Proof.
  apply (upload_queues_exactly_on_202 Scenario.cfg ScenarioMore.notes_env
           ScenarioMore.archive_request empty_world _
           (Ok (400, App.Error "No .blend file found in archive"))).
  vm_compute. reflexivity.
Defined.

Lemma archive_upload_renders_the_first_scene_witness :
  snd (App.upload_file Scenario.cfg ScenarioMore.archive_env
         ScenarioMore.archive_request empty_world)
  = Ok (202, App.Queued "job-2" "task-2" "Render job queued successfully" "queued")
  /\ map arg_blend_file_path
       (queue (fst (App.upload_file Scenario.cfg ScenarioMore.archive_env
                      ScenarioMore.archive_request empty_world)))
     = ["/srv/backend/uploads/job-2_extracted/shots/hall.blend"%string]
  /\ fs (fst (App.upload_file Scenario.cfg ScenarioMore.archive_env
                 ScenarioMore.archive_request empty_world))
       !! "/srv/backend/uploads/job-2_pack.zip"%string = None.
Proof.
  rewrite (archive_upload_renders_the_first_scene Scenario.cfg
             ScenarioMore.archive_env ScenarioMore.archive_request empty_world
             "pack.zip" 128 1920 1080 None None
             (<["/srv/backend/uploads/job-2_extracted"%string := FS.Dir]>
                {["/srv/backend/uploads/job-2_pack.zip"%string := FS.File]})
             [("/srv/backend/uploads/job-2_extracted", "readme.txt");
              ("/srv/backend/uploads/job-2_extracted/shots", "hall.blend");
              ("/srv/backend/uploads/job-2_extracted/shots", "yard.blend");
              ("/srv/backend/uploads/job-2_extracted/textures", "wood.png")]%string
             "/srv/backend/uploads/job-2_extracted/shots/hall.blend"
             ["/srv/backend/uploads/job-2_extracted/shots/yard.blend"%string]).
  - repeat split; vm_compute; reflexivity.
  - repeat split; try reflexivity; try discriminate.
    apply (proj1 (bool_decide_eq_true _)). vm_compute. reflexivity.
  - reflexivity.
  - vm_compute. reflexivity.
  - reflexivity.
  - reflexivity.
  - reflexivity.
  - reflexivity.
Defined.

Lemma archive_without_scene_is_rejected_witness :
  snd (App.upload_file Scenario.cfg ScenarioMore.notes_env
         ScenarioMore.archive_request empty_world)
  = Ok (400, App.Error "No .blend file found in archive")
  /\ fs (fst (App.upload_file Scenario.cfg ScenarioMore.notes_env
                 ScenarioMore.archive_request empty_world))
       !! "/srv/backend/uploads/job-2_pack.zip"%string = Some FS.File.
Proof.
  destruct (archive_without_scene_is_rejected Scenario.cfg
              ScenarioMore.notes_env ScenarioMore.archive_request empty_world
              "pack.zip" 128 1920 1080
              (<["/srv/backend/uploads/job-2_extracted"%string := FS.Dir]>
                 {["/srv/backend/uploads/job-2_pack.zip"%string := FS.File]})
              [("/srv/backend/uploads/job-2_extracted", "readme.txt")]%string)
    as [Hrun Hkept].
  - repeat split; try reflexivity; try discriminate.
    apply (proj1 (bool_decide_eq_true _)). vm_compute. reflexivity.
  - reflexivity.
  - vm_compute. reflexivity.
  - reflexivity.
  - reflexivity.
  - rewrite Hrun. split; [reflexivity | exact Hkept].
Defined.

Lemma bad_frame_bound_orphans_the_upload_witness :
  App.upload_file Scenario.cfg Scenario.env ScenarioMore.bad_frame_request
    empty_world
  = (set_fs empty_world
       {["/srv/backend/uploads/job-1_scene.blend"%string := FS.File]},
     Raise ValueError).
Proof.
  rewrite (bad_frame_bound_orphans_the_upload Scenario.cfg Scenario.env
             ScenarioMore.bad_frame_request empty_world "scene.blend"
             128 1920 1080 ValueError).
  - vm_compute. reflexivity.
  - repeat split; try reflexivity; try discriminate.
    apply (proj1 (bool_decide_eq_true _)). vm_compute. reflexivity.
  - reflexivity.
  - left. reflexivity.
Defined.

Lemma accepted_scene_is_removed_by_its_task_witness :
  fs (fst (App.upload_file Scenario.cfg Scenario.env Scenario.request empty_world))
    !! "/srv/backend/uploads/job-1_scene.blend"%string = Some FS.File.
Proof.
  apply (proj1 (accepted_scene_is_removed_by_its_task Scenario.cfg Scenario.env
                  Scenario.request empty_world "scene.blend" 0 1920 1080
                  (Some 3) None (fun _ => Ok Scenario.partial_failure)
                  ltac:(repeat split; try reflexivity; try discriminate;
                        apply (proj1 (bool_decide_eq_true _));
                        vm_compute; reflexivity)
                  eq_refl eq_refl eq_refl)).
Defined.

(** ** The command line *)

Section Decimals.

Lemma digits_underscores_uint d : forall b acc,
  d <> Decimal.Nil \/ b = true ->
  Str.digits_underscores b acc (NilEmpty.string_of_uint d)
  = Some (uint_val acc d).
Proof.
  induction d; intros b acc Hd;
    try (cbn; apply IHd; now right).
  destruct Hd as [Hd | ->]; [congruence | reflexivity].
Qed.

Lemma uint_val_pos d : forall acc,
  uint_val (Z.pos acc) d = Z.pos (Pos.of_uint_acc d acc).
Proof.
  induction d; intros acc; cbn [uint_val Pos.of_uint_acc];
    try reflexivity;
    match goal with
    | |- uint_val ?z _ = Z.pos (Pos.of_uint_acc _ ?p) =>
        replace z with (Z.pos p) by lia; apply IHd
    end.
Qed.

Lemma uint_val_zero d : uint_val 0 d = Z.of_N (Pos.of_uint d).
Proof.
  induction d; cbn [uint_val Pos.of_uint]; try reflexivity; try assumption;
    cbn [Z.mul Z.add Z.of_N]; apply uint_val_pos.
Qed.

Lemma uint_val_to_uint p : uint_val 0 (Pos.to_uint p) = Z.pos p.
Proof. rewrite uint_val_zero, Unsigned.of_to. reflexivity. Qed.

Lemma rstrip_uint d :
  Str.rstrip_by Str.is_int_space (NilEmpty.string_of_uint d)
  = NilEmpty.string_of_uint d.
Proof.
  induction d; [reflexivity | ..];
    cbn [NilEmpty.string_of_uint Str.rstrip_by]; rewrite IHd;
    destruct (NilEmpty.string_of_uint d); reflexivity.
Qed.

Lemma lstrip_uint d :
  Str.lstrip_by Str.is_int_space (NilEmpty.string_of_uint d)
  = NilEmpty.string_of_uint d.
Proof. destruct d; reflexivity. Qed.

Lemma string_of_uint_nonempty d :
  d <> Decimal.Nil -> exists c s, NilEmpty.string_of_uint d = String c s.
Proof. destruct d; [congruence | ..]; intros _; cbn; eauto. Qed.

Lemma string_of_uint_head d c s :
  NilEmpty.string_of_uint d = String c s -> Str.is_digit c = true.
Proof. destruct d; cbn; intros H; inversion H; reflexivity. Qed.

(** [int(str(z)) == z]. *)
Lemma int_of_str_of_int z : Str.int_of_str (Str.str_of_int z) = Ok z.
Proof.
  unfold Str.str_of_int. destruct z as [|p|p]; [reflexivity | ..];
    cbn [Z.to_int NilZero.string_of_int NilZero.string_of_uint].
  - pose proof (Unsigned.to_uint_nonnil p) as Hn.
    replace (NilZero.string_of_uint (Pos.to_uint p))
      with (NilEmpty.string_of_uint (Pos.to_uint p))
      by (unfold NilZero.string_of_uint; destruct (Pos.to_uint p); congruence).
    unfold Str.int_of_str. rewrite lstrip_uint, rstrip_uint.
    destruct (string_of_uint_nonempty _ Hn) as (c & s & Hs).
    pose proof (string_of_uint_head _ _ _ Hs) as Hc.
    pose proof (digits_underscores_uint (Pos.to_uint p) false 0 (or_introl Hn))
      as Hd.
    rewrite Hs in *.
    assert (c <> "-"%char /\ c <> "+"%char) as [Hm Hp]
      by (split; intros ->; discriminate).
    destruct c as [[] [] [] [] [] [] [] []]; try congruence;
      rewrite Hd, uint_val_to_uint; reflexivity.
  - pose proof (Unsigned.to_uint_nonnil p) as Hn.
    replace (NilZero.string_of_uint (Pos.to_uint p))
      with (NilEmpty.string_of_uint (Pos.to_uint p))
      by (unfold NilZero.string_of_uint; destruct (Pos.to_uint p); congruence).
    unfold Str.int_of_str.
    cbn [Str.lstrip_by]. change (Str.is_int_space "-") with false. cbv iota.
    cbn [Str.rstrip_by]. rewrite rstrip_uint.
    destruct (string_of_uint_nonempty _ Hn) as (c & s & Hs).
    pose proof (digits_underscores_uint (Pos.to_uint p) false 0 (or_introl Hn))
      as Hd.
    rewrite Hs in *. rewrite Hd, uint_val_to_uint. reflexivity.
Qed.

End Decimals.

(** X23: the numbers on the render command line are the job's own: the
    words after [--samples], [--resolution-x] and [--resolution-y] read
    back with [int] as the task's values, a missing or zero value being
    replaced by the configured default, and a frame bound that is set,
    zero included, is passed on under its flag and reads back
    unchanged. *)
Theorem command_numbers_read_back
    cfg path job fmt (samples rx ry fstart fend : option Z) :
  let cmd := Tasks.command cfg path job fmt samples rx ry fstart fend in
  (cmd !! 10%nat = Some "--samples"%string
   /\ Str.int_of_str <$> cmd !! 11%nat
      = Some (Ok (or_int samples Config.DEFAULT_SAMPLES)))
  /\ (cmd !! 12%nat = Some "--resolution-x"%string
      /\ Str.int_of_str <$> cmd !! 13%nat
         = Some (Ok (or_int rx Config.DEFAULT_RESOLUTION_X)))
  /\ (cmd !! 14%nat = Some "--resolution-y"%string
      /\ Str.int_of_str <$> cmd !! 15%nat
         = Some (Ok (or_int ry Config.DEFAULT_RESOLUTION_Y)))
  /\ (forall z, fstart = Some z ->
        cmd !! 19%nat = Some "--frame-start"%string
        /\ Str.int_of_str <$> cmd !! 20%nat = Some (Ok z))
  /\ (forall z, fend = Some z ->
        exists i, cmd !! i = Some "--frame-end"%string
                  /\ Str.int_of_str <$> cmd !! S i = Some (Ok z)).
Proof.
  cbv zeta. unfold Tasks.command, Tasks.build_cmd.
  split; [|split; [|split; [|split]]].
  - split; [reflexivity|]. cbn. now rewrite int_of_str_of_int.
  - split; [reflexivity|]. cbn. now rewrite int_of_str_of_int.
  - split; [reflexivity|]. cbn. now rewrite int_of_str_of_int.
  - intros z ->. split; [reflexivity|]. cbn. now rewrite int_of_str_of_int.
  - intros z ->. destruct fstart as [s|].
    + exists 21%nat. split; [reflexivity|]. cbn. now rewrite int_of_str_of_int.
    + exists 19%nat. split; [reflexivity|]. cbn. now rewrite int_of_str_of_int.
Qed.
